(** * ussb: tiny append-only logs and the file-update engine on top of them

    A shallow embedding of the parts of the repository that the specification's
    testable properties talk about, and of the functions around them:

    - [version_manager.py] (package [ussb]): the diff and patch engine, the
      version graph, version jumps, the apply step and the configuration
      snapshot;
    - [packet.py] (package [ussb]): the packet codec, [updfile] packets and
      blob chains;
    - [feed.py] (package [optimize/tinyssb]): the struct based feed store;
    - [packet.py] and [feed.py] (package [deprecated/tinyssb_update]): the
      class based packet and feed.

    Python values are modelled as follows.  A [str] is a [string]; [bytes] and
    [bytearray] are lists of [byte]; an [int] is a [Z]; a [dict] is a [gmap];
    a raised exception is the [Raise] case of the result type [res]. *)

From Stdlib Require Import ZArith Lia List Ascii String Bool Sorted.
From Stdlib.Strings Require Import Byte.
From stdpp Require Import gmap strings list fin_maps.
From Equations Require Import Equations.
Import ListNotations.

Local Open Scope string_scope.
Local Open Scope list_scope.
Local Open Scope Z_scope.

(** ** Exceptions *)

(** The exceptions the modelled code can raise. *)
Inductive exn : Type :=
| IndexError
| KeyError
| OSError
| AssertionError
| AttributeError
| ValueError.

(** The outcome of a call: a value, or a raised exception.  A loop that the
    model runs on fuel ends in [Timeout] when the fuel is used up; [Timeout]
    says nothing about the program. *)
Inductive res (A : Type) : Type :=
| Ok (a : A)
| Raise (e : exn)
| Timeout.
Arguments Ok {A} a.
Arguments Raise {A} e.
Arguments Timeout {A}.

#[global] Instance res_ret : MRet res := fun A a => Ok a.
#[global] Instance res_fmap : FMap res := fun A B f r =>
  match r with
  | Ok a => Ok (f a)
  | Raise e => Raise e
  | Timeout => Timeout
  end.
#[global] Instance res_bind : MBind res := fun A B k r =>
  match r with
  | Ok a => k a
  | Raise e => Raise e
  | Timeout => Timeout
  end.

(** A [for] loop whose body can raise. *)
Fixpoint for_each {A S : Type} (body : S -> A -> res S) (xs : list A) (s : S)
  : res S :=
  match xs with
  | [] => Ok s
  | x :: xs' => s' ← body s x; for_each body xs' s'
  end.

(** ** Python lists and strings *)

Module Py.

(** An index of a slice, brought into the range [0 .. n]: a negative index
    counts from the end, and an index outside the sequence is clamped. *)
Definition clamp (n : nat) (i : Z) : nat :=
  if i <? 0 then Z.to_nat (Z.max 0 (i + Z.of_nat n))
  else Z.to_nat (Z.min i (Z.of_nat n)).

(** [lst[i:j]], [lst[i:]] and [lst[:j]]. *)
Definition slice {A : Type} (lst : list A) (i j : Z) : list A :=
  let a := clamp (length lst) i in
  let b := clamp (length lst) j in
  take (b - a) (drop a lst).

Definition slice_from {A : Type} (lst : list A) (i : Z) : list A :=
  drop (clamp (length lst) i) lst.

Definition slice_to {A : Type} (lst : list A) (j : Z) : list A :=
  take (clamp (length lst) j) lst.

(** [lst[i:j] = xs] on a list or a [bytearray]: the slice is replaced by
    [xs], whatever the length of [xs]. *)
Definition set_slice {A : Type} (lst : list A) (i j : Z) (xs : list A) : list A :=
  let a := clamp (length lst) i in
  let b := Nat.max a (clamp (length lst) j) in
  take a lst ++ xs ++ drop b lst.

Definition set_slice_from {A : Type} (lst : list A) (i : Z) (xs : list A) : list A :=
  take (clamp (length lst) i) lst ++ xs.

Definition set_slice_to {A : Type} (lst : list A) (j : Z) (xs : list A) : list A :=
  xs ++ drop (clamp (length lst) j) lst.

(** The position an index [lst[i]] names: a negative index counts from the
    end; an index outside the list raises [IndexError]. *)
Definition index (n : nat) (i : Z) : res nat :=
  let i := if i <? 0 then i + Z.of_nat n else i in
  if (i <? 0) || (Z.of_nat n <=? i) then Raise IndexError
  else Ok (Z.to_nat i).

(** [lst[i]]. *)
Definition list_get {A : Type} (lst : list A) (i : Z) : res A :=
  k ← index (length lst) i;
  match lst !! k with
  | Some x => Ok x
  | None => Raise IndexError
  end.

(** [lst[i] = x]. *)
Definition list_set {A : Type} (lst : list A) (i : Z) (x : A) : res (list A) :=
  k ← index (length lst) i;
  Ok (<[k := x]> lst).

(** [lst.insert(i, x)]. *)
Definition list_insert {A : Type} (lst : list A) (i : Z) (x : A) : list A :=
  let k := clamp (length lst) i in
  take k lst ++ x :: drop k lst.

(** [del lst[i]]. *)
Definition list_del {A : Type} (lst : list A) (i : Z) : res (list A) :=
  k ← index (length lst) i;
  Ok (take k lst ++ drop (S k) lst).

(** [range(a, b)]. *)
Definition range (a b : Z) : list Z :=
  map (fun k => a + Z.of_nat k) (seq 0 (Z.to_nat (b - a))).

(** [max(lst)]: raises [ValueError] on the empty list. *)
Definition max_of (lst : list Z) : res Z :=
  match lst with
  | [] => Raise ValueError
  | x :: xs => Ok (foldl Z.max x xs)
  end.

(** The line feed character. *)
Definition LF : ascii := ascii_of_nat 10.

(** [s.split("\n")]. *)
Fixpoint split_lines (s : string) : list string :=
  match s with
  | EmptyString => [EmptyString]
  | String c s' =>
      if Ascii.eqb c LF then EmptyString :: split_lines s'
      else match split_lines s' with
           | l :: ls => String c l :: ls
           | [] => [String c EmptyString]
           end
  end.

(** ["\n".join(lines)]. *)
Fixpoint join_lines (lines : list string) : string :=
  match lines with
  | [] => EmptyString
  | [l] => l
  | l :: ls => l +:+ String LF (join_lines ls)
  end.

(** [x in lst] for a list of strings. *)
Definition str_in (x : string) (lst : list string) : bool :=
  existsb (String.eqb x) lst.

End Py.

(** ** Bytes *)

Abbreviation bytes := (list byte).

#[global] Instance byte_eq_dec : EqDecision byte := Byte.byte_eq_dec.
#[global] Instance byte_countable : Countable byte :=
  inj_countable Byte.to_N Byte.of_N Byte.of_to_N.

Module Bytes.

Definition to_Z (b : byte) : Z := Z.of_N (Byte.to_N b).

(** The byte of an integer; integers outside [0 .. 255] are reduced modulo
    256. *)
Definition of_Z (z : Z) : byte :=
  match Byte.of_N (Z.to_N (z mod 256)) with
  | Some b => b
  | None => x00
  end.

(** [bytes(n)] and [bytearray(n)]: [n] zero bytes. *)
Definition zeros (n : nat) : bytes := repeat x00 n.

(** [int.from_bytes(b, "big")] and [int.from_bytes(b, "little")]. *)
Definition from_big (b : bytes) : Z :=
  foldl (fun acc x => acc * 256 + to_Z x) 0 b.

Definition from_little (b : bytes) : Z := from_big (rev b).

(** [z.to_bytes(n, "little")] and [z.to_bytes(n, "big")].  The code runs on
    MicroPython, whose [to_bytes] keeps the low [n] bytes of an integer that
    does not fit. *)
Fixpoint to_little (n : nat) (z : Z) : bytes :=
  match n with
  | O => []
  | S n' => of_Z z :: to_little n' (z / 256)
  end.

Definition to_big (n : nat) (z : Z) : bytes := rev (to_little n z).

(** [s.encode()] and [b.decode()].  A [str] is represented by its UTF-8
    encoding, one character of the [string] per byte, so both are changes of
    representation; the [UnicodeError] that [decode] raises on bytes that are
    not UTF-8 is not modelled. *)
Definition encode (s : string) : bytes := list_byte_of_string s.
Definition decode (b : bytes) : string := string_of_list_byte b.

(** [chr(b)] for a byte [b]. *)
Definition chr (b : byte) : string := string_of_list_byte [b].

Definition eqb (a b : bytes) : bool := bool_decide (a = b).

(** The hexadecimal digit of a number below 16. *)
Definition hex_digit (n : Z) : ascii :=
  nth (Z.to_nat n) (list_ascii_of_string "0123456789abcdef") "0"%char.

(** The value of a hexadecimal digit. *)
Definition digit_value (c : ascii) : option Z :=
  let n := Z.of_nat (nat_of_ascii c) in
  if (48 <=? n) && (n <=? 57) then Some (n - 48)
  else if (97 <=? n) && (n <=? 102) then Some (n - 87)
  else if (65 <=? n) && (n <=? 70) then Some (n - 55)
  else None.

(** [hexlify(b).decode()]: two digits for every byte. *)
Fixpoint hexlify (b : bytes) : string :=
  match b with
  | [] => EmptyString
  | x :: rest =>
      String (hex_digit (to_Z x / 16))
        (String (hex_digit (to_Z x mod 16)) (hexlify rest))
  end.

(** [unhexlify(s.encode())]: raises [ValueError] on a string of odd length or
    with a character that is no hexadecimal digit. *)
Fixpoint unhexlify (s : string) : res bytes :=
  match s with
  | EmptyString => Ok []
  | String hi (String lo rest) =>
      match digit_value hi, digit_value lo with
      | Some h, Some l => rest ← unhexlify rest; Ok (of_Z (16 * h + l) :: rest)
      | _, _ => Raise ValueError
      end
  | String _ EmptyString => Raise ValueError
  end.

End Bytes.

(** ** Variable-length integers *)

Module VarInt.

(** Modelled from the spec: [to_var_int] of the module [util], which is not
    among the sources.  The specification calls it a varint and lets a length
    up to 27 take one byte of the 28-byte header.  The encoding taken here is
    tiny-ssb's: a value up to 252 is one byte; a larger value is a marker byte
    ([0xfd], [0xfe], [0xff]) followed by the value in 2, 4 or 8 bytes,
    little-endian first. *)
Definition to_var_int (i : Z) : bytes :=
  if i <=? 252 then [Bytes.of_Z i]
  else if i <=? 65535 then xfd :: Bytes.to_little 2 i
  else if i <=? 4294967295 then xfe :: Bytes.to_little 4 i
  else xff :: Bytes.to_little 8 i.

(** Modelled from the spec: [from_var_int] of the module [util], the inverse
    of [to_var_int]; it returns the value and the number of bytes read. *)
Definition from_var_int (b : bytes) : res (Z * Z) :=
  match b with
  | [] => Raise AssertionError
  | head :: rest =>
      if Bytes.to_Z head <=? 252 then Ok (Bytes.to_Z head, 1)
      else
        let n := if Bytes.to_Z head =? 253 then 2%nat
                 else if Bytes.to_Z head =? 254 then 4%nat else 8%nat in
        if (length rest <? n)%nat then Raise AssertionError
        else Ok (Bytes.from_little (take n rest), Z.of_nat (S n))
  end.

End VarInt.

(** ** The cryptographic primitives *)

(** The hash and the signature scheme come from libraries ([uhashlib],
    [pure25519], the module [crypto]); the packet codec is modelled over
    them.  [PYCOM] is the flag of the module [util] that tells whether the
    code runs on a Pycom device. *)
Class Crypto : Type := {
  (** [sha256(data).digest()] *)
  sha256 : bytes -> bytes;
  (** [SigningKey(key).sign(msg)] *)
  sign : bytes -> bytes -> bytes;
  (** [VerifyingKey(fid).verify(signature, msg)]: [true] when the library
      accepts, [false] when it raises *)
  verify : bytes -> bytes -> bytes -> bool;
  PYCOM : bool
}.

(** [assert cond]. *)
Definition assert (cond : bool) : res unit :=
  if cond then Ok tt else Raise AssertionError.

(** [len(b) == n]. *)
Definition len_is (b : bytes) (n : nat) : bool := (length b =? n)%nat.

(** ** packet.py (package ussb): the packet codec *)

Module Packet.

Definition PLAIN48 : Z := 0.
Definition CHAIN20 : Z := 1.
Definition ISCHILD : Z := 2.
Definition ISCONTN : Z := 3.
Definition MKCHILD : Z := 4.
Definition CONTDAS : Z := 5.
Definition ACKNLDG : Z := 6.
Definition UPDFILE : Z := 7.
Definition APPLYUP : Z := 8.

(** [b"tiny-v02"] *)
Definition PKT_PREFIX : bytes := Bytes.encode "tiny-v02".

(** A value stored into a field of a [uctypes] struct occupies the field's
    [n] bytes: a shorter value is followed by zero bytes.  (A longer value
    does not occur: the lengths are asserted or fixed by the libraries.) *)
Definition fit (n : nat) (b : bytes) : bytes :=
  take n b ++ Bytes.zeros (n - length b).

(** The struct [WIRE_PACKET].  Its fields are written with [fit]. *)
Record WIRE_PACKET : Type := {
  reserved : bytes;
  dmx : bytes;
  type : bytes;
  payload : bytes;
  signature : bytes
}.

(** The 128 bytes of a [WIRE_PACKET]:
    [bytearray_at(addressof(wpkt), sizeof(WIRE_PACKET))]. *)
Definition wire_bytes (w : WIRE_PACKET) : bytes :=
  fit 8 (reserved w) ++ fit 7 (dmx w) ++ fit 1 (type w)
  ++ fit 48 (payload w) ++ fit 64 (signature w).

(** [struct(addressof(pkt_wire), WIRE_PACKET, BIG_ENDIAN)]: the fields of the
    struct laid over a [bytearray]. *)
Definition wire_struct (pkt_wire : bytes) : WIRE_PACKET := {|
  reserved := Py.slice pkt_wire 0 8;
  dmx := Py.slice pkt_wire 8 15;
  type := Py.slice pkt_wire 15 16;
  payload := Py.slice pkt_wire 16 64;
  signature := Py.slice pkt_wire 64 128
|}.

(** The struct [PACKET]: the wire packet and the virtual information. *)
Record PACKET : Type := {
  wire : WIRE_PACKET;
  fid : bytes;
  seq : bytes;
  prev_mid : bytes;
  mid : bytes
}.

(** The struct [BLOB]. *)
Record BLOB : Type := {
  blob_reserved : bytes;
  blob_payload : bytes;
  pointer : bytes
}.

(** The 128 bytes of a [BLOB]. *)
Definition blob_bytes (b : BLOB) : bytes :=
  fit 8 (blob_reserved b) ++ fit 100 (blob_payload b) ++ fit 20 (pointer b).

Section WithCrypto.
Context `{Crypto}.

(** The block name: the first 64 bytes of [full_array] in [new_packet] and
    [pkt_from_wire]. *)
Definition block_name (reserved fid seq prev_mid : bytes) : bytes :=
  let full_array := Bytes.zeros 184 in
  let full_array := Py.set_slice_to full_array 8 reserved in
  let full_array := Py.set_slice full_array 8 40 fid in
  let full_array := Py.set_slice full_array 40 44 seq in
  Py.set_slice full_array 44 64 prev_mid.

Definition new_packet (fid seq prev_mid payload pkt_type key : bytes)
  : res PACKET :=
  _ ← assert (len_is fid 32);
  _ ← assert (len_is seq 4);
  _ ← assert (len_is prev_mid 20);
  _ ← assert (len_is payload 48);
  _ ← assert (len_is pkt_type 1);
  _ ← assert (len_is key 32);
  let reserved := fit 8 PKT_PREFIX in
  let full_array := block_name reserved fid seq prev_mid in
  let dmx := fit 7 (Py.slice_to (sha256 (Py.slice_to full_array 64)) 7) in
  let full_array := Py.set_slice full_array 64 71 dmx in
  let full_array := Py.set_slice full_array 71 72 pkt_type in
  let full_array := Py.set_slice full_array 72 120 payload in
  let full_array :=
    Py.set_slice_from full_array 120 (sign key (Py.slice_to full_array 120)) in
  let wpkt := {| reserved := reserved; dmx := dmx; type := fit 1 pkt_type;
                 payload := fit 48 payload;
                 signature := fit 64 (Py.slice_from full_array 120) |} in
  Ok {| wire := wpkt; fid := fit 32 fid; seq := fit 4 seq;
        prev_mid := fit 20 prev_mid;
        mid := fit 20 (Py.slice_to (sha256 full_array) 20) |}.

(** [pkt_from_wire]: [None] when the signature does not verify. *)
Definition pkt_from_wire (fid seq prev_mid pkt_wire : bytes)
  : res (option PACKET) :=
  _ ← assert (len_is fid 32);
  _ ← assert (len_is seq 4);
  _ ← assert (len_is prev_mid 20);
  _ ← assert (len_is pkt_wire 128);
  let wpkt := wire_struct pkt_wire in
  let full_array := block_name (reserved wpkt) fid seq prev_mid in
  let full_array := Py.set_slice full_array 64 71 (dmx wpkt) in
  let full_array := Py.set_slice full_array 71 72 (type wpkt) in
  let full_array := Py.set_slice full_array 72 120 (payload wpkt) in
  if negb PYCOM && negb (verify fid (signature wpkt) (Py.slice_to full_array 120))
  then Ok None
  else
    let full_array := Py.set_slice_from full_array 120 (signature wpkt) in
    Ok (Some {| wire := wpkt; fid := fit 32 fid; seq := fit 4 seq;
                prev_mid := fit 20 prev_mid;
                mid := fit 20 (Py.slice_to (sha256 full_array) 20) |}).

Definition type_byte (t : Z) : bytes := Bytes.to_big 1 t.

Definition create_upd_pkt (fid seq prev_mid file_name v_number key : bytes)
  : res PACKET :=
  _ ← assert (length file_name <? 44)%nat;
  let payload := Bytes.zeros 48 in
  let fn_len := Z.of_nat (length file_name) in
  let payload := Py.set_slice_to payload 1 (VarInt.to_var_int fn_len) in
  let payload := Py.set_slice payload 1 (fn_len + 1) file_name in
  let payload := Py.set_slice payload (fn_len + 1) (fn_len + 5) v_number in
  new_packet fid seq prev_mid payload (type_byte UPDFILE) key.

Definition create_end_pkt (fid seq prev_mid contn_fid skey : bytes) : res PACKET :=
  let payload := Bytes.zeros 48 in
  let payload := Py.set_slice_to payload 32 contn_fid in
  new_packet fid seq prev_mid payload (type_byte CONTDAS) skey.

(** [ceil(x / 100)] for an integer [x]. *)
Definition ceil_div_100 (x : Z) : Z := - ((- x) / 100).

(** The [while front >= 0] loop of [create_chain]: the blobs are built from
    the last one to the first; [chain] collects them in that order. *)
Fixpoint chain_loop (fuel : nat) (blob_content : bytes) (front back : Z)
  (ptr : bytes) (chain : list BLOB) : res (list BLOB * bytes) :=
  match fuel with
  | O => Timeout
  | S fuel' =>
      if front >=? 0 then
        let blob := {| blob_reserved := Bytes.zeros 8;
                       blob_payload := fit 100 (Py.slice blob_content front back);
                       pointer := fit 20 ptr |} in
        let ptr := Py.slice_to (sha256 (Py.slice (blob_bytes blob) 8 128)) 20 in
        chain_loop fuel' blob_content (front - 100) (back - 100) ptr
          (chain ++ [blob])
      else Ok (chain, ptr)
  end.

Definition create_chain (fid seq prev_mid content key : bytes)
  : res (PACKET * list BLOB) :=
  let pkt_type := type_byte CHAIN20 in
  let content_len := Z.of_nat (length content) in
  if content_len <=? 27 then
    let payload := Bytes.zeros 48 in
    let payload := Py.set_slice_to payload 1 (VarInt.to_var_int content_len) in
    let payload := Py.set_slice payload 1 (content_len + 1) content in
    pkt ← new_packet fid seq prev_mid payload pkt_type key;
    Ok (pkt, [])
  else
    let var_int := VarInt.to_var_int content_len in
    let vil := Z.of_nat (length var_int) in
    let expected_num_blobs := ceil_div_100 (content_len - 28) in
    let payload := Bytes.zeros 48 in
    let payload := Py.set_slice_to payload vil var_int in
    let payload := Py.set_slice payload vil 28 (Py.slice_to content (28 - vil)) in
    let content_len := content_len - (28 - vil) in
    let blob_content := Bytes.zeros (Z.to_nat (expected_num_blobs * 100)) in
    let blob_content :=
      Py.set_slice_to blob_content content_len (Py.slice_from content (28 - vil)) in
    let back := Z.of_nat (length blob_content) in
    let front := Z.max (back - 100) 0 in
    '(chain, ptr) ← chain_loop (S (S (length blob_content))) blob_content front back
                      (Bytes.zeros 20) [];
    let chain := rev chain in
    let payload := Py.set_slice_from payload 28 ptr in
    pkt ← new_packet fid seq prev_mid payload pkt_type key;
    Ok (pkt, chain).

(** The 120 bytes of a packet that are signed: the block name, the
    demultiplexing field, the type and the payload. *)
Definition expanded (reserved fid seq prev_mid dmx pkt_type payload : bytes)
  : bytes :=
  reserved ++ fid ++ seq ++ prev_mid ++ dmx ++ pkt_type ++ payload.

(** The demultiplexing field of the packet at a place in a feed: the first
    seven bytes of the hash of the block name. *)
Definition dmx_of (fid seq prev_mid : bytes) : bytes :=
  fit 7 (Py.slice_to (sha256 (PKT_PREFIX ++ fid ++ seq ++ prev_mid)) 7).

(** The first packet of a feed has the sequence number 1 and follows the
    first 20 bytes of the feed ID. *)
Definition create_genesis_pkt (fid payload skey : bytes) : res PACKET :=
  let seq := Bytes.to_big 4 1 in
  let pkt_type := type_byte PLAIN48 in
  new_packet fid seq (Py.slice_to fid 20) payload pkt_type skey.

Definition create_parent_pkt (fid seq prev_mid child_fid skey : bytes)
  : res PACKET :=
  let pkt_type := type_byte MKCHILD in
  let payload := Bytes.zeros 48 in
  let payload := Py.set_slice_to payload 32 child_fid in
  new_packet fid seq prev_mid payload pkt_type skey.

Definition create_child_pkt (fid payload skey : bytes) : res PACKET :=
  let seq := Bytes.to_big 4 1 in
  let prev_mid := Py.slice_to fid 20 in
  let pkt_type := type_byte ISCHILD in
  new_packet fid seq prev_mid payload pkt_type skey.

Definition create_contn_pkt (fid payload skey : bytes) : res PACKET :=
  let seq := Bytes.to_big 4 1 in
  let prev_mid := Py.slice_to fid 20 in
  let pkt_type := type_byte ISCONTN in
  new_packet fid seq prev_mid payload pkt_type skey.

Definition create_apply_pkt (fid seq prev_mid file_fid update_seq key : bytes)
  : res PACKET :=
  _ ← assert (len_is file_fid 32);
  _ ← assert (len_is update_seq 4);
  let payload := Bytes.zeros 48 in
  let payload := Py.set_slice_to payload 32 file_fid in
  let payload := Py.set_slice payload 32 36 update_seq in
  let pkt_type := type_byte APPLYUP in
  new_packet fid seq prev_mid payload pkt_type key.

End WithCrypto.

End Packet.

(** ** feed.py (package optimize/tinyssb): the feed store *)

Module Feed.
Import Packet.

(** The struct [FEED], the 128 bytes of a header file.  The three sequence
    numbers are fields of 32 bits. *)
Record FEED : Type := {
  fid : bytes;
  parent_fid : bytes;
  parent_seq : Z;
  anchor_seq : Z;
  anchor_mid : bytes;
  front_seq : Z;
  front_mid : bytes
}.

(** A value stored into a field of 32 bits. *)
Definition u32 (z : Z) : Z := z mod 2 ^ 32.

(** [bytearray_at(addressof(feed), sizeof(FEED))] *)
Definition feed_bytes (feed : FEED) : bytes :=
  Bytes.zeros 12 ++ fit 32 (fid feed) ++ fit 32 (parent_fid feed)
  ++ Bytes.to_big 4 (parent_seq feed) ++ Bytes.to_big 4 (anchor_seq feed)
  ++ fit 20 (anchor_mid feed) ++ Bytes.to_big 4 (front_seq feed)
  ++ fit 20 (front_mid feed).

(** [struct(addressof(feed_header), FEED, BIG_ENDIAN)] *)
Definition feed_struct (feed_header : bytes) : FEED := {|
  fid := Py.slice feed_header 12 44;
  parent_fid := Py.slice feed_header 44 76;
  parent_seq := Bytes.from_big (Py.slice feed_header 76 80);
  anchor_seq := Bytes.from_big (Py.slice feed_header 80 84);
  anchor_mid := Py.slice feed_header 84 104;
  front_seq := Bytes.from_big (Py.slice feed_header 104 108);
  front_mid := Py.slice feed_header 108 128
|}.

(** The files of the feed store.  The header and the log of a feed are named
    by the hexadecimal form of its feed ID and a blob by that of its pointer,
    so the files are keyed by the feed ID and by the pointer.  Directories
    are not modelled. *)
Record disk : Type := {
  heads : gmap bytes bytes;
  logs : gmap bytes bytes;
  blobs : gmap bytes bytes
}.

Definition empty_disk : disk := {| heads := ∅; logs := ∅; blobs := ∅ |}.

Definition save_header (feed : FEED) (d : disk) : disk :=
  {| heads := <[fid feed := feed_bytes feed]> (heads d);
     logs := logs d; blobs := blobs d |}.

(** [create_feed]; [trusted_mid] is [None] when the argument is left out. *)
Definition create_feed (fid : bytes) (trusted_seq : Z)
  (trusted_mid : option bytes) (parent_seq : Z) (parent_fid : bytes) (d : disk)
  : res (FEED * disk) :=
  let trusted_mid := default (Py.slice_to fid 20) trusted_mid in
  _ ← assert (len_is fid 32);
  _ ← assert (len_is trusted_mid 20);
  _ ← assert (len_is parent_fid 32);
  let feed := {| fid := fit 32 fid; parent_fid := fit 32 parent_fid;
                 parent_seq := u32 parent_seq; anchor_seq := u32 trusted_seq;
                 anchor_mid := fit 20 trusted_mid; front_seq := u32 trusted_seq;
                 front_mid := fit 20 (Py.slice_to fid 20) |} in
  Ok (feed, save_header feed d).

Definition get_feed (fid : bytes) (d : disk) : res FEED :=
  match heads d !! fid with
  | None => Raise OSError
  | Some content => Ok (feed_struct (Py.slice_to content 128))
  end.

Definition get_wire (feed : FEED) (i : Z) (d : disk) : res bytes :=
  let i := if i <? 0 then front_seq feed + i + 1 else i in
  let anchor_seq := anchor_seq feed in
  if (i >? front_seq feed) || (i <=? anchor_seq) then Raise IndexError
  else
    let relative_i := i - anchor_seq in
    match logs d !! fid feed with
    | None => Raise OSError
    | Some content =>
        let offset := 128 * (relative_i - 1) in
        Ok (Py.slice content offset (offset + 128))
    end.

(** The [while ptr != null_ptr] loop of [get_payload]. *)
Fixpoint unwrap_chain (fuel : nat) (d : disk) (content_size : Z)
  (content_array : bytes) (current_i : Z) (ptr : bytes) : res bytes :=
  match fuel with
  | O => Timeout
  | S fuel' =>
      if negb (Bytes.eqb ptr (Bytes.zeros 20)) then
        match blobs d !! ptr with
        | None => Raise OSError
        | Some content =>
            let blob_array := Py.slice_to content 128 in
            let ptr := Py.slice_from blob_array 108 in
            if Bytes.eqb ptr (Bytes.zeros 20) then
              let content_array :=
                Py.set_slice_from content_array current_i
                  (Py.slice blob_array 8 (content_size - current_i + 8)) in
              unwrap_chain fuel' d content_size content_array current_i ptr
            else
              let content_array :=
                Py.set_slice content_array current_i (current_i + 100)
                  (Py.slice blob_array 8 108) in
              unwrap_chain fuel' d content_size content_array (current_i + 100) ptr
        end
      else Ok content_array
  end.

Definition get_payload (fuel : nat) (feed : FEED) (i : Z) (d : disk)
  : res bytes :=
  wire_array ← get_wire feed i d;
  let wpkt := wire_struct wire_array in
  if negb (Bytes.eqb (type wpkt) (type_byte CHAIN20)) then Ok (payload wpkt)
  else
    '(content_size, num_bytes) ← VarInt.from_var_int (payload wpkt);
    if content_size <=? 27 then
      Ok (Py.slice (payload wpkt) 1 (1 + content_size))
    else
      let content_array := Bytes.zeros (Z.to_nat content_size) in
      let current_i := 28 - num_bytes in
      let content_array :=
        Py.set_slice_to content_array current_i
          (Py.slice (payload wpkt) num_bytes (-20)) in
      let ptr := Py.slice_from (payload wpkt) (-20) in
      unwrap_chain fuel d content_size content_array current_i ptr.

(** [append_packet]: the wire packet goes to the end of the log, then the
    header advances.  The feed is a struct that the function changes in
    place; the model returns the changed feed. *)
Definition append_packet (feed : FEED) (pkt : PACKET) (d : disk)
  : FEED * disk :=
  let d := {| heads := heads d;
              logs := <[fid feed :=
                          default [] (logs d !! fid feed) ++ wire_bytes (wire pkt)]>
                        (logs d);
              blobs := blobs d |} in
  let feed := {| fid := fid feed; parent_fid := parent_fid feed;
                 parent_seq := parent_seq feed; anchor_seq := anchor_seq feed;
                 anchor_mid := anchor_mid feed;
                 front_seq := u32 (front_seq feed + 1);
                 front_mid := fit 20 (mid pkt) |} in
  (feed, save_header feed d).

Section WithCrypto.
Context `{Crypto}.

Definition append_bytes (feed : FEED) (payload key : bytes) (d : disk)
  : res (FEED * disk) :=
  let payload_len := length payload in
  _ ← assert (payload_len <=? 48)%nat;
  let payload :=
    if (payload_len <? 48)%nat
    then Py.set_slice_to (Bytes.zeros 48) (Z.of_nat payload_len) payload
    else payload in
  let pkt_type := type_byte PLAIN48 in
  let seq := Bytes.to_big 4 (front_seq feed + 1) in
  pkt ← new_packet (fid feed) seq (front_mid feed) payload pkt_type key;
  Ok (append_packet feed pkt d).

(** The body of the [for blob in blobs] loop of [append_blob]: the blob is
    written under the pointer that leads to it. *)
Definition save_blob (s : bytes * disk) (blob : BLOB) : res (bytes * disk) :=
  let '(ptr, d) := s in
  Ok (fit 20 (pointer blob),
      {| heads := heads d; logs := logs d;
         blobs := <[ptr := blob_bytes blob]> (blobs d) |}).

Definition append_blob (feed : FEED) (payload key : bytes) (d : disk)
  : res (FEED * disk) :=
  '(pkt, blobs) ← create_chain (fid feed) (Bytes.to_big 4 (front_seq feed))
                     (front_mid feed) payload key;
  let ptr := Py.slice_from (Packet.payload (wire pkt)) (-20) in
  '(ptr, d) ← for_each save_blob blobs (ptr, d);
  _ ← assert (Bytes.eqb ptr (Bytes.zeros 20));
  Ok (append_packet feed pkt d).

Definition verify_and_append_bytes (feed : FEED) (wpkt : bytes) (d : disk)
  : res (FEED * disk) :=
  pkt ← pkt_from_wire (fid feed) (Bytes.to_big 4 (front_seq feed))
          (front_mid feed) wpkt;
  match pkt with
  | None => Ok (feed, d)
  | Some pkt => Ok (append_packet feed pkt d)
  end.

Definition add_upd_file_name (feed : FEED) (file_name : string) (key : bytes)
  (v_number : Z) (d : disk) : res (FEED * disk) :=
  let fn_array := Bytes.encode file_name in
  let vn_array := Bytes.to_big 4 v_number in
  pkt ← create_upd_pkt (fid feed) (Bytes.to_big 4 (front_seq feed + 1))
          (front_mid feed) fn_array vn_array key;
  Ok (append_packet feed pkt d).

End WithCrypto.

Definition get_upd_file_name (feed : FEED) (d : disk)
  : res (option (string * Z)) :=
  wpkt ← get_wire feed 2 d;
  if negb (Bytes.eqb (Py.slice wpkt 15 16) (type_byte UPDFILE)) then Ok None
  else
    '(fn_len, n_bytes) ← VarInt.from_var_int (Py.slice wpkt 16 64);
    let offset := 16 + n_bytes in
    let offset2 := offset + fn_len in
    let file_name := Bytes.decode (Py.slice wpkt offset offset2) in
    let v_num := Bytes.from_big (Py.slice wpkt offset2 (offset2 + 3)) in
    Ok (Some (file_name, v_num)).

(** The body of the loop of [get_children]. *)
Definition collect_child (feed : FEED) (d : disk) (children : list bytes) (i : Z)
  : res (list bytes) :=
  wpkt ← get_wire feed i d;
  if Bytes.eqb (Py.slice wpkt 15 16) (type_byte MKCHILD)
  then Ok (children ++ [Py.slice wpkt 16 48])
  else Ok children.

Definition get_children (feed : FEED) (d : disk) : res (list bytes) :=
  for_each (collect_child feed d)
    (Py.range (anchor_seq feed + 1) (front_seq feed + 1)) [].

Definition get_contn (feed : FEED) (d : disk) : res (option bytes) :=
  if front_seq feed <? 1 then Ok None
  else
    wpkt ← get_wire feed (-1) d;
    if Bytes.eqb (Py.slice wpkt 15 16) (type_byte CONTDAS)
    then Ok (Some (Py.slice wpkt 16 48))
    else Ok None.

Definition get_prev (feed : FEED) (d : disk) : res (option bytes) :=
  if negb (anchor_seq feed =? 0) then Ok None
  else
    wpkt ← get_wire feed 1 d;
    if Bytes.eqb (Py.slice wpkt 15 16) (type_byte ISCONTN)
    then Ok (Some (Py.slice wpkt 16 48))
    else Ok None.

(** [range(a, b, -1)]. *)
Definition range_down (a b : Z) : list Z :=
  map (fun k => a - Z.of_nat k) (List.seq 0 (Z.to_nat (a - b))).

(** The loop of [get_newest_apply], from the front of the feed backwards. *)
Fixpoint newest_apply_loop (feed : FEED) (d : disk) (file_fid : bytes)
  (seqs : list Z) : res (option Z) :=
  match seqs with
  | [] => Ok None
  | i :: seqs' =>
      wpkt ← get_wire feed i d;
      if Bytes.eqb (Py.slice wpkt 15 16) (type_byte APPLYUP)
         && Bytes.eqb (Py.slice wpkt 16 48) file_fid
      then Ok (Some (Bytes.from_big (Py.slice wpkt 48 52)))
      else newest_apply_loop feed d file_fid seqs'
  end.

Definition get_newest_apply (feed : FEED) (file_fid : bytes) (d : disk)
  : res (option Z) :=
  newest_apply_loop feed d file_fid (range_down (front_seq feed) (anchor_seq feed)).

Section ChildFeeds.
Context `{Crypto}.

(** [create_child_feed] changes the parent feed in place and returns the
    child feed; the model returns the child feed, the parent feed and the
    files. *)
Definition create_child_feed (parent_feed : FEED)
  (parent_key child_fid child_key : bytes) (d : disk)
  : res (FEED * FEED * disk) :=
  parent_pkt ← create_parent_pkt (fid parent_feed)
                  (Bytes.to_big 4 (front_seq parent_feed + 1))
                  (front_mid parent_feed) child_fid parent_key;
  '(child_feed, d) ← create_feed child_fid 0 None (front_seq parent_feed)
                        (fid parent_feed) d;
  let child_payload := Bytes.zeros 48 in
  let child_payload := Py.set_slice_to child_payload 32 (fid parent_feed) in
  let child_payload :=
    Py.set_slice child_payload 32 36 (Bytes.to_big 4 (front_seq parent_feed)) in
  let child_payload :=
    Py.set_slice_from child_payload 36
      (Py.slice_to (sha256 (wire_bytes (wire parent_pkt))) 12) in
  child_pkt ← create_child_pkt child_fid child_payload child_key;
  let '(child_feed, d) := append_packet child_feed child_pkt d in
  let '(parent_feed, d) := append_packet parent_feed parent_pkt d in
  Ok (child_feed, parent_feed, d).

Definition get_next_dmx (feed : FEED) : bytes :=
  let dmx := Bytes.zeros 64 in
  let dmx := Py.set_slice_to dmx 8 PKT_PREFIX in
  let dmx := Py.set_slice dmx 8 40 (fid feed) in
  let dmx := Py.set_slice dmx 40 44 (Bytes.to_big 4 (front_seq feed + 1)) in
  let dmx := Py.set_slice dmx 44 64 (front_mid feed) in
  Py.slice_to (sha256 dmx) 7.

Definition add_apply (feed : FEED) (file_fid : bytes) (v_num : Z) (key : bytes)
  (d : disk) : res (FEED * disk) :=
  let vn_arr := Bytes.to_big 4 v_num in
  pkt ← create_apply_pkt (fid feed) (Bytes.to_big 4 (front_seq feed + 1))
          (front_mid feed) file_fid vn_arr key;
  Ok (append_packet feed pkt d).

End ChildFeeds.

(** The values a struct [FEED] holds: the arrays have their sizes, and the
    sequence numbers are numbers of 32 bits. *)
Definition is_struct (feed : FEED) : Prop :=
  length (fid feed) = 32%nat /\ length (parent_fid feed) = 32%nat
  /\ length (anchor_mid feed) = 20%nat /\ length (front_mid feed) = 20%nat
  /\ 0 <= parent_seq feed < 2 ^ 32 /\ 0 <= anchor_seq feed < 2 ^ 32
  /\ 0 <= front_seq feed < 2 ^ 32.

(** The log file of a feed; a feed without packets has none yet. *)
Definition log_of (feed : FEED) (d : disk) : bytes :=
  default [] (logs d !! fid feed).

(** The log of a feed holds one wire packet of 128 bytes for every sequence
    number after the anchor. *)
Definition log_complete (feed : FEED) (d : disk) : Prop :=
  anchor_seq feed <= front_seq feed
  /\ Z.of_nat (length (log_of feed d)) = 128 * (front_seq feed - anchor_seq feed).

End Feed.

(** ** packet.py and feed.py (package deprecated/tinyssb_update) *)

Module Deprecated.

(** [PacketType] *)
Definition plain48 : bytes := [x00].
Definition chain20 : bytes := [x01].
Definition ischild : bytes := [x02].
Definition iscontn : bytes := [x03].
Definition mkchild : bytes := [x04].
Definition contdas : bytes := [x05].
Definition acknldg : bytes := [x06].
Definition updfile : bytes := [x07].
Definition applyup : bytes := [x09].
Definition types : list bytes :=
  [plain48; chain20; ischild; iscontn; mkchild; contdas; acknldg; updfile; applyup].

Definition is_type (t : bytes) : bool := existsb (Bytes.eqb t) types.

(** [Packet.prefix] *)
Definition prefix : bytes := Bytes.encode "tiny-v01".

(** The class [Blob]. *)
Record Blob : Type := {
  blob_payload : bytes;
  ptr : bytes;
  blob_wire : bytes;
  blob_signature : bytes
}.

(** The class [Packet]; [None] in [skey], [signature], [mid] and [wire] is
    Python's [None]. *)
Record Packet : Type := {
  block_name : bytes;
  fid : bytes;
  seq : bytes;
  prev_mid : bytes;
  payload : bytes;
  pkt_type : bytes;
  skey : option bytes;
  dmx : bytes;
  signature : option bytes;
  mid : option bytes;
  wire : option bytes
}.

(** [Packet.expand] *)
Definition expand (pkt : Packet) : bytes :=
  block_name pkt ++ dmx pkt ++ pkt_type pkt ++ payload pkt.

Section WithCrypto.
Context `{Crypto}.

(** [Blob(payload, ptr)] *)
Definition new_Blob (payload ptr : bytes) : Blob :=
  let wire := payload ++ ptr in
  {| blob_payload := payload; ptr := ptr; blob_wire := wire;
     blob_signature := Py.slice_to (sha256 wire) 20 |}.

(** [Packet(fid, seq, prev_mid, payload, pkt_type, skey)] *)
Definition new_Packet (fid seq prev_mid payload pkt_type : bytes)
  (skey : option bytes) : res Packet :=
  _ ← assert (len_is fid 32);
  _ ← assert (len_is seq 4);
  _ ← assert (len_is prev_mid 20);
  _ ← assert (match skey with None => true | Some k => len_is k 32 end);
  let payload :=
    if (length payload <? 48)%nat
    then payload ++ Bytes.zeros (48 - length payload)
    else payload in
  _ ← assert (len_is payload 48);
  let block_name := prefix ++ fid ++ seq ++ prev_mid in
  let dmx := Py.slice_to (sha256 block_name) 7 in
  let pkt := {| block_name := block_name; fid := fid; seq := seq;
                prev_mid := prev_mid; payload := payload; pkt_type := pkt_type;
                skey := skey; dmx := dmx;
                signature := None; mid := None; wire := None |} in
  match skey with
  | None => Ok pkt
  | Some k =>
      let signature := sign k (expand pkt) in
      Ok {| block_name := block_name; fid := fid; seq := seq;
            prev_mid := prev_mid; payload := payload; pkt_type := pkt_type;
            skey := skey; dmx := dmx;
            signature := Some signature;
            mid := Some (Py.slice_to (sha256 (expand pkt ++ signature)) 20);
            wire := Some (dmx ++ pkt_type ++ payload ++ signature) |}
  end.

(** [pkt_from_bytes]: [None] when the signature does not verify. *)
Definition pkt_from_bytes (fid seq prev_mid pkt_wire : bytes)
  : res (option Packet) :=
  _ ← assert (len_is pkt_wire 120);
  let pkt_type := Py.slice pkt_wire 7 8 in
  let payload := Py.slice pkt_wire 8 56 in
  let signature := Py.slice_from pkt_wire 56 in
  pkt ← new_Packet fid seq prev_mid payload pkt_type None;
  if verify fid signature (expand pkt) then
    Ok (Some {| block_name := block_name pkt; fid := Deprecated.fid pkt;
                seq := Deprecated.seq pkt; prev_mid := Deprecated.prev_mid pkt;
                payload := Deprecated.payload pkt;
                pkt_type := Deprecated.pkt_type pkt; skey := None;
                dmx := dmx pkt; signature := Some signature;
                mid := Some (Py.slice_to (sha256 (expand pkt ++ signature)) 20);
                wire := Some pkt_wire |})
  else Ok None.

Definition create_end_pkt (fid seq prev_mid contn_fid skey : bytes) : res Packet :=
  new_Packet fid seq prev_mid contn_fid contdas (Some skey).

Definition create_upd_pkt (fid seq prev_mid file_name : bytes) (v_number : Z)
  (skey : bytes) : res Packet :=
  _ ← assert (length file_name <? 44)%nat;
  let v_number_b := Bytes.to_big 4 v_number in
  let payload :=
    VarInt.to_var_int (Z.of_nat (length file_name)) ++ file_name ++ v_number_b in
  new_Packet fid seq prev_mid payload updfile (Some skey).

(** The [while len(content) != 0] loop of [create_chain]. *)
Fixpoint chain_loop (fuel : nat) (content ptr : bytes) (chain : list Blob)
  : res (list Blob * bytes) :=
  match fuel with
  | O => Timeout
  | S fuel' =>
      if negb (length content =? 0)%nat then
        let blob := new_Blob (Py.slice_from content (-100)) ptr in
        chain_loop fuel' (Py.slice_to content (-100)) (blob_signature blob)
          (chain ++ [blob])
      else Ok (chain, ptr)
  end.

Definition create_chain (fid seq prev_mid content skey : bytes)
  : res (Packet * list Blob) :=
  let content := VarInt.to_var_int (Z.of_nat (length content)) ++ content in
  let num_fill := 28 - Z.of_nat (length content) in
  '(header, chain, ptr) ←
    (if num_fill >=? 0 then
       Ok (content ++ Bytes.zeros (Z.to_nat num_fill), [], Bytes.zeros 20)
     else
       let header := Py.slice_to content 28 in
       let content := Py.slice_from content 28 in
       let pad := 100 - Z.of_nat (length content) mod 100 in
       let content := content ++ Bytes.zeros (Z.to_nat pad) in
       '(chain, ptr) ← chain_loop (S (length content)) content (Bytes.zeros 20) [];
       Ok (header, chain, ptr));
  let payload := header ++ ptr in
  _ ← assert (len_is payload 48);
  pkt ← new_Packet fid seq prev_mid payload chain20 (Some skey);
  Ok (pkt, rev chain).

End WithCrypto.

(** The class [Feed]: the fields read from the header of the log file, and
    the name of the file. *)
Record Feed : Type := {
  file_name : string;
  feed_skey : option bytes;
  feed_fid : bytes;
  parent_id : bytes;
  parent_seq : Z;
  anchor_seq : Z;
  anchor_mid : bytes;
  front_seq : Z;
  front_mid : bytes
}.

(** The files: the log files by name, and the blob files, which are named by
    the hexadecimal form of the blob's pointer and are keyed by the pointer.
    Directories are not modelled. *)
Record disk : Type := {
  files : gmap string bytes;
  blobs : gmap bytes bytes
}.

(** [Feed(file_name, skey)] *)
Definition open_Feed (file_name : string) (skey : option bytes) (d : disk)
  : res Feed :=
  match files d !! file_name with
  | None => Raise OSError
  | Some content =>
      let header := Py.slice_to content 128 in
      Ok {| file_name := file_name; feed_skey := skey;
            feed_fid := Py.slice header 12 44;
            parent_id := Py.slice header 44 76;
            parent_seq := Bytes.from_big (Py.slice header 76 80);
            anchor_seq := Bytes.from_big (Py.slice header 80 84);
            anchor_mid := Py.slice header 84 104;
            front_seq := Bytes.from_big (Py.slice header 104 108);
            front_mid := Py.slice header 108 128 |}
  end.

Definition get_wire (self : Feed) (seq : Z) (d : disk) : res bytes :=
  let seq := if seq <? 0 then front_seq self + seq + 1 else seq in
  if (seq >? front_seq self) || (seq <=? anchor_seq self) then Raise IndexError
  else
    let relative_i := seq - anchor_seq self in
    match files d !! file_name self with
    | None => Raise OSError
    | Some content =>
        let offset := 128 * relative_i in
        Ok (Py.slice_from (Py.slice content offset (offset + 128)) 8)
    end.

Definition get_type (self : Feed) (seq : Z) (d : disk) : res (option bytes) :=
  pkt_wire ← get_wire self seq d;
  let pkt_type := Py.slice pkt_wire 7 8 in
  if is_type pkt_type then Ok (Some pkt_type) else Ok None.

Definition has_ended (self : Feed) (d : disk) : res bool :=
  if front_seq self <? 1 then Ok false
  else
    t ← get_type self (-1) d;
    Ok (bool_decide (t = Some contdas)).

(** The feed with a new front. *)
Definition with_front (self : Feed) (front_seq : Z) (front_mid : bytes) : Feed :=
  {| file_name := file_name self; feed_skey := feed_skey self;
     feed_fid := feed_fid self; parent_id := parent_id self;
     parent_seq := parent_seq self; anchor_seq := anchor_seq self;
     anchor_mid := anchor_mid self;
     front_seq := front_seq; front_mid := front_mid |}.

Definition _update_header (self : Feed) (d : disk) : res disk :=
  let new_info := Bytes.to_big 4 (front_seq self) ++ front_mid self in
  _ ← assert (len_is new_info 24);
  match files d !! file_name self with
  | None => Raise OSError
  | Some file_content =>
      let updated_content :=
        Py.slice_to file_content 104 ++ new_info ++ Py.slice_from file_content 128 in
      Ok {| files := <[file_name self :=
                         Py.set_slice_to file_content
                           (Z.of_nat (length updated_content)) updated_content]>
                       (files d);
            blobs := blobs d |}
  end.

(** [append_pkt]: the result is the value returned, with the feed object and
    the files as the call leaves them. *)
Definition append_pkt (self : Feed) (pkt : Packet) (d : disk)
  : res (bool * Feed * disk) :=
  ended ← has_ended self d;
  if (ended : bool) then Ok (false, self, d)
  else
    match wire pkt, mid pkt with
    | Some w, Some m =>
        let payload := Bytes.zeros 8 ++ w in
        _ ← assert (len_is payload 128);
        match files d !! file_name self with
        | None => Raise OSError
        | Some content =>
            let d := {| files := <[file_name self := content ++ payload]> (files d);
                        blobs := blobs d |} in
            let self := with_front self (front_seq self + 1) m in
            d ← _update_header self d;
            Ok (true, self, d)
        end
    | _, _ => Raise AssertionError
    end.

(** [_write_blob]: every blob is written under its own signature. *)
Definition _write_blob (blobs : list Blob) (d : disk) : bool * disk :=
  (true,
   foldl (fun d blob =>
            {| files := files d;
               blobs := <[blob_signature blob := blob_wire blob]> (Deprecated.blobs d) |})
         d blobs).

(** [_get_blob] *)
Definition _get_blob (ptr : bytes) (d : disk) : option bytes :=
  content ← blobs d !! ptr;
  Some (Py.slice_to content 120).

Section FeedWithCrypto.
Context `{Crypto}.

Definition append_bytes (self : Feed) (payload : bytes) (d : disk)
  : res (bool * Feed * disk) :=
  match feed_skey self with
  | None => Raise AssertionError
  | Some skey =>
      let next_seq := front_seq self + 1 in
      pkt ← new_Packet (feed_fid self) (Bytes.to_big 4 next_seq)
              (front_mid self) payload plain48 (Some skey);
      append_pkt self pkt d
  end.

Definition verify_and_append_bytes (self : Feed) (pkt_wire : bytes) (d : disk)
  : res (bool * Feed * disk) :=
  let seq := Bytes.to_big 4 (front_seq self + 1) in
  pkt ← pkt_from_bytes (feed_fid self) seq (front_mid self) pkt_wire;
  match pkt with
  | None => Ok (false, self, d)
  | Some pkt => append_pkt self pkt d
  end.

Definition append_blob (self : Feed) (payload : bytes) (d : disk)
  : res (bool * Feed * disk) :=
  match feed_skey self with
  | None => Raise AssertionError
  | Some skey =>
      let next_seq := Bytes.to_big 4 (front_seq self + 1) in
      '(pkt, blobs) ← create_chain (feed_fid self) next_seq (front_mid self)
                         payload skey;
      '(_, self, d) ← append_pkt self pkt d;
      let '(written, d) := _write_blob blobs d in
      Ok (written, self, d)
  end.

(** [Feed.add_upd_file_name]; the file name is given as bytes. *)
Definition add_upd_file_name (self : Feed) (file_name : bytes) (v_number : Z)
  (d : disk) : res (bool * Feed * disk) :=
  match feed_skey self with
  | None => Raise AssertionError
  | Some skey =>
      _ ← assert (0 <=? v_number);
      pkt ← create_upd_pkt (feed_fid self) (Bytes.to_big 4 (front_seq self + 1))
              (front_mid self) file_name v_number skey;
      append_pkt self pkt d
  end.

End FeedWithCrypto.

(** The [while ptr != bytes(20)] loop of [Feed.__getitem__]. *)
Fixpoint unwrap_chain (fuel : nat) (d : disk) (content ptr : bytes) : res bytes :=
  match fuel with
  | O => Timeout
  | S fuel' =>
      if negb (Bytes.eqb ptr (Bytes.zeros 20)) then
        match _get_blob ptr d with
        | None => Raise AssertionError
        | Some blob =>
            unwrap_chain fuel' d (content ++ Py.slice_to blob 100)
              (Py.slice_from blob 100)
        end
      else Ok content
  end.

(** [Feed.__getitem__] *)
Definition getitem (fuel : nat) (self : Feed) (seq : Z) (d : disk) : res bytes :=
  pkt_wire ← get_wire self seq d;
  let pkt_type := Py.slice pkt_wire 7 8 in
  let payload := Py.slice pkt_wire 8 56 in
  if negb (Bytes.eqb pkt_type chain20) then Ok payload
  else
    '(content_size, num_bytes) ← VarInt.from_var_int payload;
    let content := Py.slice payload num_bytes (-20) in
    let ptr := Py.slice_from payload (-20) in
    content ← unwrap_chain fuel d content ptr;
    Ok (Py.slice_to content content_size).

(** The first packet of type [updfile] in the feed, as the loops of
    [get_upd_file_name] and [get_upd_version] find it. *)
Fixpoint first_updfile (self : Feed) (d : disk) (seqs : list Z)
  : res (option bytes) :=
  match seqs with
  | [] => Ok None
  | i :: seqs' =>
      wire ← get_wire self i d;
      if Bytes.eqb (Py.slice wire 7 8) updfile then Ok (Some (Py.slice wire 8 56))
      else first_updfile self d seqs'
  end.

Definition get_upd_file_name (self : Feed) (d : disk) : res (option string) :=
  found ← first_updfile self d (Py.range (anchor_seq self + 1) (front_seq self + 1));
  match found with
  | None => Ok None
  | Some file_name =>
      '(length, num_bytes) ← VarInt.from_var_int file_name;
      Ok (Some (Bytes.decode (Py.slice file_name num_bytes (length + 1))))
  end.

Definition get_upd_version (self : Feed) (d : disk) : res (option Z) :=
  found ← first_updfile self d (Py.range (anchor_seq self + 1) (front_seq self + 1));
  match found with
  | None => Ok None
  | Some content =>
      '(length, num_bytes) ← VarInt.from_var_int content;
      let offset := length + num_bytes in
      Ok (Some (Bytes.from_big (Py.slice content offset (offset + 4))))
  end.

(** [Feed.__len__] *)
Definition len (self : Feed) : Z := front_seq self.

(** The loop of [Feed.count_chain20]. *)
Definition count_chain20 (self : Feed) (d : disk) : res Z :=
  for_each (fun update_count i =>
              t ← get_type self i d;
              if bool_decide (t = Some chain20) then Ok (update_count + 1)
              else Ok update_count)
    (Py.range (anchor_seq self + 1) (front_seq self + 1)) 0.

(** The loop of [Feed.get_chain20]. *)
Fixpoint chain20_loop (fuel : nat) (self : Feed) (d : disk) (seq update_count : Z)
  (seqs : list Z) : res (option bytes) :=
  match seqs with
  | [] => Ok None
  | i :: seqs' =>
      t ← get_type self i d;
      if bool_decide (t = Some chain20) then
        if update_count =? seq then Some <$> getitem fuel self i d
        else chain20_loop fuel self d seq (update_count + 1) seqs'
      else chain20_loop fuel self d seq update_count seqs'
  end.

Definition get_chain20 (fuel : nat) (self : Feed) (seq : Z) (d : disk)
  : res (option bytes) :=
  chain20_loop fuel self d seq 0
    (Py.range (anchor_seq self + 1) (front_seq self + 1)).

Definition get_parent (self : Feed) (d : disk) : res (option bytes) :=
  if negb (anchor_seq self =? 0) then Ok None
  else if front_seq self <? 1 then Ok None
  else
    wire ← get_wire self 1 d;
    if negb (Bytes.eqb (Py.slice wire 7 8) ischild) then Ok None
    else Ok (Some (Py.slice wire 8 40)).

Definition get_children (self : Feed) (d : disk) : res (list bytes) :=
  for_each (fun children i =>
              wire ← get_wire self i d;
              if Bytes.eqb (Py.slice wire 7 8) mkchild
              then Ok (children ++ [Py.slice wire 8 40])
              else Ok children)
    (Py.range (anchor_seq self + 1) (front_seq self + 1)) [].

Definition get_children_index (self : Feed) (d : disk) : res (list (bytes * Z)) :=
  for_each (fun children i =>
              wire ← get_wire self i d;
              if Bytes.eqb (Py.slice wire 7 8) mkchild
              then Ok (children ++ [(Py.slice wire 8 40, i)])
              else Ok children)
    (Py.range (anchor_seq self + 1) (front_seq self + 1)) [].

Definition get_contn (self : Feed) (d : disk) : res (option bytes) :=
  if len self <? 1 then Ok None
  else
    wire ← get_wire self (-1) d;
    if negb (Bytes.eqb (Py.slice wire 7 8) contdas) then Ok None
    else Ok (Some (Py.slice wire 8 40)).

Definition get_prev (self : Feed) (d : disk) : res (option bytes) :=
  if negb (anchor_seq self =? 0) then Ok None
  else
    wire ← get_wire self 1 d;
    if negb (Bytes.eqb (Py.slice wire 7 8) iscontn) then Ok None
    else Ok (Some (Py.slice wire 8 40)).

(** The [while ptr != bytes(20)] loop of [Feed.waiting_for_blob]. *)
Fixpoint waiting_loop (fuel : nat) (d : disk) (ptr : bytes) : res (option bytes) :=
  match fuel with
  | O => Timeout
  | S fuel' =>
      if negb (Bytes.eqb ptr (Bytes.zeros 20)) then
        match _get_blob ptr d with
        | None => Ok (Some ptr)
        | Some blob => waiting_loop fuel' d (Py.slice_from blob 100)
        end
      else Ok None
  end.

Definition waiting_for_blob (fuel : nat) (self : Feed) (d : disk)
  : res (option bytes) :=
  if len self <? 1 then Ok None
  else
    wire ← get_wire self (-1) d;
    if negb (Bytes.eqb (Py.slice wire 7 8) chain20) then Ok None
    else
      let ptr := Py.slice wire 36 56 in
      if Bytes.eqb ptr (Bytes.zeros 20) then Ok None
      else waiting_loop fuel d ptr.

(** The loop of [Feed.get_newest_apply], from the front of the feed
    backwards. *)
Fixpoint newest_apply_loop (self : Feed) (d : disk) (fid : bytes) (seqs : list Z)
  : res Z :=
  match seqs with
  | [] => Ok 0
  | i :: seqs' =>
      wire ← get_wire self i d;
      let content := Py.slice wire 8 56 in
      if Bytes.eqb (Py.slice wire 7 8) applyup
         && Bytes.eqb (Py.slice_to content 32) fid
      then Ok (Bytes.from_big (Py.slice content 32 36))
      else newest_apply_loop self d fid seqs'
  end.

Definition get_newest_apply (self : Feed) (fid : bytes) (d : disk) : res Z :=
  newest_apply_loop self d fid
    (map (fun k => front_seq self - Z.of_nat k)
       (List.seq 0 (Z.to_nat (front_seq self - anchor_seq self)))).

Definition get_current_version_num (self : Feed) (d : disk) : res (option Z) :=
  base_version ← get_upd_version self d;
  match base_version with
  | None => Ok None
  | Some base_version =>
      num_updates ← count_chain20 self d;
      Ok (Some (base_version + num_updates - 1))
  end.

(** The loop of [Feed._verify_chain]. *)
Fixpoint verify_loop (blobs : list Blob) (ptr content : bytes) : option bytes :=
  match blobs with
  | [] => Some content
  | blob :: blobs' =>
      if negb (Bytes.eqb ptr (blob_signature blob)) then None
      else verify_loop blobs' (Deprecated.ptr blob) (content ++ blob_payload blob)
  end.

Definition _verify_chain (head : Packet) (blobs : list Blob) : res (option bytes) :=
  '(content_len, num_bytes) ← VarInt.from_var_int (payload head);
  let ptr := Py.slice_from (payload head) (-20) in
  let content := Py.slice (payload head) num_bytes (-20) in
  Ok ((fun content => Py.slice_to content content_len)
        <$> verify_loop blobs ptr content).

Section MoreWithCrypto.
Context `{Crypto}.

(** [Packet.next_dmx] *)
Definition next_dmx (pkt : Packet) : res bytes :=
  match mid pkt with
  | None => Raise AssertionError
  | Some mid =>
      let next_seq := Bytes.from_big (seq pkt) + 1 in
      let next := prefix ++ fid pkt ++ Bytes.to_big 4 next_seq ++ mid in
      Ok (Py.slice_to (sha256 next) 7)
  end.

Definition create_genesis_pkt (fid payload skey : bytes) : res Packet :=
  let seq := Bytes.to_big 4 1 in
  let prev_mid := Py.slice_to fid 20 in
  new_Packet fid seq prev_mid payload plain48 (Some skey).

Definition create_parent_pkt (fid seq prev_mid child_fid skey : bytes)
  : res Packet :=
  new_Packet fid seq prev_mid child_fid mkchild (Some skey).

Definition create_child_pkt (fid payload skey : bytes) : res Packet :=
  let seq := Bytes.to_big 4 1 in
  let prev_mid := Py.slice_to fid 20 in
  new_Packet fid seq prev_mid payload ischild (Some skey).

Definition create_contn_pkt (fid payload skey : bytes) : res Packet :=
  let seq := Bytes.to_big 4 1 in
  let prev_mid := Py.slice_to fid 20 in
  new_Packet fid seq prev_mid payload iscontn (Some skey).

(** [create_apply_pkt]; the sequence numbers are given as bytes. *)
Definition create_apply_pkt (fid seq prev_mid file_fid update_seq skey : bytes)
  : res Packet :=
  let payload := file_fid ++ update_seq in
  new_Packet fid seq prev_mid payload applyup (Some skey).

(** [Feed.get_next_dmx] *)
Definition get_next_dmx (self : Feed) : bytes :=
  let next_seq := Bytes.to_big 4 (front_seq self + 1) in
  let next := prefix ++ feed_fid self ++ next_seq ++ front_mid self in
  Py.slice_to (sha256 next) 7.

(** [Feed.verify_and_append_blob] *)
Definition verify_and_append_blob (fuel : nat) (self : Feed) (blob_wire : bytes)
  (d : disk) : res (bool * disk) :=
  _ ← assert (len_is blob_wire 120);
  let blob := new_Blob (Py.slice_to blob_wire (-20)) (Py.slice_from blob_wire (-20)) in
  waiting ← waiting_for_blob fuel self d;
  if negb (bool_decide (waiting = Some (blob_signature blob))) then Ok (false, d)
  else Ok (_write_blob [blob] d).

(** [Feed.get_want] *)
Definition get_want (fuel : nat) (self : Feed) (d : disk) : res bytes :=
  let want_dmx :=
    Py.slice_to (sha256 (feed_fid self ++ Bytes.encode "want")) 7 in
  blob_ptr ← waiting_for_blob fuel self d;
  match blob_ptr with
  | None =>
      let next_seq := Bytes.to_big 4 (front_seq self + 1) in
      Ok (want_dmx ++ feed_fid self ++ next_seq)
  | Some blob_ptr =>
      let next_seq := Bytes.to_big 4 (front_seq self) in
      Ok (want_dmx ++ feed_fid self ++ next_seq ++ blob_ptr)
  end.

(** [Feed.add_apply]; the version is given as a number. *)
Definition add_apply (self : Feed) (fid : bytes) (seq : Z) (d : disk)
  : res (bool * Feed * disk) :=
  match feed_skey self with
  | None => Raise AssertionError
  | Some skey =>
      pkt ← create_apply_pkt (feed_fid self) (Bytes.to_big 4 (front_seq self + 1))
              (front_mid self) fid (Bytes.to_big 4 seq) skey;
      append_pkt self pkt d
  end.

End MoreWithCrypto.

(** The header [_update_header] leaves in a log file: the first 104 bytes
    as they were, then the new front. *)
Definition header_with_front (content : bytes) (front_seq : Z) (front_mid : bytes)
  : bytes :=
  take 104 content ++ Bytes.to_big 4 front_seq ++ front_mid.

(** The payload as [Packet] keeps it: filled up to 48 bytes. *)
Definition pad48 (payload : bytes) : bytes :=
  payload ++ Bytes.zeros (48 - length payload).

(** The log file of a feed holds the header and one packet of 128 bytes for
    every sequence number after the anchor. *)
Definition log_complete (self : Feed) (d : disk) : Prop :=
  anchor_seq self <= front_seq self
  /\ exists content : bytes,
       files d !! file_name self = Some content
       /\ Z.of_nat (length content) = 128 * (1 + front_seq self - anchor_seq self).

End Deprecated.

(** ** version_manager.py: the diff and patch engine *)

Module VersionManager.

(** A change is a triple [(line_num, op, content)]. *)
Definition change : Type := Z * string * string.

(** One iteration of the loop of [apply_changes]. *)
Definition apply_change (old_lines : list string) (ch : change)
  : res (list string) :=
  let '(line_num, op, content) := ch in
  let line_num := line_num - 1 in
  let old_lines :=
    if String.eqb op "I" then Py.list_insert old_lines line_num content
    else old_lines in
  if String.eqb op "D" then Py.list_del old_lines line_num
  else Ok old_lines.

Definition apply_changes (content : string) (changes : list change)
  : res string :=
  let old_lines := Py.split_lines content in
  old_lines ← for_each apply_change changes old_lines;
  Ok (Py.join_lines old_lines).

(** The second half of [get_changes]: the two [for] loops that run after the
    [while] loop has emptied one of the lists. *)
Fixpoint trailing_inserts (line_num : Z) (new_lines : list string)
  : list change :=
  match new_lines with
  | [] => []
  | line :: rest => (line_num, "I", line) :: trailing_inserts (line_num + 1) rest
  end.

Definition trailing_deletes (line_num : Z) (old_lines : list string)
  : list change :=
  map (fun line => (line_num, "D", line)) old_lines.

(** The [while] loop of [get_changes], followed by the two [for] loops.  The
    result is the list of changes appended from this state on. *)
Equations? get_changes_loop (line_num : Z) (old_lines new_lines : list string)
  : list change by wf (length old_lines + length new_lines)%nat lt :=
get_changes_loop line_num (old_l :: old_lines) (new_l :: new_lines) :=
  if String.eqb old_l new_l then
    get_changes_loop (line_num + 1) old_lines new_lines
  else if negb (Py.str_in old_l new_lines) then
    (line_num, "D", old_l) :: get_changes_loop line_num old_lines (new_l :: new_lines)
  else
    (line_num, "I", new_l) :: get_changes_loop (line_num + 1) (old_l :: old_lines) new_lines;
get_changes_loop line_num old_lines new_lines :=
  trailing_deletes line_num old_lines ++ trailing_inserts line_num new_lines.
Proof. all: simpl; lia. Qed.

Definition get_changes (old_version new_version : string) : list change :=
  get_changes_loop 1 (Py.split_lines old_version) (Py.split_lines new_version).

(** [reverse_changes]: swap inserts and deletes, then reverse the list. *)
Definition reverse_changes (changes : list change) : list change :=
  rev (map (fun '(a, b, c) =>
              if String.eqb b "D" then (a, "I", c) else (a, "D", c)) changes).

(** The reverted change list in the words of the specification ("reverting
    a change list maps I to D and D to I and reverses the order"); it is
    compared with [reverse_changes], and is no part of the program. *)
Definition spec_swap_op (op : string) : string :=
  if String.eqb op "I" then "D" else if String.eqb op "D" then "I" else op.

Definition spec_reverted (changes : list change) : list change :=
  rev (map (fun ch : change => (ch.1.1, spec_swap_op ch.1.2, ch.2)) changes).

(** A change list of inserts and deletes. *)
Definition inserts_and_deletes (changes : list change) : Prop :=
  Forall (fun ch : change => ch.1.2 = "I" \/ ch.1.2 = "D") changes.

(** [_takewhile]: the elements [lst[i]] taken as long as the predicate holds
    of the rest [lst[i:]] of the list. *)
Fixpoint _takewhile (predicate : list Z -> bool) (lst : list Z) : list Z :=
  match lst with
  | [] => []
  | x :: rest => if predicate lst then x :: _takewhile predicate rest else []
  end.

(** The two lambdas of [jump_versions]:
    [all(x < y for x, y in zip(lst, lst[1:]))] and the same with [>]. *)
Definition mono_inc (lst : list Z) : bool :=
  forallb (fun '(x, y) => x <? y) (zip lst (Py.slice_from lst 1)).

Definition mono_dec (lst : list Z) : bool :=
  forallb (fun '(x, y) => x >? y) (zip lst (Py.slice_from lst 1)).

(** The [while] loop of [bytes_to_changes].  Every iteration moves [curr_i]
    forward, so the fuel [bytes_to_changes] passes is enough. *)
Fixpoint bytes_to_changes_loop (fuel : nat) (changes : bytes) (curr_i : Z)
  (operations : list change) : res (list change) :=
  match fuel with
  | O => Timeout
  | S fuel' =>
      if curr_i <? Z.of_nat (length changes) then
        '(size, num_b) ← VarInt.from_var_int (Py.slice_from changes curr_i);
        let curr_i := curr_i + num_b in
        '(line_num, num_b2) ← VarInt.from_var_int (Py.slice_from changes curr_i);
        let curr_i := curr_i + num_b2 in
        op ← Py.list_get changes curr_i;
        let operation := Bytes.chr op in
        let curr_i := curr_i + 1 in
        let str_len := size - num_b2 - 1 in
        let string :=
          if str_len =? 0 then ""
          else Bytes.decode (Py.slice changes curr_i (curr_i + str_len)) in
        let curr_i := curr_i + str_len in
        bytes_to_changes_loop fuel' changes curr_i
          (operations ++ [(line_num, operation, string)])
      else Ok operations
  end.

Definition bytes_to_changes (changes : bytes) : res (list change * Z) :=
  let dependency := Bytes.from_big (Py.slice_to changes 4) in
  operations ← bytes_to_changes_loop (S (length changes)) changes 4 [];
  Ok (operations, dependency).

(** [changes_to_bytes]. *)
Definition changes_to_bytes (changes : list change) (dependency : Z) : bytes :=
  foldl (fun b '(i, op, ln) =>
           let b_change :=
             VarInt.to_var_int i ++ Bytes.encode op ++ Bytes.encode ln in
           b ++ VarInt.to_var_int (Z.of_nat (length b_change)) ++ b_change)
        (Bytes.to_big 4 dependency) changes.

(** The bytes the loop of [changes_to_bytes] appends for one change. *)
Definition encode_change (ch : change) : bytes :=
  let '(i, op, ln) := ch in
  let b_change := VarInt.to_var_int i ++ Bytes.encode op ++ Bytes.encode ln in
  VarInt.to_var_int (Z.of_nat (length b_change)) ++ b_change.

(** A change the wire form carries: the line number and the length fit a
    variable-length integer, and the op is one ASCII character. *)
Definition codable (ch : change) : Prop :=
  0 <= ch.1.1 < 2 ^ 64
  /\ (exists o : ascii, ch.1.2 = String o "" /\ (nat_of_ascii o < 128)%nat)
  /\ Z.of_nat (String.length ch.2) + 10 < 2 ^ 64.

(** The version graph: a [dict] from a version to its neighbours. *)
Abbreviation version_graph := (gmap Z (list Z)).

(** [graph[i] = graph[i] + [j]] when [i] is a key, [graph[i] = [j]] when it
    is not. *)
Definition add_edge (graph : version_graph) (i j : Z) : version_graph :=
  <[i := default [] (graph !! i) ++ [j]]> graph.

(** The keys of a [dict]. *)
Definition keys {A : Type} (d : gmap Z A) : list Z := (map_to_list d).*1.

(** The body of the [for n in graph[current]] loop of [_bfs]. *)
Definition bfs_visit (path : list Z) (s : list bool * list (list Z)) (n : Z)
  : res (list bool * list (list Z)) :=
  let '(visited, queue) := s in
  seen ← Py.list_get visited n;
  if negb seen then
    visited ← Py.list_set visited n true;
    Ok (visited, queue ++ [path ++ [n]])
  else Ok (visited, queue).

(** The [while queue] loop of [_bfs]. *)
Fixpoint bfs_loop (fuel : nat) (graph : version_graph) (end_ : Z)
  (visited : list bool) (queue : list (list Z)) : res (list Z) :=
  match fuel with
  | O => Timeout
  | S fuel' =>
      match queue with
      | [] => Ok []
      | path :: queue =>
          current ← Py.list_get path (-1);
          if current =? end_ then Ok path
          else
            match graph !! current with
            | None => Raise KeyError
            | Some neighbours =>
                '(visited, queue) ← for_each (bfs_visit path) neighbours (visited, queue);
                bfs_loop fuel' graph end_ visited queue
            end
      end
  end.

Definition _bfs (fuel : nat) (graph : version_graph) (start end_ : Z)
  : res (list Z) :=
  max_v ← Py.max_of (keys graph);
  let visited := map (fun i => i =? start) (Py.range 0 (max_v + 1)) in
  bfs_loop fuel graph end_ visited [[start]].

(** The neighbours of a version in the graph; none when it is no key. *)
Definition neighbours (graph : version_graph) (v : Z) : list Z :=
  default [] (graph !! v).

(** A walk in the graph: every version of the list is a neighbour of the one
    before it. *)
Fixpoint is_walk (graph : version_graph) (path : list Z) : bool :=
  match path with
  | x :: (y :: _) as rest => bool_decide (y ∈ neighbours graph x) && is_walk graph rest
  | _ => true
  end.

(** A walk that starts at [start]. *)
Definition walk_from (graph : version_graph) (start : Z) (path : list Z) : Prop :=
  head path = Some start /\ is_walk graph path = true.

(** A path that ends in a key of the graph. *)
Definition ends_in_key (graph : version_graph) (path : list Z) : Prop :=
  exists current, last path = Some current /\ is_Some (graph !! current).

(** The number of versions the search has not visited yet. *)
Fixpoint unvisited (visited : list bool) : nat :=
  match visited with
  | [] => 0
  | seen :: visited' => (if seen then 0 else 1) + unvisited visited'
  end.

(** A graph that stores every edge at both ends. *)
Definition undirected (graph : version_graph) : Prop :=
  forall a b, b ∈ neighbours graph a -> a ∈ neighbours graph b.

(** A path down the dependencies: the dependency of every version of the
    path is the next version. *)
Fixpoint descends (dep : Z -> Z) (path : list Z) : Prop :=
  match path with
  | x :: (y :: _) as rest => dep x = y /\ descends dep rest
  | _ => True
  end.

(** A path up the dependencies: every version of the path is the dependency
    of the next version. *)
Fixpoint ascends (dep : Z -> Z) (path : list Z) : Prop :=
  match path with
  | x :: (y :: _) as rest => dep y = x /\ ascends dep rest
  | _ => True
  end.

(** *** The feed store as the version manager sees it *)

(** The module [feed] of the package is not among the sources;
    [version_manager.py] is modelled over the functions it imports from it.
    They read the feed directory, which the version manager's own functions
    modelled here never write. *)
Class FeedStore (feed : Type) : Type := {
  (** [feed.fid] *)
  feed_fid : feed -> bytes;
  (** [get_feed(fid)], [None] when there is no such feed *)
  get_feed : bytes -> option feed;
  (** [get_upd(feed)]: the file name and the base version of the feed's
      [updfile] packet *)
  get_upd : feed -> option (string * Z);
  (** [length(feed)] *)
  feed_length : feed -> Z;
  (** [get_parent(feed)] *)
  get_parent : feed -> option bytes;
  (** [get_children(feed)] *)
  get_children : feed -> list bytes;
  (** [get_payload(feed, i)] *)
  get_payload : feed -> Z -> res bytes;
  (** [waiting_for_blob(feed)] *)
  waiting_for_blob : feed -> option bytes
}.

(** [access_dict]: the feed that holds a version, with the feed's base
    version. *)
Abbreviation access_dict feed := (gmap Z (feed * Z)).

Section WithFeeds.
Context {feed : Type} `{FeedStore feed}.

(** The first loop of [extract_version_graph]: [while True] over the feed
    and its ancestors. *)
Fixpoint collect_access (fuel : nat) (current_feed : feed)
  (access : access_dict feed) (max_version : Z) : res (access_dict feed * Z) :=
  match fuel with
  | O => Timeout
  | S fuel' =>
      match get_upd current_feed with
      | None => Ok (access, max_version)
      | Some (_, minv) =>
          let maxv := minv + feed_length current_feed - 3 in
          let max_version := Z.max maxv max_version in
          let access :=
            foldl (fun acc i => <[i := (current_feed, minv)]> acc) access
                  (Py.range minv (maxv + 1)) in
          match get_parent current_feed with
          | None => Ok (access, max_version)
          | Some parent_fid =>
              match get_feed parent_fid with
              | None => Raise AssertionError
              | Some parent => collect_access fuel' parent access max_version
              end
          end
      end
  end.

(** The body of the second loop of [extract_version_graph]. *)
Definition add_version (access : access_dict feed) (graph : version_graph) (i : Z)
  : res version_graph :=
  match access !! i with
  | None => Ok graph
  | Some (current_feed, minv) =>
      payload ← get_payload current_feed (i - minv + 3);
      let dep_on := Bytes.from_big (Py.slice_to payload 4) in
      Ok (add_edge (add_edge graph i dep_on) dep_on i)
  end.

Definition extract_version_graph (fuel : nat) (f : feed)
  : res (version_graph * access_dict feed) :=
  '(access, max_version) ← collect_access fuel f ∅ (-1);
  graph ← for_each (add_version access) (Py.range 1 (max_version + 1)) ∅;
  Ok (graph, access).

(** The body the three branches of [jump_versions] share: the change list
    of the update blob of version [step]. *)
Definition step_changes (access : access_dict feed) (step : Z) : res (list change) :=
  match access !! step with
  | None => Raise KeyError
  | Some (access_feed, minv) =>
      update_payload ← get_payload access_feed (step - minv + 3);
      '(changes, _) ← bytes_to_changes update_payload;
      Ok changes
  end.

(** [for step in path: ... all_changes += changes] *)
Definition apply_steps (access : access_dict feed) (all_changes : list change)
  (path : list Z) : res (list change) :=
  for_each (fun all_changes step =>
              changes ← step_changes access step;
              Ok (all_changes ++ changes)) path all_changes.

(** [for step in path: ... all_changes += reverse_changes(changes)] *)
Definition revert_steps (access : access_dict feed) (all_changes : list change)
  (path : list Z) : res (list change) :=
  for_each (fun all_changes step =>
              changes ← step_changes access step;
              Ok (all_changes ++ reverse_changes changes)) path all_changes.

(** The three branches of [jump_versions] on the path [_bfs] found. *)
Definition changes_along (access : access_dict feed) (update_path : list Z)
  : res (list change) :=
  if mono_inc update_path then
    match update_path with
    | [] => Raise IndexError
    | _ :: update_path => apply_steps access [] update_path
    end
  else if mono_dec update_path then
    revert_steps access [] (removelast update_path)
  else
    let not_mono_inc := fun lst => negb (mono_inc lst) in
    let first_half := _takewhile not_mono_inc update_path in
    let second_half :=
      Py.slice_from update_path (Z.of_nat (length first_half) + 1) in
    all_changes ← revert_steps access [] first_half;
    apply_steps access all_changes second_half.

Definition jump_versions (fuel : nat) (start end_ : Z) (f : feed)
  : res (list change) :=
  if start =? end_ then Ok []
  else
    '(graph, access) ← extract_version_graph fuel f;
    max_version ← Py.max_of (keys access);
    if (start >? max_version) || (end_ >? max_version) then Ok []
    else
      update_path ← _bfs fuel graph start end_;
      changes_along access update_path.

End WithFeeds.

(** *** The manager, its files and the configuration snapshot *)

(** The fields of a [VersionManager] that the modelled methods use. *)
Record manager (feed : Type) : Type := {
  vc_dict : gmap string (bytes * bytes);
  apply_queue : gmap bytes Z;
  apply_dict : gmap string Z;
  update_feed : option feed;
  vc_feed : option feed;
  may_update : bool
}.
Arguments vc_dict {feed} _.
Arguments apply_queue {feed} _.
Arguments apply_dict {feed} _.
Arguments update_feed {feed} _.
Arguments vc_feed {feed} _.
Arguments may_update {feed} _.

(** The document that [_save_config] hands to [dumps] and that [loads] hands
    back to [_load_config]. *)
Record config : Type := {
  cfg_vc_dict : gmap string (string * string);
  cfg_apply_queue : gmap string Z;
  cfg_apply_dict : gmap string Z;
  cfg_update_fid : string
}.

(** The name of the configuration file of [_save_config] and
    [_load_config]. *)
Definition update_cfg_json : string := "update_cfg.json".

(** The manager and the working directory.  The files are text files, read
    and written as a whole.  The file [update_cfg.json] is kept apart from
    them, and holds the document rather than the text [dumps] makes of it:
    the [json] library is not part of the code.  [files] are the files of
    the directory other than [update_cfg.json]: the model is that of the
    code as long as no file that the manager tracks has the name
    [update_cfg_json], and a statement about the content of a tracked file
    says so. *)
Record world (feed : Type) : Type := {
  self : manager feed;
  files : gmap string string;
  update_cfg : option config
}.
Arguments self {feed} _.
Arguments files {feed} _.
Arguments update_cfg {feed} _.

(** A dict comprehension [{key(k): val(v) for k, v in d.items()}] whose key
    and value expressions can raise.  The items are visited in the order of
    the [gmap], which is not Python's; the result is the same whenever [key]
    maps different keys of [d] to different keys. *)
Definition dict_comprehension {K1 K2 : Type} `{Countable K1} `{Countable K2}
  {V1 V2 : Type} (key : K1 -> res K2) (val : V1 -> res V2) (d : gmap K1 V1)
  : res (gmap K2 V2) :=
  map_fold (fun k v (acc : res (gmap K2 V2)) =>
              acc ← acc; k' ← key k; v' ← val v; Ok (<[k' := v']> acc))
           (Ok ∅) d.

Section Manager.
Context {feed : Type} `{FeedStore feed}.

Definition set_self (w : world feed) (m : manager feed) : world feed :=
  {| self := m; files := files w; update_cfg := update_cfg w |}.

(** A method returns a value or raises, and leaves the manager and the files
    in some state either way. *)
Definition _save_config (w : world feed) : res unit * world feed :=
  match update_feed (self w) with
  | None => (Raise AssertionError, w)
  | Some update_feed =>
      let cfg := {|
        cfg_vc_dict :=
          (fun v => (Bytes.hexlify v.1, Bytes.hexlify v.2)) <$> vc_dict (self w);
        cfg_apply_queue := kmap Bytes.hexlify (apply_queue (self w));
        cfg_apply_dict := apply_dict (self w);
        cfg_update_fid := Bytes.hexlify (feed_fid update_feed) |} in
      (Ok tt, {| self := self w; files := files w; update_cfg := Some cfg |})
  end.

(** The manager as [__init__] sets it up before it calls [_load_config]. *)
Definition new_manager : manager feed :=
  {| vc_dict := ∅; apply_queue := ∅; apply_dict := ∅;
     update_feed := None; vc_feed := None; may_update := false |}.

Definition _load_config (w : world feed) : res unit * world feed :=
  let m := self w in
  match update_cfg w with
  | None =>
      (Ok tt, set_self w {| vc_dict := ∅; apply_queue := ∅; apply_dict := ∅;
                            update_feed := update_feed m; vc_feed := vc_feed m;
                            may_update := may_update m |})
  | Some cfg =>
      match dict_comprehension Ok
              (fun v : string * string =>
                 a ← Bytes.unhexlify v.1; b ← Bytes.unhexlify v.2; Ok (a, b))
              (cfg_vc_dict cfg) with
      | Raise e => (Raise e, w)
      | Timeout => (Timeout, w)
      | Ok vc =>
      let m := {| vc_dict := vc; apply_queue := apply_queue m;
                  apply_dict := apply_dict m; update_feed := update_feed m;
                  vc_feed := vc_feed m; may_update := may_update m |} in
      match dict_comprehension Bytes.unhexlify Ok (cfg_apply_queue cfg) with
      | Raise e => (Raise e, set_self w m)
      | Timeout => (Timeout, set_self w m)
      | Ok queue =>
      let m := {| vc_dict := vc; apply_queue := queue;
                  apply_dict := cfg_apply_dict cfg; update_feed := update_feed m;
                  vc_feed := vc_feed m; may_update := may_update m |} in
      match Bytes.unhexlify (cfg_update_fid cfg) with
      | Raise e => (Raise e, set_self w m)
      | Timeout => (Timeout, set_self w m)
      | Ok update_fid =>
      let m := {| vc_dict := vc; apply_queue := queue;
                  apply_dict := cfg_apply_dict cfg;
                  update_feed := get_feed update_fid;
                  vc_feed := vc_feed m; may_update := may_update m |} in
      match update_feed m with
      | None => (Raise AttributeError, set_self w m)
      | Some update_feed' =>
          let children := get_children update_feed' in
          if (1 <? length children)%nat then
            match children with
            | vc_fid :: _ =>
                (Ok tt, set_self w {| vc_dict := vc; apply_queue := queue;
                                      apply_dict := cfg_apply_dict cfg;
                                      update_feed := update_feed m;
                                      vc_feed := get_feed vc_fid;
                                      may_update := may_update m |})
            | [] => (Raise IndexError, set_self w m)
            end
          else (Ok tt, set_self w m)
      end
      end
      end
      end
  end.

(** The lines the three waiting branches of [_apply_update] share: the
    version is put into the queue, unless it is there already. *)
Definition enqueue (w : world feed) (fid : bytes) (int_seq : Z)
  : res unit * world feed :=
  let b_fid := fid in
  let m := self w in
  if bool_decide (apply_queue m !! b_fid = Some int_seq) then (Ok tt, w)
  else
    _save_config
      (set_self w {| vc_dict := vc_dict m;
                     apply_queue := <[b_fid := int_seq]> (apply_queue m);
                     apply_dict := apply_dict m; update_feed := update_feed m;
                     vc_feed := vc_feed m; may_update := may_update m |}).

(** The truth value of the result of [waiting_for_blob]. *)
Definition truthy (o : option bytes) : bool :=
  match o with
  | Some (_ :: _) => true
  | _ => false
  end.

(** The apply step of [_apply_update]: the lines after the currently applied
    version has been read. *)
Definition apply_step (fuel : nat) (w : world feed) (fid : bytes) (int_seq : Z)
  (file_feed : feed) (file_name content : string) (current_apply : Z)
  : res unit * world feed :=
  match jump_versions fuel current_apply int_seq file_feed with
  | Raise e => (Raise e, w)
  | Timeout => (Timeout, w)
  | Ok changes =>
      match apply_changes content changes with
      | Raise e => (Raise e, w)
      | Timeout => (Timeout, w)
      | Ok new_content =>
          let m := self w in
          _save_config
            {| self := {| vc_dict := vc_dict m;
                          apply_queue := delete fid (apply_queue m);
                          apply_dict := <[file_name := int_seq]> (apply_dict m);
                          update_feed := update_feed m; vc_feed := vc_feed m;
                          may_update := may_update m |};
               files := <[file_name := new_content]> (files w);
               update_cfg := update_cfg w |}
      end
  end.

Definition _apply_update (fuel : nat) (w : world feed) (fid seq : bytes)
  : res unit * world feed :=
  match vc_feed (self w) with
  | None => (Raise AssertionError, w)
  | Some _ =>
      let int_seq := Bytes.from_big seq in
      match get_feed fid with
      | None => enqueue w fid int_seq
      | Some file_feed =>
          let num_updates := feed_length file_feed - 3 in
          match get_upd file_feed with
          | None => (Raise AssertionError, w)
          | Some (file_name, version_num) =>
              let newest_version := num_updates + version_num in
              if newest_version <? int_seq then enqueue w fid int_seq
              else if (newest_version =? int_seq)
                      && truthy (waiting_for_blob file_feed)
              then enqueue w fid int_seq
              else
                match files w !! file_name with
                | None => (Raise OSError, w)
                | Some content =>
                    match apply_dict (self w) !! file_name with
                    | None => (Raise KeyError, w)
                    | Some current_apply =>
                        if int_seq =? current_apply then (Ok tt, w)
                        else apply_step fuel w fid int_seq file_feed file_name
                               content current_apply
                    end
                end
          end
      end
  end.

End Manager.

End VersionManager.

(** ** A feed store held in memory, and the scenarios run on it *)

Module Scenario.
Import VersionManager.

(** A feed as a table: what the functions of [FeedStore] return for it.  The
    payload of the packet with sequence number [i] is [tf_payloads[i - 1]]. *)
Record table_feed : Type := {
  tf_fid : bytes;
  tf_upd : option (string * Z);
  tf_parent : option bytes;
  tf_children : list bytes;
  tf_payloads : list bytes;
  tf_waiting : option bytes
}.

Definition table_get_payload (f : table_feed) (i : Z) : res bytes :=
  if (i <? 1) || (Z.of_nat (length (tf_payloads f)) <? i) then Raise IndexError
  else Py.list_get (tf_payloads f) (i - 1).

(** The feed store that holds the feeds of a list. *)
Definition table_store (feeds : list table_feed) : FeedStore table_feed := {|
  feed_fid := tf_fid;
  get_feed := fun fid => find (fun f => Bytes.eqb (tf_fid f) fid) feeds;
  get_upd := tf_upd;
  feed_length := fun f => Z.of_nat (length (tf_payloads f));
  get_parent := tf_parent;
  get_children := tf_children;
  get_payload := table_get_payload;
  waiting_for_blob := tf_waiting
|}.

(** The change lists of four versions of a file: versions 1, 2 and 3 each
    depend on the one before, version 4 depends on version 1. *)
Definition update_1 : list change := [(1, "I", "a")].
Definition update_2 : list change := [(1, "I", "b")].
Definition update_3 : list change := [(2, "I", "c")].
Definition update_4 : list change := [(2, "I", "d")].

Definition updates (step : Z) : list change :=
  if step =? 1 then update_1
  else if step =? 2 then update_2
  else if step =? 3 then update_3
  else update_4.

(** The file feed of "f.txt" with base version 0: the three packets that set
    the feed up, then the update blobs of versions 1 to 4. *)
Definition file_feed : table_feed := {|
  tf_fid := repeat x01 32;
  tf_upd := Some ("f.txt", 0);
  tf_parent := None;
  tf_children := [repeat x02 32];
  tf_payloads :=
    [ Bytes.zeros 48; Bytes.zeros 48; Bytes.zeros 48;
      changes_to_bytes update_1 0; changes_to_bytes update_2 1;
      changes_to_bytes update_3 2; changes_to_bytes update_4 1 ];
  tf_waiting := None
|}.

Definition file_store : FeedStore table_feed := table_store [file_feed].

(** The texts of the versions of the file, and the version each depends on:
    [updates v] is [get_changes] of the text of [version_dep v] and the text
    of [v]. *)
Definition version_text (v : Z) : string :=
  if v =? 1 then Py.join_lines ["a"; ""]
  else if v =? 2 then Py.join_lines ["b"; "a"; ""]
  else if v =? 3 then Py.join_lines ["b"; "c"; "a"; ""]
  else if v =? 4 then Py.join_lines ["a"; "d"; ""]
  else "".

Definition version_dep (v : Z) : Z :=
  if v =? 2 then 1 else if v =? 3 then 2 else if v =? 4 then 1 else 0.

(** A feed that holds no [updfile] packet, in a store of its own. *)
Definition bare_feed : table_feed := {|
  tf_fid := repeat x03 32;
  tf_upd := None;
  tf_parent := None;
  tf_children := [];
  tf_payloads := [Bytes.zeros 48];
  tf_waiting := None
|}.

Definition bare_store : FeedStore table_feed := table_store [bare_feed].

(** The version graph of [file_feed] and its [access_dict]. *)
Definition file_graph : version_graph :=
  list_to_map [(0, [1]); (1, [0; 2; 4]); (2, [1; 3]); (3, [2]); (4, [1])].

Definition file_access : access_dict table_feed :=
  list_to_map (map (fun v => (v, (file_feed, 0))) [0; 1; 2; 3; 4]).

(** A stand-in for the cryptographic libraries, to run the codec on concrete
    packets: the hash is a checksum of 64 bits repeated to 32 bytes, a
    signature is a keyed checksum, and it is verified with the signing key
    itself (the feed ID of a scenario is its key). *)
Definition checksum (m : bytes) : Z :=
  foldl (fun acc b => (acc * 31 + Bytes.to_Z b + 1) mod 2 ^ 64) 7 m.

Definition test_sha256 (m : bytes) : bytes :=
  let c := Bytes.to_big 8 (checksum m) in c ++ c ++ c ++ c.

Definition test_sign (key m : bytes) : bytes :=
  test_sha256 (key ++ m) ++ test_sha256 (m ++ key).

Definition test_crypto : Crypto := {|
  sha256 := test_sha256;
  sign := test_sign;
  verify := fun fid signature m => Bytes.eqb signature (test_sign fid m);
  PYCOM := false
|}.

(** The key, and feed ID, of the scenarios. *)
Definition key_1 : bytes := repeat x01 32.

(** The bytes 0, 1, ..., [n - 1]. *)
Definition counting (n : nat) : bytes := map (fun k => Bytes.of_Z (Z.of_nat k)) (seq 0 n).

(** The value of a computation that is known to return. *)
Definition value_of {A : Type} (r : res A) (otherwise : A) : A :=
  match r with
  | Ok a => a
  | _ => otherwise
  end.

Definition no_feed : Feed.FEED :=
  {| Feed.fid := []; Feed.parent_fid := []; Feed.parent_seq := 0;
     Feed.anchor_seq := 0; Feed.anchor_mid := []; Feed.front_seq := 0;
     Feed.front_mid := [] |}.

Definition no_packet : Packet.PACKET :=
  {| Packet.wire := Packet.wire_struct []; Packet.fid := []; Packet.seq := [];
     Packet.prev_mid := []; Packet.mid := [] |}.

(** *** Scenarios on the struct based feed store *)

(** A new feed with the feed ID [key_1] on an empty disk. *)
Definition new_feed : res (Feed.FEED * Feed.disk) :=
  Feed.create_feed key_1 0 None 0 (Bytes.zeros 32) Feed.empty_disk.

(** The feed after [append_blob] of [content], and the payload read back
    from its packet 1. *)
Definition feed_with_blob (content : bytes) : res (Feed.FEED * Feed.disk) :=
  '(feed, d) ← new_feed;
  @Feed.append_blob test_crypto feed content key_1 d.

Definition blob_read_back (content : bytes) : res bytes :=
  '(feed, d) ← feed_with_blob content;
  Feed.get_payload 100 feed 1 d.

(** The feed after [append_bytes] of [content]. *)
Definition feed_with_plain (content : bytes) : res (Feed.FEED * Feed.disk) :=
  '(feed, d) ← new_feed;
  @Feed.append_bytes test_crypto feed content key_1 d.

(** Whether the front packet of a feed verifies under the sequence number
    [seq] and the message ID the feed had before the packet was appended. *)
Definition front_verifies (appended : res (Feed.FEED * Feed.disk)) (seq : Z)
  : res bool :=
  '(feed0, _) ← new_feed;
  '(feed, d) ← appended;
  pkt_wire ← Feed.get_wire feed (-1) d;
  pkt ← @Packet.pkt_from_wire test_crypto (Feed.fid feed0) (Bytes.to_big 4 seq)
          (Feed.front_mid feed0) pkt_wire;
  Ok (bool_decide (is_Some pkt)).

(** A feed whose front packet, and only packet, is of type [contdas]. *)
Definition ended_feed : res (Feed.FEED * Feed.disk) :=
  '(feed, d) ← new_feed;
  pkt ← @Packet.create_end_pkt test_crypto (Feed.fid feed) (Bytes.to_big 4 1)
          (Feed.front_mid feed) (repeat x02 32) key_1;
  Ok (Feed.append_packet feed pkt d).

(** A feed with one packet, then the [updfile] packet of a file name and a
    base version; and what [get_upd_file_name] reads back. *)
Definition upd_read_back (file_name : string) (v_number : Z)
  : res (option (string * Z)) :=
  '(feed, d) ← feed_with_plain (Bytes.encode "hello");
  '(feed, d) ← @Feed.add_upd_file_name test_crypto feed file_name key_1 v_number d;
  Feed.get_upd_file_name feed d.

(** The feed with one plain packet, its log, and the feed after the
    [updfile] packet of "f.txt" with base version 1 has been added. *)
Definition plain_feed_state : Feed.FEED * Feed.disk :=
  Eval vm_compute in
    value_of (feed_with_plain (Bytes.encode "hello")) (no_feed, Feed.empty_disk).

Definition plain_feed_log : bytes :=
  Eval vm_compute in default [] (Feed.logs plain_feed_state.2 !! key_1).

Definition upd_feed_state : Feed.FEED * Feed.disk :=
  Eval vm_compute in
    value_of (@Feed.add_upd_file_name test_crypto plain_feed_state.1 "f.txt"
                key_1 1 plain_feed_state.2)
             (no_feed, Feed.empty_disk).

(** A replica of a new feed is offered the first packet of the feed, as
    [append_bytes] made it; the result is the front of the replica after
    [verify_and_append_bytes]. *)
Definition replica_front_seq : res Z :=
  '(replica, d0) ← new_feed;
  '(feed, d) ← feed_with_plain (Bytes.encode "hello");
  pkt_wire ← Feed.get_wire feed 1 d;
  '(replica, _) ← @Feed.verify_and_append_bytes test_crypto replica pkt_wire d0;
  Ok (Feed.front_seq replica).

(** *** Scenarios on the class based feed *)

(** The log file of a new feed with the feed ID [key_1]: the header alone. *)
Definition log_header : bytes :=
  Bytes.zeros 12 ++ key_1 ++ Bytes.zeros 32 ++ Bytes.zeros 4 ++ Bytes.zeros 4
  ++ take 20 key_1 ++ Bytes.zeros 4 ++ take 20 key_1.

Definition log_disk : Deprecated.disk :=
  {| Deprecated.files := {[ "a.log" := log_header ]}; Deprecated.blobs := ∅ |}.

(** The feed of that log file after a [contdas] packet has been appended. *)
Definition ended_log : res (bool * Deprecated.Feed * Deprecated.disk) :=
  feed ← Deprecated.open_Feed "a.log" (Some key_1) log_disk;
  pkt ← @Deprecated.create_end_pkt test_crypto (Deprecated.feed_fid feed)
          (Bytes.to_big 4 1) (Deprecated.front_mid feed) (repeat x02 32) key_1;
  Deprecated.append_pkt feed pkt log_disk.

(** The wire format of a packet signed for the place after the front of a
    feed. *)
Definition next_wire (feed : Deprecated.Feed) (payload : bytes) : res bytes :=
  pkt ← @Deprecated.new_Packet test_crypto (Deprecated.feed_fid feed)
          (Bytes.to_big 4 (Deprecated.front_seq feed + 1))
          (Deprecated.front_mid feed) payload Deprecated.plain48 (Some key_1);
  match Deprecated.wire pkt with
  | Some w => Ok w
  | None => Raise AssertionError
  end.

(** The feed and the disk of [ended_feed], its front packet, and a packet
    signed for the place after it. *)
Definition ended_feed_state : Feed.FEED * Feed.disk :=
  Eval vm_compute in value_of ended_feed (no_feed, Feed.empty_disk).

Definition ended_feed_front : bytes :=
  Eval vm_compute in
    value_of (Feed.get_wire ended_feed_state.1 (-1) ended_feed_state.2) [].

Definition after_ended_packet : Packet.PACKET :=
  Eval vm_compute in
    value_of (@Packet.new_packet test_crypto (Feed.fid ended_feed_state.1)
                (Bytes.to_big 4 2) (Feed.front_mid ended_feed_state.1)
                (Bytes.zeros 48) (Packet.type_byte Packet.PLAIN48) key_1)
             no_packet.

(** The feed of the log file [log_disk], the wire format of a packet signed
    for its first place, and the unsigned packet [pkt_from_bytes] builds to
    check it. *)
Definition log_feed : Deprecated.Feed :=
  {| Deprecated.file_name := "a.log"; Deprecated.feed_skey := Some key_1;
     Deprecated.feed_fid := key_1; Deprecated.parent_id := Bytes.zeros 32;
     Deprecated.parent_seq := 0; Deprecated.anchor_seq := 0;
     Deprecated.anchor_mid := take 20 key_1; Deprecated.front_seq := 0;
     Deprecated.front_mid := take 20 key_1 |}.

Definition first_wire : bytes :=
  Eval vm_compute in value_of (next_wire log_feed (Bytes.encode "x")) [].

Definition no_Packet : Deprecated.Packet :=
  {| Deprecated.block_name := []; Deprecated.fid := []; Deprecated.seq := [];
     Deprecated.prev_mid := []; Deprecated.payload := [];
     Deprecated.pkt_type := []; Deprecated.skey := None; Deprecated.dmx := [];
     Deprecated.signature := None; Deprecated.mid := None;
     Deprecated.wire := None |}.

Definition first_unsigned : Deprecated.Packet :=
  Eval vm_compute in
    value_of (@Deprecated.new_Packet test_crypto key_1 (Bytes.to_big 4 1)
                (take 20 key_1) (Py.slice first_wire 8 56)
                (Py.slice first_wire 7 8) None)
             no_Packet.

(** The content read back from the blob chain [Feed.append_blob] makes of
    it on the new feed [log_feed]. *)
Definition log_blob_read_back (content : bytes) : res bytes :=
  '(_, feed, d) ← @Deprecated.append_blob test_crypto log_feed content log_disk;
  Deprecated.getitem 100 feed 1 d.

(** The file name and the base version read back from the [updfile] packet
    [Feed.add_upd_file_name] appends to [log_feed]. *)
Definition log_upd_read_back (file_name : string) (v_number : Z)
  : res (option string * option Z) :=
  '(_, feed, d) ← @Deprecated.add_upd_file_name test_crypto log_feed
                     (Bytes.encode file_name) v_number log_disk;
  name ← Deprecated.get_upd_file_name feed d;
  version ← Deprecated.get_upd_version feed d;
  Ok (name, version).

(** *** More states of the struct based feed store *)

(** The new feed and its disk. *)
Definition new_feed_state : Feed.FEED * Feed.disk :=
  Eval vm_compute in value_of new_feed (no_feed, Feed.empty_disk).

(** The new feed after [append_blob] of a content that fits the packet. *)
Definition short_blob_state : Feed.FEED * Feed.disk :=
  Eval vm_compute in
    value_of (@Feed.append_blob test_crypto new_feed_state.1 (Bytes.encode "hello")
                key_1 new_feed_state.2)
             (no_feed, Feed.empty_disk).

(** The feed with one plain packet after [add_apply] of version 3 of the
    file feed [repeat x02 32]. *)
Definition apply_feed_state : Feed.FEED * Feed.disk :=
  Eval vm_compute in
    value_of (@Feed.add_apply test_crypto plain_feed_state.1 (repeat x02 32) 3
                key_1 plain_feed_state.2)
             (no_feed, Feed.empty_disk).

(** The [contdas] packet of [ended_feed]. *)
Definition end_packet : Packet.PACKET :=
  Eval vm_compute in
    value_of (@Packet.create_end_pkt test_crypto key_1 (Bytes.to_big 4 1)
                (Feed.front_mid new_feed_state.1) (repeat x02 32) key_1)
             no_packet.

(** The feed with one plain packet after [create_child_feed] of the child
    [repeat x02 32]: the child, the parent and the disk. *)
Definition child_feed_state : Feed.FEED * Feed.FEED * Feed.disk :=
  Eval vm_compute in
    value_of (@Feed.create_child_feed test_crypto plain_feed_state.1 key_1
                (repeat x02 32) (repeat x02 32) plain_feed_state.2)
             (no_feed, no_feed, Feed.empty_disk).

(** The packet that [append_bytes] makes of "hello" for the first place of
    the new feed. *)
Definition first_packet : Packet.PACKET :=
  Eval vm_compute in
    value_of (@Packet.new_packet test_crypto (Feed.fid new_feed_state.1)
                (Bytes.to_big 4 (Feed.front_seq new_feed_state.1 + 1))
                (Feed.front_mid new_feed_state.1)
                (Bytes.encode "hello" ++ Bytes.zeros 43)
                (Packet.type_byte Packet.PLAIN48) key_1)
             no_packet.

(** *** More states of the class based feed *)

(** The packet signed for the first place of [log_feed], and the feed after
    [append_bytes] of its payload. *)
Definition first_signed : Deprecated.Packet :=
  Eval vm_compute in
    value_of (@Deprecated.new_Packet test_crypto key_1 (Bytes.to_big 4 1)
                (take 20 key_1) (Bytes.encode "x") Deprecated.plain48 (Some key_1))
             no_Packet.

Definition plain_log_state : bool * Deprecated.Feed * Deprecated.disk :=
  Eval vm_compute in
    value_of (@Deprecated.append_bytes test_crypto log_feed (Bytes.encode "x")
                log_disk)
             (false, log_feed, log_disk).

(** The [contdas] packet of [ended_log], and the feed after it. *)
Definition end_Packet : Deprecated.Packet :=
  Eval vm_compute in
    value_of (@Deprecated.create_end_pkt test_crypto key_1 (Bytes.to_big 4 1)
                (take 20 key_1) (repeat x02 32) key_1)
             no_Packet.

Definition ended_log_state : bool * Deprecated.Feed * Deprecated.disk :=
  Eval vm_compute in value_of ended_log (false, log_feed, log_disk).

(** The blob chain of a content of 130 bytes: the head packet and two
    blobs. *)
Definition chain_of_130 : Deprecated.Packet * list Deprecated.Blob :=
  Eval vm_compute in
    value_of (@Deprecated.create_chain test_crypto key_1 (Bytes.to_big 4 1)
                (take 20 key_1) (counting 130) key_1)
             (no_Packet, []).

(** The feed after [append_blob] of that content. *)
Definition blob_log_state : bool * Deprecated.Feed * Deprecated.disk :=
  Eval vm_compute in
    value_of (@Deprecated.append_blob test_crypto log_feed (counting 130) log_disk)
             (false, log_feed, log_disk).

(** A replica that holds the head packet of the chain and none of its blobs,
    the blob it waits for, and its files after [verify_and_append_blob] of
    that blob. *)
Definition head_only_state : bool * Deprecated.Feed * Deprecated.disk :=
  Eval vm_compute in
    value_of (Deprecated.append_pkt log_feed chain_of_130.1 log_disk)
             (false, log_feed, log_disk).

Definition head_blob_wire : bytes :=
  Eval vm_compute in
    match chain_of_130.2 with
    | blob :: _ => Deprecated.blob_wire blob
    | [] => []
    end.

Definition head_blob_disk : Deprecated.disk :=
  Eval vm_compute in
    (value_of (@Deprecated.verify_and_append_blob test_crypto 10
                 head_only_state.1.2 head_blob_wire head_only_state.2)
              (false, log_disk)).2.

(** *** Scenarios on the version manager *)

(** A manager that follows [file_feed]: the file "f.txt" is in [vc_dict] and
    on disk, version 3 is queued, and [apply_dict] has no entry for it. *)
Definition follower : world table_feed := {|
  self := {| vc_dict := {[ "f.txt" := (tf_fid file_feed, repeat x02 32) ]};
             apply_queue := {[ tf_fid file_feed := 3 ]};
             apply_dict := ∅;
             update_feed := Some file_feed;
             vc_feed := Some file_feed;
             may_update := false |};
  files := {[ "f.txt" := "" ]};
  update_cfg := None
|}.

(** A manager that has version 1 of "f.txt" applied: the file holds the text
    of version 1, and version 3 is queued. *)
Definition follower_at_1 : world table_feed := {|
  self := {| vc_dict := {[ "f.txt" := (tf_fid file_feed, repeat x02 32) ]};
             apply_queue := {[ tf_fid file_feed := 3 ]};
             apply_dict := {[ "f.txt" := 1 ]};
             update_feed := Some file_feed;
             vc_feed := Some file_feed;
             may_update := false |};
  files := {[ "f.txt" := version_text 1 ]};
  update_cfg := None
|}.

(** The text the specification expects in its linear scenario. *)
Definition expected_b_a_c : string := Py.join_lines ["b"; "a"; "c"].

(** Replaying one change list after the other, each on the text the previous
    one produced. *)
Definition apply_in_order (content : string) (updates : list (list change))
  : res string :=
  for_each apply_changes updates content.

End Scenario.

(** * Properties *)

(** ** Python helpers *)

Module PyFacts.
Import Py.

Lemma split_lines_nonempty (s : string) : split_lines s <> [].
Proof.
  destruct s as [|c s]; simpl; [discriminate|].
  destruct (Ascii.eqb c LF); [discriminate|].
  destruct (split_lines s); discriminate.
Qed.

Lemma join_lines_cons_char (c : ascii) (l : string) (ls : list string) :
  join_lines (String c l :: ls) = String c (join_lines (l :: ls)).
Proof. destruct ls; reflexivity. Qed.

(** Joining the lines of a string gives the string back. *)
Lemma join_split_lines (s : string) : join_lines (split_lines s) = s.
Proof.
  induction s as [|c s IH]; simpl; [reflexivity|].
  destruct (Ascii.eqb_spec c LF) as [->|_].
  - pose proof (split_lines_nonempty s) as Hne.
    destruct (split_lines s) as [|l ls]; [congruence|].
    simpl in *. now rewrite IH.
  - pose proof (split_lines_nonempty s) as Hne.
    destruct (split_lines s) as [|l ls]; [congruence|].
    rewrite join_lines_cons_char. now rewrite IH.
Qed.

Lemma clamp_length (n : nat) : clamp n (Z.of_nat n) = n.
Proof.
  unfold clamp. destruct (Z.ltb_spec (Z.of_nat n) 0); [lia|].
  rewrite Z.min_id. apply Nat2Z.id.
Qed.

Lemma clamp_inside (n k : nat) : (k <= n)%nat -> clamp n (Z.of_nat k) = k.
Proof.
  intros Hk. unfold clamp. destruct (Z.ltb_spec (Z.of_nat k) 0); [lia|].
  rewrite Z.min_l by lia. apply Nat2Z.id.
Qed.

Lemma index_inside (n k : nat) : (k < n)%nat -> index n (Z.of_nat k) = Ok k.
Proof.
  intros Hk. unfold index. cbv zeta.
  assert (Hlt : (Z.of_nat k <? 0) = false) by (apply Z.ltb_ge; lia).
  assert (Hle : (Z.of_nat n <=? Z.of_nat k) = false) by (apply Z.leb_gt; lia).
  rewrite !Hlt, Hle. simpl. now rewrite Nat2Z.id.
Qed.

(** Inserting at the position just after a prefix. *)
Lemma list_insert_after_prefix {A : Type} (pre post : list A) (x : A) :
  list_insert (pre ++ post) (Z.of_nat (length pre)) x = pre ++ x :: post.
Proof.
  unfold list_insert.
  rewrite clamp_inside by (rewrite length_app; lia).
  now rewrite take_app_length, drop_app_length.
Qed.

(** Deleting the element just after a prefix. *)
Lemma list_del_after_prefix {A : Type} (pre post : list A) (x : A) :
  list_del (pre ++ x :: post) (Z.of_nat (length pre)) = Ok (pre ++ post).
Proof.
  unfold list_del.
  rewrite index_inside by (rewrite length_app; simpl; lia). simpl.
  rewrite take_app_length.
  rewrite (cons_middle x pre post), app_assoc.
  rewrite drop_app_length'; [reflexivity|].
  rewrite length_app. simpl. lia.
Qed.

End PyFacts.

(** ** Bytes and integers *)

Module BytesFacts.

Lemma length_zeros (n : nat) : length (Bytes.zeros n) = n.
Proof. apply repeat_length. Qed.

Lemma zeros_add (a b : nat) : Bytes.zeros (a + b) = Bytes.zeros a ++ Bytes.zeros b.
Proof. apply repeat_app. Qed.

Lemma length_to_little (n : nat) (z : Z) : length (Bytes.to_little n z) = n.
Proof. revert z. induction n as [|n IH]; intros z; simpl; [reflexivity|]. now rewrite IH. Qed.

Lemma length_to_big (n : nat) (z : Z) : length (Bytes.to_big n z) = n.
Proof. unfold Bytes.to_big. rewrite length_rev. apply length_to_little. Qed.

Lemma to_Z_range (b : byte) : 0 <= Bytes.to_Z b < 256.
Proof.
  unfold Bytes.to_Z. pose proof (Byte.to_N_bounded b). lia.
Qed.

Lemma to_Z_of_Z (z : Z) : Bytes.to_Z (Bytes.of_Z z) = z mod 256.
Proof.
  unfold Bytes.to_Z, Bytes.of_Z.
  pose proof (Z.mod_pos_bound z 256 eq_refl) as Hr.
  destruct (Byte.of_N (Z.to_N (z mod 256))) as [b|] eqn:Hb.
  - apply Byte.to_of_N in Hb. rewrite Hb. lia.
  - apply Byte.of_N_None_iff in Hb. lia.
Qed.

Lemma to_big_succ (n : nat) (z : Z) :
  Bytes.to_big (S n) z = Bytes.to_big n (z / 256) ++ [Bytes.of_Z z].
Proof. reflexivity. Qed.

Lemma from_big_snoc (l : bytes) (x : byte) :
  Bytes.from_big (l ++ [x]) = Bytes.from_big l * 256 + Bytes.to_Z x.
Proof. unfold Bytes.from_big. now rewrite foldl_app. Qed.

(** Reading back the big-endian bytes of an integer. *)
Lemma from_big_to_big (n : nat) (z : Z) :
  Bytes.from_big (Bytes.to_big n z) = z mod 256 ^ Z.of_nat n.
Proof.
  revert z. induction n as [|n IH]; intros z.
  - simpl. now rewrite Z.mod_1_r.
  - rewrite to_big_succ, from_big_snoc, IH, to_Z_of_Z.
    rewrite Nat2Z.inj_succ, Z.pow_succ_r by lia.
    rewrite (Z.rem_mul_r z 256 (256 ^ Z.of_nat n)) by lia. lia.
Qed.

Lemma take_to_big (n : nat) (z : Z) :
  take n (Bytes.to_big (S n) z) = Bytes.to_big n (z / 256).
Proof.
  rewrite to_big_succ. rewrite take_app_length'; [reflexivity|]. now rewrite length_to_big.
Qed.

Lemma length_fit (n : nat) (b : bytes) : length (Packet.fit n b) = n.
Proof.
  unfold Packet.fit. rewrite length_app, length_take, length_zeros. lia.
Qed.

Lemma fit_exact (n : nat) (b : bytes) : length b = n -> Packet.fit n b = b.
Proof.
  intros <-. unfold Packet.fit. rewrite take_ge by lia.
  rewrite Nat.sub_diag. apply app_nil_r.
Qed.

End BytesFacts.

(** ** Slices of lists made of parts *)

Module SliceFacts.
Import PyFacts.

(** The middle of three parts, as a slice. *)
Lemma slice_middle {A : Type} (a b c : list A) (i j : Z) :
  i = Z.of_nat (length a) -> j = Z.of_nat (length a + length b) ->
  Py.slice (a ++ b ++ c) i j = b.
Proof.
  intros -> ->. unfold Py.slice.
  rewrite !clamp_inside by (rewrite !length_app; lia).
  rewrite drop_app_length.
  replace (length a + length b - length a)%nat with (length b) by lia.
  apply take_app_length.
Qed.

Lemma slice_from_app {A : Type} (a b : list A) (i : Z) :
  i = Z.of_nat (length a) -> Py.slice_from (a ++ b) i = b.
Proof.
  intros ->. unfold Py.slice_from.
  rewrite clamp_inside by (rewrite length_app; lia). apply drop_app_length.
Qed.

Lemma slice_to_app {A : Type} (a b : list A) (j : Z) :
  j = Z.of_nat (length a) -> Py.slice_to (a ++ b) j = a.
Proof.
  intros ->. unfold Py.slice_to.
  rewrite clamp_inside by (rewrite length_app; lia). apply take_app_length.
Qed.

(** Assigning to the middle of three parts. *)
Lemma set_slice_middle {A : Type} (a b c xs : list A) (i j : Z) :
  i = Z.of_nat (length a) -> j = Z.of_nat (length a + length b) ->
  Py.set_slice (a ++ b ++ c) i j xs = a ++ xs ++ c.
Proof.
  intros -> ->. unfold Py.set_slice.
  rewrite !clamp_inside by (rewrite !length_app; lia).
  rewrite Nat.max_r by lia.
  rewrite take_app_length. f_equal. f_equal.
  rewrite app_assoc. apply drop_app_length'. rewrite length_app. lia.
Qed.

Lemma set_slice_to_app {A : Type} (a c xs : list A) (j : Z) :
  j = Z.of_nat (length a) -> Py.set_slice_to (a ++ c) j xs = xs ++ c.
Proof.
  intros ->. unfold Py.set_slice_to.
  rewrite clamp_inside by (rewrite length_app; lia).
  now rewrite drop_app_length.
Qed.

Lemma set_slice_from_app {A : Type} (a c xs : list A) (i : Z) :
  i = Z.of_nat (length a) -> Py.set_slice_from (a ++ c) i xs = a ++ xs.
Proof.
  intros ->. unfold Py.set_slice_from.
  rewrite clamp_inside by (rewrite length_app; lia).
  now rewrite take_app_length.
Qed.

End SliceFacts.

(** ** The diff and patch engine *)

Module VersionManagerFacts.
Import Py PyFacts BytesFacts VersionManager Scenario.

Lemma for_each_app {A S : Type} (body : S -> A -> res S) (xs ys : list A) (s : S) :
  for_each body (xs ++ ys) s = (s' ← for_each body xs s; for_each body ys s').
Proof.
  revert s. induction xs as [|x xs IH]; intros s; simpl; [reflexivity|].
  destruct (body s x); simpl; [apply IH|reflexivity|reflexivity].
Qed.

Lemma from_big_nonneg (b : bytes) : 0 <= Bytes.from_big b.
Proof.
  unfold Bytes.from_big.
  assert (Hacc : forall acc, 0 <= acc ->
            0 <= foldl (fun acc x => acc * 256 + Bytes.to_Z x) acc b).
  { induction b as [|x b IH]; intros acc Hacc; simpl; [assumption|].
    apply IH. pose proof (to_Z_range x). lia. }
  now apply Hacc.
Qed.

(** [from_var_int] returns a value that is not negative, and reads at least
    one byte. *)
Lemma from_var_int_bounds (b : bytes) (value num_bytes : Z) :
  VarInt.from_var_int b = Ok (value, num_bytes) -> 0 <= value /\ 1 <= num_bytes.
Proof.
  unfold VarInt.from_var_int. destruct b as [|head rest]; [discriminate|].
  destruct (_ <=? 252).
  - intros [= <- <-]. pose proof (to_Z_range head). lia.
  - cbv zeta. destruct (_ <? _)%nat; [discriminate|].
    intros [= <- <-]. split; [apply from_big_nonneg|lia].
Qed.

(** The loop of [bytes_to_changes] ends within the fuel it is given. *)
Lemma bytes_to_changes_loop_fuel (fuel : nat) (changes : bytes) (curr_i : Z)
  (operations : list change) :
  Z.of_nat (length changes) - curr_i <= Z.of_nat fuel ->
  bytes_to_changes_loop (S fuel) changes curr_i operations <> Timeout.
Proof.
  revert curr_i operations.
  induction fuel as [|fuel IH]; intros curr_i operations Hfuel.
  - simpl. destruct (Z.ltb_spec curr_i (Z.of_nat (length changes))); [lia|discriminate].
  - cbn [bytes_to_changes_loop].
    destruct (Z.ltb_spec curr_i (Z.of_nat (length changes))); [|discriminate].
    destruct (VarInt.from_var_int (Py.slice_from changes curr_i))
      as [[size num_b]| |] eqn:Hsize; [|discriminate|].
    2:{ exfalso. revert Hsize. unfold VarInt.from_var_int.
        destruct (Py.slice_from changes curr_i); [discriminate|].
        destruct (_ <=? 252); [discriminate|]. cbv zeta.
        destruct (_ <? _)%nat; discriminate. }
    apply from_var_int_bounds in Hsize as [Hsize Hnum_b].
    cbn [mbind res_bind].
    destruct (VarInt.from_var_int (Py.slice_from changes (curr_i + num_b)))
      as [[line_num num_b2]| |] eqn:Hline; [|discriminate|].
    2:{ exfalso. revert Hline. unfold VarInt.from_var_int.
        destruct (Py.slice_from changes (curr_i + num_b)); [discriminate|].
        destruct (_ <=? 252); [discriminate|]. cbv zeta.
        destruct (_ <? _)%nat; discriminate. }
    cbn [mbind res_bind].
    destruct (Py.list_get changes (curr_i + num_b + num_b2)) as [op| |] eqn:Hop;
      [|discriminate|].
    2:{ exfalso. revert Hop. unfold Py.list_get, Py.index. cbv zeta.
        destruct (_ || _); [discriminate|]. cbn [mbind res_bind].
        destruct (changes !! _); discriminate. }
    cbn [mbind res_bind].
    apply IH. lia.
Qed.

Lemma bytes_to_changes_returns (changes : bytes) : bytes_to_changes changes <> Timeout.
Proof.
  unfold bytes_to_changes.
  pose proof (bytes_to_changes_loop_fuel (length changes) changes 4 []) as Hloop.
  destruct (bytes_to_changes_loop (S (length changes)) changes 4 []); try discriminate.
  exfalso. apply Hloop; [lia|reflexivity].
Qed.

(** Replaying the trailing deletes removes what is left of the old lines. *)
Lemma apply_trailing_deletes (pre old_lines : list string) :
  for_each apply_change
    (trailing_deletes (Z.of_nat (length pre) + 1) old_lines) (pre ++ old_lines)
  = Ok pre.
Proof.
  induction old_lines as [|l ls IH]; simpl.
  - now rewrite app_nil_r.
  - replace (Z.of_nat (length pre) + 1 - 1) with (Z.of_nat (length pre)) by lia.
    rewrite list_del_after_prefix. simpl. apply IH.
Qed.

(** Replaying the trailing inserts appends what is left of the new lines. *)
Lemma apply_trailing_inserts (pre new_lines : list string) :
  for_each apply_change
    (trailing_inserts (Z.of_nat (length pre) + 1) new_lines) pre
  = Ok (pre ++ new_lines).
Proof.
  revert pre. induction new_lines as [|l ls IH]; intros pre; simpl.
  - now rewrite app_nil_r.
  - replace (Z.of_nat (length pre) + 1 - 1) with (Z.of_nat (length pre)) by lia.
    pose proof (list_insert_after_prefix pre [] l) as Hins.
    rewrite app_nil_r in Hins. rewrite Hins. simpl.
    specialize (IH (pre ++ [l])).
    rewrite length_app in IH. simpl in IH.
    replace (Z.of_nat (length pre + 1) + 1) with (Z.of_nat (length pre) + 1 + 1) in IH by lia.
    rewrite IH. now rewrite <- app_assoc.
Qed.

(** The loop invariant of [get_changes]: when [pre] is the part of the new
    file already produced and [line_num] points just after it, replaying the
    remaining changes on [pre ++ old_lines] yields [pre ++ new_lines]. *)
Lemma apply_get_changes_loop (line_num : Z) (old_lines new_lines pre : list string) :
  line_num = Z.of_nat (length pre) + 1 ->
  for_each apply_change (get_changes_loop line_num old_lines new_lines)
    (pre ++ old_lines)
  = Ok (pre ++ new_lines).
Proof.
  revert pre.
  funelim (get_changes_loop line_num old_lines new_lines); intros pre Hln; subst.
  - simp get_changes_loop. simpl. rewrite app_nil_r. apply apply_trailing_inserts.
  - simp get_changes_loop. rewrite for_each_app, apply_trailing_deletes. simpl.
    now rewrite app_nil_r.
  - simp get_changes_loop.
    destruct (String.eqb_spec old_l new_l) as [->|Hne].
    + specialize (H (pre ++ [new_l])).
      rewrite <- !app_assoc in H. simpl in H. apply H.
      rewrite length_app. simpl. lia.
    + destruct (negb (str_in old_l new_lines)); simpl.
      * replace (Z.of_nat (length pre) + 1 - 1) with (Z.of_nat (length pre)) by lia.
        rewrite list_del_after_prefix. simpl. now apply H0.
      * replace (Z.of_nat (length pre) + 1 - 1) with (Z.of_nat (length pre)) by lia.
        rewrite list_insert_after_prefix. simpl.
        specialize (H1 (pre ++ [new_l])).
        rewrite <- !app_assoc in H1. simpl in H1. apply H1.
        rewrite length_app. simpl. lia.
Qed.

(** C1. Diff and patch round trip: applying the changes computed by
    [get_changes old new] to [old] returns [new], for all strings. *)
Theorem apply_changes_get_changes (old_version new_version : string) :
  apply_changes old_version (get_changes old_version new_version)
  = Ok new_version.
Proof.
  unfold apply_changes, get_changes.
  pose proof (apply_get_changes_loop 1 (split_lines old_version)
                (split_lines new_version) [] eq_refl) as H.
  simpl in H. rewrite H. simpl. now rewrite join_split_lines.
Qed.

(** C5, as stated: the three updates replayed in order on the empty file do
    not produce the three lines b, a, c. *)
Lemma linear_scenario_is_not_b_a_c :
  apply_in_order "" [update_1; update_2; update_3] <> Ok expected_b_a_c.
Proof. vm_compute. discriminate. Qed.

(** C5, amended: the three updates replayed in order on the empty file (one
    after the other, or as the single concatenated change list a version jump
    returns) produce the four lines b, c, a and the empty line the empty file
    started with, that is the text b LF c LF a LF. *)
Theorem linear_scenario_is_b_c_a :
  apply_in_order "" [update_1; update_2; update_3]
    = Ok (join_lines ["b"; "c"; "a"; ""])
  /\ apply_changes "" (update_1 ++ update_2 ++ update_3)
    = Ok (join_lines ["b"; "c"; "a"; ""])
  /\ join_lines ["b"; "c"; "a"; ""]
    = String "b" (String LF (String "c" (String LF (String "a" (String LF ""))))).
Proof. repeat split; vm_compute; reflexivity. Qed.

Section JumpFacts.
Context {feed : Type} `{FeedStore feed}.

Lemma slice_from_1 {A : Type} (x : A) (l : list A) : Py.slice_from (x :: l) 1 = l.
Proof.
  unfold Py.slice_from.
  change 1 with (Z.of_nat 1).
  now rewrite PyFacts.clamp_inside by (simpl; lia).
Qed.

Lemma mono_inc_cons2 (x y : Z) (l : list Z) :
  mono_inc (x :: y :: l) = (x <? y) && mono_inc (y :: l).
Proof.
  unfold mono_inc. rewrite !slice_from_1. destruct l; reflexivity.
Qed.

Lemma mono_dec_cons2 (x y : Z) (l : list Z) :
  mono_dec (x :: y :: l) = (x >? y) && mono_dec (y :: l).
Proof.
  unfold mono_dec. rewrite !slice_from_1. destruct l; reflexivity.
Qed.

#[local] Arguments mono_inc : simpl never.
#[local] Arguments mono_dec : simpl never.

(** [mono_inc] decides that consecutive elements increase. *)
Lemma mono_inc_sorted (l : list Z) : mono_inc l = true <-> Sorted Z.lt l.
Proof.
  induction l as [|x [|y l] IH].
  - split; [constructor|reflexivity].
  - split; [repeat constructor|reflexivity].
  - rewrite mono_inc_cons2, andb_true_iff, IH, Z.ltb_lt. split.
    + intros [Hxy Hs]. constructor; [assumption|now constructor].
    + intros Hs. inversion Hs as [|? ? Hs' Hhd]; subst.
      inversion Hhd; subst. now split.
Qed.

(** A path that starts by going down is not increasing. *)
Lemma mono_inc_down (x y : Z) (l : list Z) : y < x -> mono_inc (x :: y :: l) = false.
Proof.
  intros Hlt. rewrite mono_inc_cons2.
  now destruct (Z.ltb_spec x y); [lia|].
Qed.

(** A path that ends by going up is not decreasing. *)
Lemma mono_dec_up (pre : list Z) (m y : Z) (l : list Z) :
  m < y -> mono_dec (pre ++ m :: y :: l) = false.
Proof.
  intros Hlt. induction pre as [|x pre IH]; simpl.
  - rewrite mono_dec_cons2. now destruct (Z.gtb_spec m y); [lia|].
  - destruct pre as [|x' pre]; simpl in *.
    + rewrite mono_dec_cons2, IH. apply andb_false_r.
    + rewrite mono_dec_cons2, IH. apply andb_false_r.
Qed.

(** On a path that goes down to [m] and then up, [_takewhile] keeps exactly
    the part before [m]. *)
Lemma takewhile_down_up (down : list Z) (m : Z) (up : list Z) :
  Sorted Z.gt (down ++ [m]) -> Sorted Z.lt (m :: up) ->
  _takewhile (fun lst => negb (mono_inc lst)) (down ++ m :: up) = down.
Proof.
  intros Hdown Hup. induction down as [|x down IH]; simpl.
  - apply mono_inc_sorted in Hup. cbn [app _takewhile]. now rewrite Hup.
  - inversion Hdown as [|? ? Hdown' Hhd]; subst.
    assert (Hfirst : mono_inc (x :: down ++ m :: up) = false).
    { destruct down as [|y down]; simpl in *;
        inversion Hhd; subst; apply mono_inc_down; lia. }
    simpl in Hfirst. rewrite Hfirst. simpl. now rewrite IH.
Qed.

Lemma apply_steps_ok (access : access_dict feed) (cs : Z -> list change)
  (acc : list change) (path : list Z) :
  (forall step, In step path -> step_changes access step = Ok (cs step)) ->
  apply_steps access acc path = Ok (acc ++ concat (map cs path)).
Proof.
  unfold apply_steps. revert acc.
  induction path as [|step path IH]; intros acc Hcs; simpl.
  - now rewrite app_nil_r.
  - rewrite (Hcs step) by now left. simpl.
    rewrite IH by (intros; apply Hcs; now right).
    now rewrite app_assoc.
Qed.

Lemma revert_steps_ok (access : access_dict feed) (cs : Z -> list change)
  (acc : list change) (path : list Z) :
  (forall step, In step path -> step_changes access step = Ok (cs step)) ->
  revert_steps access acc path
  = Ok (acc ++ concat (map (fun step => reverse_changes (cs step)) path)).
Proof.
  unfold revert_steps. revert acc.
  induction path as [|step path IH]; intros acc Hcs; simpl.
  - now rewrite app_nil_r.
  - rewrite (Hcs step) by now left. simpl.
    rewrite IH by (intros; apply Hcs; now right).
    now rewrite app_assoc.
Qed.

(** The third branch of [jump_versions]: on a path that goes down to [m] and
    then up, the versions before [m] are reverted in path order, those after
    [m] are applied, and [m] itself is skipped. *)
Lemma changes_along_down_up (access : access_dict feed) (cs : Z -> list change)
  (down : list Z) (m : Z) (up : list Z) :
  down <> [] -> up <> [] ->
  Sorted Z.gt (down ++ [m]) -> Sorted Z.lt (m :: up) ->
  (forall step, In step (down ++ up) -> step_changes access step = Ok (cs step)) ->
  changes_along access (down ++ m :: up)
  = Ok (concat (map (fun step => reverse_changes (cs step)) down)
        ++ concat (map cs up)).
Proof.
  intros Hdown_ne Hup_ne Hdown Hup Hcs. unfold changes_along.
  assert (Hinc : mono_inc (down ++ m :: up) = false).
  { destruct down as [|x down]; [congruence|].
    inversion Hdown as [|? ? _ Hhd]; subst.
    destruct down as [|y down]; simpl in *;
      inversion Hhd; subst; apply mono_inc_down; lia. }
  assert (Hdec : mono_dec (down ++ m :: up) = false).
  { destruct up as [|y up]; [congruence|].
    inversion Hup as [|? ? _ Hhd]; subst. inversion Hhd; subst.
    now apply mono_dec_up. }
  rewrite Hinc, Hdec. cbv zeta.
  rewrite takewhile_down_up by assumption.
  assert (Hrest : Py.slice_from (down ++ m :: up) (Z.of_nat (length down) + 1) = up).
  { unfold Py.slice_from.
    replace (Z.of_nat (length down) + 1) with (Z.of_nat (length (down ++ [m])))
      by (rewrite length_app; simpl; lia).
    rewrite PyFacts.clamp_inside by (rewrite !length_app; simpl; lia).
    rewrite (cons_middle m down up), app_assoc. apply drop_app_length. }
  rewrite Hrest.
  rewrite (revert_steps_ok access cs) by (intros; apply Hcs, in_or_app; now left).
  simpl.
  apply (apply_steps_ok access cs); intros; apply Hcs, in_or_app; now right.
Qed.

(** What [reverse_changes] does to a change list of inserts and deletes is
    what the specification calls reverting: every insert becomes a delete,
    every delete an insert, and the order is reversed. *)
Lemma reverse_changes_is_spec_reverted (changes : list change) :
  inserts_and_deletes changes -> reverse_changes changes = spec_reverted changes.
Proof.
  intros Hops. unfold reverse_changes, spec_reverted. f_equal.
  induction Hops as [|[[a b] c] changes Hop _ IH]; [reflexivity|].
  cbn [map fst snd]. rewrite IH. f_equal.
  destruct Hop as [Hop|Hop]; cbn [fst snd] in Hop; subst b; reflexivity.
Qed.

(** C4. Mixed-path version jump: when the breadth-first search returns a
    path that strictly decreases down to a minimum [m] and then strictly
    increases, and the change lists of the versions before [m] are lists of
    inserts and deletes, [jump_versions] returns the reverted change lists
    of the versions before [m], in path order, followed by the change lists
    of the versions after [m]; [m] itself is skipped.  A reverted change
    list is stated in the words of the specification: every insert has
    become a delete and every delete an insert, in the reverse order. *)
Theorem jump_versions_mixed_path (fuel : nat) (start end_ : Z) (f : feed)
  (graph : version_graph) (access : access_dict feed) (max_version : Z)
  (cs : Z -> list change) (down : list Z) (m : Z) (up : list Z) :
  start <> end_ ->
  extract_version_graph fuel f = Ok (graph, access) ->
  Py.max_of (keys access) = Ok max_version ->
  start <= max_version -> end_ <= max_version ->
  _bfs fuel graph start end_ = Ok (down ++ m :: up) ->
  down <> [] -> up <> [] ->
  Sorted Z.gt (down ++ [m]) -> Sorted Z.lt (m :: up) ->
  (forall step, In step (down ++ up) -> step_changes access step = Ok (cs step)) ->
  (forall step, In step down -> inserts_and_deletes (cs step)) ->
  jump_versions fuel start end_ f
  = Ok (concat (map (fun step => spec_reverted (cs step)) down)
        ++ concat (map cs up)).
Proof.
  intros Hne Hgraph Hmax Hs He Hbfs Hdown_ne Hup_ne Hdown Hup Hcs Hops.
  unfold jump_versions.
  destruct (Z.eqb_spec start end_); [contradiction|].
  rewrite Hgraph. simpl. rewrite Hmax. simpl.
  destruct (Z.gtb_spec start max_version); [lia|].
  destruct (Z.gtb_spec end_ max_version); [lia|]. simpl.
  rewrite Hbfs. simpl.
  rewrite (changes_along_down_up access cs down m up) by assumption.
  do 3 f_equal. apply map_ext_in. intros step Hstep.
  apply reverse_changes_is_spec_reverted. now apply Hops.
Qed.

End JumpFacts.

(** The scenario of the specification: the versions form the path 3, 2, 1, 4
    when jumping from 3 to 4.  Version 3 inserted "c" at line 2 and
    version 2 inserted "b" at line 1: version 3 is reverted, then version 2
    (the inserts have become deletes), then version 4 is applied; version 1
    is skipped. *)
Lemma jump_versions_3_to_4 :
  @jump_versions _ file_store 10 3 4 file_feed
  = Ok [(2, "D", "c"); (1, "D", "b"); (2, "I", "d")].
Proof.
  apply (@jump_versions_mixed_path _ file_store 10 3 4 file_feed
           file_graph file_access 4 updates [3; 2] 1 [4]).
  - lia.
  - vm_compute. reflexivity.
  - vm_compute. reflexivity.
  - lia.
  - lia.
  - vm_compute. reflexivity.
  - discriminate.
  - discriminate.
  - repeat constructor.
  - repeat constructor.
  - intros step [<-|[<-|[<-|[]]]]; vm_compute; reflexivity.
  - intros step [<-|[<-|[]]]; repeat constructor.
Defined.

End VersionManagerFacts.

(** ** The configuration snapshot and the apply step *)

Module ManagerFacts.
Import VersionManager Scenario.

Lemma hex_byte (x : byte) :
  Bytes.digit_value (Bytes.hex_digit (Bytes.to_Z x / 16)) = Some (Bytes.to_Z x / 16)
  /\ Bytes.digit_value (Bytes.hex_digit (Bytes.to_Z x mod 16)) = Some (Bytes.to_Z x mod 16)
  /\ Bytes.of_Z (16 * (Bytes.to_Z x / 16) + Bytes.to_Z x mod 16) = x.
Proof. destruct x; vm_compute; repeat split; reflexivity. Qed.

(** Decoding the hexadecimal form of a byte string gives the bytes back. *)
Lemma unhexlify_hexlify (b : bytes) : Bytes.unhexlify (Bytes.hexlify b) = Ok b.
Proof.
  induction b as [|x b IH]; [reflexivity|].
  destruct (hex_byte x) as (Hhi & Hlo & Hx).
  cbn [Bytes.hexlify Bytes.unhexlify].
  rewrite Hhi, Hlo, IH. simpl. now rewrite Hx.
Qed.

#[local] Instance hexlify_inj : Inj (=) (=) Bytes.hexlify.
Proof.
  intros a b Hab.
  assert (Heq : Ok a = Ok b)
    by (rewrite <- (unhexlify_hexlify a), <- (unhexlify_hexlify b); now rewrite Hab).
  now inversion Heq.
Qed.

(** A dict comprehension that decodes the keys and the values of an encoded
    dict gives the dict back. *)
Lemma dict_comprehension_decode {K1 K2 : Type} `{Countable K1} `{Countable K2}
  {V1 V2 : Type} (ek : K1 -> K2) `{!Inj (=) (=) ek} (ev : V1 -> V2)
  (key : K2 -> res K1) (val : V2 -> res V1) :
  (forall k, key (ek k) = Ok k) -> (forall v, val (ev v) = Ok v) ->
  forall m : gmap K1 V1, dict_comprehension key val (kmap ek (ev <$> m)) = Ok m.
Proof.
  intros Hkey Hval m. unfold dict_comprehension.
  remember (kmap (M2 := gmap K2) ek (ev <$> m)) as m' eqn:Hm'.
  revert m Hm'.
  apply (map_fold_weak_ind
           (fun r (m' : gmap K2 V2) =>
              forall m : gmap K1 V1, m' = kmap ek (ev <$> m) -> r = Ok m)).
  - intros m Hm. symmetry in Hm.
    apply (kmap_empty_iff ek) in Hm. apply fmap_empty_iff in Hm. now subst.
  - intros i x m1 r Hfresh IH m0 Hm0.
    assert (Hi : kmap (M2 := gmap K2) ek (ev <$> m0) !! i = Some x)
      by (rewrite <- Hm0; apply lookup_insert_eq).
    apply (lookup_kmap_Some ek) in Hi as (k & -> & Hk).
    apply lookup_fmap_Some in Hk as (v & <- & Hv).
    assert (Hm1 : m1 = kmap ek (ev <$> delete k m0)).
    { rewrite fmap_delete, (kmap_delete ek), <- Hm0.
      symmetry. now apply delete_insert_id. }
    rewrite (IH _ Hm1). simpl. rewrite Hkey. simpl. rewrite Hval. simpl.
    now rewrite insert_delete_id.
Qed.

Lemma kmap_id_eq {K V : Type} `{Countable K} (m : gmap K V) :
  kmap (M2 := gmap K) id m = m.
Proof. apply map_eq. intros i. apply (lookup_kmap id m i). Qed.

Section WithFeeds.
Context {feed : Type} `{FeedStore feed}.

(** C9. Configuration snapshot round trip: when the update feed [uf] is set
    and [get_feed] finds the feed of that ID in the feed store, [_save_config]
    followed by [_load_config] on a new manager succeeds and restores
    [vc_dict], [apply_queue] and [apply_dict] as they were saved, and binds
    [update_feed] to the feed [get_feed] returns for the saved feed ID. *)
Theorem save_then_load_config (w : world feed) (uf uf' : feed) :
  update_feed (self w) = Some uf ->
  get_feed (feed_fid uf) = Some uf' ->
  feed_fid uf' = feed_fid uf ->
  exists w1 w2 : world feed,
    _save_config w = (Ok tt, w1)
    /\ _load_config (set_self w1 new_manager) = (Ok tt, w2)
    /\ vc_dict (self w2) = vc_dict (self w)
    /\ apply_queue (self w2) = apply_queue (self w)
    /\ apply_dict (self w2) = apply_dict (self w)
    /\ update_feed (self w2) = Some uf'
    /\ feed_fid uf' = feed_fid uf.
Proof.
  intros Huf Hget Hfid.
  assert (Hvc : dict_comprehension (K1 := string) (K2 := string) Ok
                  (fun v : string * string =>
                     a ← Bytes.unhexlify v.1; b ← Bytes.unhexlify v.2; Ok (a, b))
                  ((fun v : bytes * bytes => (Bytes.hexlify v.1, Bytes.hexlify v.2))
                     <$> vc_dict (self w))
                = Ok (vc_dict (self w))).
  { rewrite <- (kmap_id_eq (_ <$> vc_dict (self w))).
    apply (dict_comprehension_decode id); [reflexivity|].
    intros [a b]. simpl. now rewrite !unhexlify_hexlify. }
  assert (Hq : dict_comprehension Bytes.unhexlify Ok
                 (kmap Bytes.hexlify (apply_queue (self w)))
               = Ok (apply_queue (self w))).
  { rewrite <- (map_fmap_id (apply_queue (self w))) at 1.
    apply (dict_comprehension_decode Bytes.hexlify id);
      [apply unhexlify_hexlify|reflexivity]. }
  unfold _save_config. rewrite Huf.
  eexists. 
  assert (Hload : exists w2 : world feed,
            _load_config
              (set_self
                 {| self := self w; files := files w;
                    update_cfg := Some {|
                      cfg_vc_dict :=
                        (fun v : bytes * bytes =>
                           (Bytes.hexlify v.1, Bytes.hexlify v.2)) <$> vc_dict (self w);
                      cfg_apply_queue := kmap Bytes.hexlify (apply_queue (self w));
                      cfg_apply_dict := apply_dict (self w);
                      cfg_update_fid := Bytes.hexlify (feed_fid uf) |} |}
                 new_manager) = (Ok tt, w2)
            /\ vc_dict (self w2) = vc_dict (self w)
            /\ apply_queue (self w2) = apply_queue (self w)
            /\ apply_dict (self w2) = apply_dict (self w)
            /\ update_feed (self w2) = Some uf').
  { unfold _load_config.
    cbn [update_cfg set_self self cfg_vc_dict cfg_apply_queue cfg_apply_dict
         cfg_update_fid].
    rewrite Hvc, Hq, unhexlify_hexlify. cbn [update_feed]. rewrite Hget.
    destruct (get_children uf') as [|vc_fid [|child rest]];
      cbn [length Nat.ltb Nat.leb]; eexists; (split; [reflexivity|]);
      simpl; repeat split; reflexivity. }
  destruct Hload as (w2 & Hload & Hrest).
  exists w2. split; [reflexivity|]. split; [exact Hload|].
  destruct Hrest as (? & ? & ? & ?). now repeat split.
Qed.

(** C10. When the feed is there and version [seq] is available (the feed holds
    it, and no blob of it is missing), [_apply_update] raises and leaves the
    manager and the files as they were if the file name of the feed's
    [updfile] packet is no key of [apply_dict] or the file does not exist;
    and when both are there, with another version applied, it runs the apply
    step from the version recorded in [apply_dict]. *)
Theorem apply_update_precondition (fuel : nat) (w : world feed)
  (fid seq : bytes) (vc file_feed : feed) (file_name : string) (version_num : Z) :
  vc_feed (self w) = Some vc ->
  get_feed fid = Some file_feed ->
  get_upd file_feed = Some (file_name, version_num) ->
  Bytes.from_big seq <= feed_length file_feed - 3 + version_num ->
  (feed_length file_feed - 3 + version_num = Bytes.from_big seq ->
   truthy (waiting_for_blob file_feed) = false) ->
  (apply_dict (self w) !! file_name = None \/ files w !! file_name = None ->
   exists e, _apply_update fuel w fid seq = (Raise e, w))
  /\ (forall (content : string) (current_apply : Z),
        files w !! file_name = Some content ->
        apply_dict (self w) !! file_name = Some current_apply ->
        Bytes.from_big seq <> current_apply ->
        _apply_update fuel w fid seq
        = apply_step fuel w fid (Bytes.from_big seq) file_feed file_name content
            current_apply).
Proof.
  intros Hvc Hfeed Hupd Havail Hblob.
  assert (Hrun : _apply_update fuel w fid seq
                 = match files w !! file_name with
                   | None => (Raise OSError, w)
                   | Some content =>
                       match apply_dict (self w) !! file_name with
                       | None => (Raise KeyError, w)
                       | Some current_apply =>
                           if Bytes.from_big seq =? current_apply then (Ok tt, w)
                           else apply_step fuel w fid (Bytes.from_big seq)
                                  file_feed file_name content current_apply
                       end
                   end).
  { unfold _apply_update. rewrite Hvc, Hfeed, Hupd. cbv zeta.
    destruct (Z.ltb_spec (feed_length file_feed - 3 + version_num)
                (Bytes.from_big seq)); [lia|].
    destruct (Z.eqb_spec (feed_length file_feed - 3 + version_num)
                (Bytes.from_big seq)) as [Heq|_]; [|reflexivity].
    now rewrite (Hblob Heq). }
  split.
  - intros [Hdict|Hfile]; rewrite Hrun.
    + destruct (files w !! file_name); [|now exists OSError].
      rewrite Hdict. now exists KeyError.
    + rewrite Hfile. now exists OSError.
  - intros content current_apply Hfile Hdict Hne. rewrite Hrun, Hfile, Hdict.
    now destruct (Z.eqb_spec (Bytes.from_big seq) current_apply).
Qed.

End WithFeeds.

(** The scenario: the manager [follower] of the feed store [file_store]. *)
Lemma save_then_load_follower :
  exists w1 w2 : world table_feed,
    @_save_config _ file_store follower = (Ok tt, w1)
    /\ @_load_config _ file_store (set_self w1 new_manager) = (Ok tt, w2)
    /\ vc_dict (self w2) = vc_dict (self follower)
    /\ apply_queue (self w2) = apply_queue (self follower)
    /\ apply_dict (self w2) = apply_dict (self follower)
    /\ update_feed (self w2) = Some file_feed
    /\ tf_fid file_feed = tf_fid file_feed.
Proof.
  apply (@save_then_load_config _ file_store follower file_feed file_feed).
  - reflexivity.
  - vm_compute. reflexivity.
  - reflexivity.
Defined.

(** The scenario: version 3 of "f.txt" is there, the file exists, and
    [apply_dict] has no entry for it; [_apply_update] raises and [follower]
    is as it was. *)
Lemma apply_update_without_entry :
  exists e : exn,
    @_apply_update _ file_store 10 follower (tf_fid file_feed) (Bytes.to_big 4 3)
    = (Raise e, follower).
Proof.
  apply (proj1 (@apply_update_precondition _ file_store 10 follower
                  (tf_fid file_feed) (Bytes.to_big 4 3) file_feed file_feed
                  "f.txt" 0 eq_refl eq_refl eq_refl
                  ltac:(vm_compute; discriminate)
                  ltac:(vm_compute; discriminate))).
  left. reflexivity.
Defined.

End ManagerFacts.

(** ** The class based feed *)

Module DeprecatedFacts.
Import Deprecated Scenario BytesFacts.

Lemma length_slice_to {A : Type} (l : list A) (k : nat) :
  (k <= length l)%nat -> length (Py.slice_to l (Z.of_nat k)) = k.
Proof.
  intros Hk. unfold Py.slice_to. rewrite PyFacts.clamp_inside by assumption.
  rewrite length_take. lia.
Qed.

(** Writing at least as many bytes as a file holds, from its start, replaces
    the file. *)
Lemma set_slice_to_all {A : Type} (l xs : list A) :
  (length l <= length xs)%nat ->
  Py.set_slice_to l (Z.of_nat (length xs)) xs = xs.
Proof.
  intros Hlen. unfold Py.set_slice_to, Py.clamp.
  destruct (Z.ltb_spec (Z.of_nat (length xs)) 0); [lia|].
  rewrite Z.min_r by lia. rewrite Nat2Z.id, drop_all. apply app_nil_r.
Qed.

Section WithCrypto.
Context `{Crypto}.

(** The loop of the class based [create_chain] ends within the fuel it is
    given. *)
Lemma deprecated_chain_loop_fuel (fuel : nat) (content ptr : bytes)
  (chain : list Blob) :
  (length content <= fuel)%nat ->
  chain_loop (S fuel) content ptr chain <> Timeout.
Proof.
  revert content ptr chain.
  induction fuel as [|fuel IH]; intros content ptr chain Hfuel.
  - destruct content; [discriminate|simpl in Hfuel; lia].
  - cbn [chain_loop].
    destruct (length content =? 0)%nat eqn:Hlen; [discriminate|]. cbn [negb].
    apply Nat.eqb_neq in Hlen.
    apply IH. unfold Py.slice_to, Py.clamp.
    destruct (Z.ltb_spec (-100) 0); [|lia].
    rewrite length_take. lia.
Qed.

(** The class based [Feed.verify_and_append_bytes] checks the signature of
    the wire packet over the block built for the feed ID, the sequence
    number [front_seq + 1] and the message ID [front_mid], with the feed ID
    as the key.  When the check fails it returns [False] and nothing
    changes.  When it succeeds and the feed has ended, it returns [False]
    and nothing changes either.  When it succeeds and the feed has not
    ended, it returns [True]: the packet is at the end of the log file, and
    the front of the feed and of the file's header is the packet. *)
Theorem verify_and_append_bytes_next_seq (self : Feed) (pkt_wire : bytes)
  (d : disk) (pkt : Packet) (content : bytes) :
  (forall m, length (sha256 m) = 32%nat) ->
  length pkt_wire = 120%nat ->
  new_Packet (feed_fid self) (Bytes.to_big 4 (front_seq self + 1))
    (front_mid self) (Py.slice pkt_wire 8 56) (Py.slice pkt_wire 7 8) None
  = Ok pkt ->
  files d !! file_name self = Some content ->
  (128 <= length content)%nat ->
  let accepted :=
    verify (feed_fid self) (Py.slice_from pkt_wire 56) (expand pkt) in
  let mid :=
    Py.slice_to (sha256 (expand pkt ++ Py.slice_from pkt_wire 56)) 20 in
  let log := content ++ Bytes.zeros 8 ++ pkt_wire in
  (accepted = false ->
   verify_and_append_bytes self pkt_wire d = Ok (false, self, d))
  /\ (accepted = true -> has_ended self d = Ok true ->
      verify_and_append_bytes self pkt_wire d = Ok (false, self, d))
  /\ (accepted = true -> has_ended self d = Ok false ->
      verify_and_append_bytes self pkt_wire d
      = Ok (true, with_front self (front_seq self + 1) mid,
            {| files :=
                 <[file_name self :=
                     Py.slice_to log 104 ++ Bytes.to_big 4 (front_seq self + 1)
                     ++ mid ++ Py.slice_from log 128]> (files d);
               blobs := blobs d |})).
Proof.
  intros Hsha Hlen Hnew Hfile Hheader accepted mid log.
  assert (Hrun : verify_and_append_bytes self pkt_wire d
                 = if accepted
                   then append_pkt self
                          {| block_name := block_name pkt; fid := fid pkt;
                             seq := seq pkt; prev_mid := prev_mid pkt;
                             payload := payload pkt; pkt_type := pkt_type pkt;
                             skey := None; dmx := dmx pkt;
                             signature := Some (Py.slice_from pkt_wire 56);
                             mid := Some mid; wire := Some pkt_wire |} d
                   else Ok (false, self, d)).
  { unfold verify_and_append_bytes, pkt_from_bytes, len_is.
    rewrite Hlen. simpl. rewrite Hnew. simpl.
    fold accepted. now destruct accepted. }
  rewrite Hrun. repeat split.
  - now intros ->.
  - intros -> Hended. unfold append_pkt. now rewrite Hended.
  - intros -> Hended. unfold append_pkt. rewrite Hended.
    cbn [mbind res_bind wire Deprecated.mid].
    assert (Hpay : len_is (Bytes.zeros 8 ++ pkt_wire) 128 = true).
    { unfold len_is. rewrite length_app, length_zeros, Hlen. reflexivity. }
    rewrite Hpay. cbn [assert mbind res_bind]. rewrite Hfile.
    unfold _update_header. cbn [with_front front_seq front_mid file_name files].
    assert (Hmid : length mid = 20%nat).
    { unfold mid. change 20 with (Z.of_nat 20).
      apply length_slice_to. rewrite Hsha. lia. }
    assert (Hinfo : len_is (Bytes.to_big 4 (front_seq self + 1) ++ mid) 24 = true).
    { unfold len_is. rewrite length_app, length_to_big, Hmid. reflexivity. }
    rewrite Hinfo. cbn [assert mbind res_bind].
    rewrite lookup_insert_eq. fold log.
    rewrite set_slice_to_all.
    + rewrite insert_insert_eq. now rewrite <- !app_assoc.
    + assert (Hlog : length log = (length content + 128)%nat).
      { unfold log. rewrite !length_app, length_zeros, Hlen. lia. }
      rewrite !length_app, length_to_big, Hmid.
      change 104 with (Z.of_nat 104). rewrite length_slice_to by lia.
      unfold Py.slice_from. change 128 with (Z.of_nat 128).
      rewrite PyFacts.clamp_inside by lia.
      rewrite length_drop. lia.
Qed.

(** On a feed that has ended, [Feed.append_blob] leaves the log file and the
    front as they are, but writes the blob files and returns [True]. *)
Lemma append_blob_on_ended_feed (self : Feed) (payload key : bytes) (d : disk)
  (pkt : Packet) (chain : list Blob) :
  has_ended self d = Ok true ->
  feed_skey self = Some key ->
  create_chain (feed_fid self) (Bytes.to_big 4 (front_seq self + 1))
    (front_mid self) payload key = Ok (pkt, chain) ->
  append_blob self payload d = Ok (true, self, (_write_blob chain d).2)
  /\ files (_write_blob chain d).2 = files d.
Proof.
  intros Hended Hkey Hchain. unfold append_blob, append_pkt.
  rewrite Hkey, Hchain. cbn [mbind res_bind]. rewrite Hended.
  split; [reflexivity|]. unfold _write_blob. cbn [snd].
  clear Hchain. revert d Hended.
  induction chain as [|blob chain IH]; intros d Hended; [reflexivity|].
  simpl. 
  change (files (foldl
    (fun d0 blob0 => {| files := files d0;
                        blobs := <[blob_signature blob0 := blob_wire blob0]> (blobs d0) |})
    {| files := files d; blobs := <[blob_signature blob := blob_wire blob]> (blobs d) |}
    chain) = files {| files := files d;
                      blobs := <[blob_signature blob := blob_wire blob]> (blobs d) |}).
  apply IH. exact Hended.
Qed.

End WithCrypto.

Lemma test_sha256_length (m : bytes) : length (sha256 (Crypto := test_crypto) m) = 32%nat.
Proof.
  cbn [sha256 test_crypto]. unfold test_sha256.
  now rewrite !length_app, length_to_big.
Qed.

(** The scenario: the packet signed for the first place of a new feed is
    verified and appended. *)
Lemma verify_and_append_first_packet :
  exists (feed : Feed) (d : disk),
    @verify_and_append_bytes test_crypto log_feed first_wire log_disk
    = Ok (true, feed, d)
    /\ front_seq feed = 1.
Proof.
  destruct (@verify_and_append_bytes_next_seq test_crypto log_feed first_wire
              log_disk first_unsigned log_header test_sha256_length)
    as (_ & _ & Happend).
  - vm_compute. reflexivity.
  - vm_compute. reflexivity.
  - vm_compute. reflexivity.
  - vm_compute. lia.
  - eexists. eexists. split.
    + apply Happend; vm_compute; reflexivity.
    + reflexivity.
Defined.

(** The class based feed reads a content of 128 bytes back from its blob
    chain, and an [updfile] packet back with its base version. *)
Lemma class_based_round_trips :
  log_blob_read_back (counting 128) = Ok (counting 128)
  /\ log_blob_read_back (counting 228) = Ok (counting 228)
  /\ log_upd_read_back "f.txt" 1 = Ok (Some "f.txt", Some 1)
  /\ log_upd_read_back "f.txt" 4294967295 = Ok (Some "f.txt", Some 4294967295).
Proof. repeat split; vm_compute; reflexivity. Qed.

(** The class based feed after it has ended: a feed whose front packet is
    [contdas], and a packet that verifies under the feed ID, the next
    sequence number and the front message ID; the call returns [False] and
    the packet is not appended. *)
Lemma verified_packet_not_appended :
  match ended_log with
  | Ok (_, feed, d) =>
      match next_wire feed (Bytes.encode "x") with
      | Ok pkt_wire =>
          Deprecated.has_ended feed d = Ok true
          /\ (exists pkt : Packet,
                @pkt_from_bytes test_crypto (feed_fid feed)
                  (Bytes.to_big 4 (front_seq feed + 1)) (front_mid feed) pkt_wire
                = Ok (Some pkt))
          /\ @verify_and_append_bytes test_crypto feed pkt_wire d
             = Ok (false, feed, d)
      | _ => False
      end
  | _ => False
  end.
Proof. vm_compute. split; [reflexivity|]. split; [eexists|]; reflexivity. Qed.

End DeprecatedFacts.

(** ** The struct based feed store *)

Module FeedFacts.
Import Packet Feed Scenario BytesFacts SliceFacts.

Ltac assert_case H :=
  match goal with
  | H0 : context [assert ?c] |- _ =>
      destruct c eqn:H; [cbn [assert mbind res_bind] in H0|discriminate H0]
  end.

Section WithCrypto.
Context `{Crypto}.

(** The loop of [create_chain] ends within the fuel it is given. *)
Lemma chain_loop_fuel (fuel : nat) (blob_content : bytes) (front back : Z)
  (ptr : bytes) (chain : list BLOB) :
  front < 100 * Z.of_nat fuel ->
  chain_loop (S fuel) blob_content front back ptr chain <> Timeout.
Proof.
  revert front back ptr chain.
  induction fuel as [|fuel IH]; intros front back ptr chain Hfront.
  - simpl. destruct (Z.geb_spec front 0); [lia|discriminate].
  - cbn [chain_loop]. destruct (Z.geb_spec front 0); [|discriminate].
    apply IH. lia.
Qed.

Lemma new_packet_returns (fid seq prev_mid payload pkt_type key : bytes) :
  new_packet fid seq prev_mid payload pkt_type key <> Timeout.
Proof.
  unfold new_packet, assert.
  repeat match goal with
         | |- context [len_is ?b ?n] =>
             destruct (len_is b n); cbn [mbind res_bind]; [|discriminate]
         end.
  cbv zeta. discriminate.
Qed.

(** [create_chain] returns or raises: its loop does not run out of fuel. *)
Lemma create_chain_returns (fid seq prev_mid content key : bytes) :
  create_chain fid seq prev_mid content key <> Timeout.
Proof.
  unfold create_chain. cbv zeta.
  destruct (_ <=? 27).
  - match goal with
    | |- context [new_packet ?a ?b ?c ?d ?e ?f] =>
        pose proof (new_packet_returns a b c d e f);
        destruct (new_packet a b c d e f)
    end; [discriminate|discriminate|congruence].
  - match goal with
    | |- context [chain_loop (S (S (length ?bc))) ?bc ?front ?back ?p ?c] =>
        pose proof (chain_loop_fuel (S (length bc)) bc front back p c) as Hloop;
        destruct (chain_loop (S (S (length bc))) bc front back p c)
          as [[chain ptr]| |]
    end.
    + cbn [mbind res_bind].
      match goal with
      | |- context [new_packet ?a ?b ?c ?d ?e ?f] =>
          pose proof (new_packet_returns a b c d e f);
          destruct (new_packet a b c d e f)
      end; [discriminate|discriminate|congruence].
    + discriminate.
    + exfalso. apply Hloop; [|reflexivity]. lia.
Qed.

(** The wire packet [new_packet] makes holds the type and the payload it
    was given. *)
Lemma new_packet_wire (fid seq prev_mid payload pkt_type key : bytes) (pkt : PACKET) :
  new_packet fid seq prev_mid payload pkt_type key = Ok pkt ->
  length payload = 48%nat
  /\ length pkt_type = 1%nat
  /\ type (wire pkt) = pkt_type
  /\ Packet.payload (wire pkt) = payload.
Proof.
  unfold new_packet, len_is. intros Hnew.
  assert_case Hfid. assert_case Hseq. assert_case Hprev. assert_case Hpay.
  assert_case Hty. assert_case Hkey.
  apply Nat.eqb_eq in Hpay, Hty.
  injection Hnew as <-. cbn [wire type Packet.payload].
  now rewrite !fit_exact by assumption.
Qed.

(** The payload of an [updfile] packet: the length of the file name, the
    file name, the four bytes of the version, and zero bytes. *)
Lemma upd_payload (file_name v_number : bytes) :
  (length file_name <= 43)%nat -> length v_number = 4%nat ->
  let fn_len := Z.of_nat (length file_name) in
  Py.set_slice
    (Py.set_slice (Py.set_slice_to (Bytes.zeros 48) 1 (VarInt.to_var_int fn_len))
       1 (fn_len + 1) file_name)
    (fn_len + 1) (fn_len + 5) v_number
  = [Bytes.of_Z fn_len] ++ file_name ++ v_number
    ++ Bytes.zeros (43 - length file_name).
Proof.
  intros Hlen Hv fn_len.
  assert (Hvar : VarInt.to_var_int fn_len = [Bytes.of_Z fn_len]).
  { unfold VarInt.to_var_int. destruct (Z.leb_spec fn_len 252); [reflexivity|].
    unfold fn_len in *. lia. }
  rewrite Hvar.
  replace (Bytes.zeros 48)
    with (Bytes.zeros 1 ++ Bytes.zeros (length file_name)
          ++ Bytes.zeros 4 ++ Bytes.zeros (43 - length file_name)).
  2:{ rewrite <- !zeros_add. f_equal. lia. }
  rewrite set_slice_to_app by reflexivity.
  rewrite (set_slice_middle [Bytes.of_Z fn_len] (Bytes.zeros (length file_name)))
    by (rewrite ?length_zeros; simpl; unfold fn_len; lia).
  rewrite (app_assoc [Bytes.of_Z fn_len] file_name).
  rewrite (set_slice_middle ([Bytes.of_Z fn_len] ++ file_name) (Bytes.zeros 4))
    by (rewrite ?length_app, ?length_zeros; simpl; unfold fn_len; lia).
  now rewrite <- app_assoc.
Qed.

(** C8 (defect), in general: after [add_upd_file_name] has put the [updfile]
    packet of a file name and a base version of 32 bits at sequence number 2,
    [get_upd_file_name] returns the file name and the base version divided
    by 256: it reads the first three of the four bytes. *)
Theorem get_upd_file_name_after_add (feed feed' : FEED) (d d' : disk)
  (log : bytes) (file_name : string) (key : bytes) (v_number : Z) :
  anchor_seq feed = 0 -> front_seq feed = 1 ->
  logs d !! fid feed = Some log -> length log = 128%nat ->
  0 <= v_number < 2 ^ 32 ->
  add_upd_file_name feed file_name key v_number d = Ok (feed', d') ->
  get_upd_file_name feed' d' = Ok (Some (file_name, v_number / 256)).
Proof.
  intros Hanchor Hfront Hlog Hloglen Hv Hadd.
  unfold add_upd_file_name, create_upd_pkt in Hadd.
  assert_case Hname. apply Nat.ltb_lt in Hname.
  destruct (new_packet _ _ _ _ _ _) as [pkt| |] eqn:Hpkt; [|discriminate..].
  cbn [mbind res_bind] in Hadd.
  assert (Hfeed : feed' = (append_packet feed pkt d).1) by (now inversion Hadd).
  assert (Hdisk : d' = (append_packet feed pkt d).2) by (now inversion Hadd).
  clear Hadd. subst feed' d'.
  apply new_packet_wire in Hpkt as (Hpaylen & Htylen & Hty & Hpay).
  rewrite upd_payload in Hpay by (rewrite ?length_to_big; lia).
  set (name := Bytes.encode file_name) in *.
  set (b := Bytes.of_Z (Z.of_nat (length name))) in *.
  set (rest := Bytes.zeros (43 - length name)) in *.
  assert (Hb : Bytes.to_Z b = Z.of_nat (length name)).
  { unfold b. rewrite to_Z_of_Z. apply Z.mod_small. lia. }
  (* the wire packet read back *)
  set (w := wire_bytes (wire pkt)).
  assert (Hw : w = (Packet.fit 8 (reserved (wire pkt)) ++ Packet.fit 7 (dmx (wire pkt)))
                   ++ type_byte UPDFILE
                   ++ ([b] ++ name ++ Bytes.to_big 4 v_number ++ rest)
                   ++ Packet.fit 64 (signature (wire pkt))).
  { unfold w, wire_bytes. rewrite Hty, Hpay.
    rewrite (fit_exact 1) by reflexivity.
    rewrite (fit_exact 48).
    - now rewrite <- !app_assoc.
    - unfold rest. rewrite !length_app, length_to_big, length_zeros. simpl. lia. }
  assert (Hwire : get_wire (append_packet feed pkt d).1 2 (append_packet feed pkt d).2
                  = Ok w).
  { unfold get_wire, append_packet. cbn [fst snd front_seq anchor_seq fid logs save_header].
    rewrite Hfront, Hanchor. simpl. rewrite lookup_insert_eq, Hlog. simpl.
    f_equal. fold w.
    rewrite <- (app_nil_r w) at 1.
    apply slice_middle; [now rewrite Hloglen|].
    rewrite Hloglen. unfold w, wire_bytes.
    rewrite !length_app, !length_fit. reflexivity. }
  unfold get_upd_file_name. rewrite Hwire. cbn [mbind res_bind].
  assert (Htype : Py.slice w 15 16 = type_byte UPDFILE).
  { rewrite Hw. apply slice_middle; rewrite ?length_app, !length_fit; reflexivity. }
  rewrite Htype. unfold Bytes.eqb. rewrite bool_decide_eq_true_2 by reflexivity.
  cbn [negb].
  assert (Hpayload : Py.slice w 16 64
                     = [b] ++ name ++ Bytes.to_big 4 v_number ++ rest).
  { rewrite Hw. rewrite (app_assoc (_ ++ _) (type_byte UPDFILE)).
    apply slice_middle.
    - rewrite !length_app, !length_fit. reflexivity.
    - rewrite !length_app, !length_fit, length_to_big. unfold rest.
      rewrite length_zeros. simpl. lia. }
  rewrite Hpayload. cbn [app VarInt.from_var_int]. rewrite Hb.
  destruct (Z.leb_spec (Z.of_nat (length name)) 252); [|lia].
  cbn [mbind res_bind].
  assert (Hname' : Py.slice w (16 + 1) (16 + 1 + Z.of_nat (length name)) = name).
  { rewrite Hw.
    rewrite (app_assoc (_ ++ _) (type_byte UPDFILE)).
    rewrite <- (app_assoc [b]).
    rewrite (app_assoc (_ ++ type_byte UPDFILE) [b]).
    rewrite <- !(app_assoc name).
    apply slice_middle;
      rewrite !length_app, !length_fit; simpl; lia. }
  rewrite Hname'.
  assert (Hversion : Py.slice w (16 + 1 + Z.of_nat (length name))
                       (16 + 1 + Z.of_nat (length name) + 3)
                     = Bytes.to_big 3 (v_number / 256)).
  { rewrite Hw, <- take_to_big.
    rewrite <- (take_drop 3 (Bytes.to_big 4 v_number)) at 1.
    rewrite (app_assoc (_ ++ _) (type_byte UPDFILE)).
    rewrite <- (app_assoc [b]).
    rewrite (app_assoc (_ ++ type_byte UPDFILE) [b]).
    rewrite <- !(app_assoc name).
    rewrite (app_assoc (_ ++ [b]) name).
    rewrite <- !(app_assoc (take 3 _)).
    apply slice_middle;
      rewrite !length_app, !length_fit, ?length_take, ?length_to_big; simpl; lia. }
  rewrite Hversion, from_big_to_big.
  unfold name, Bytes.decode, Bytes.encode.
  rewrite string_of_list_byte_of_string.
  rewrite Z.mod_small; [reflexivity|].
  change (256 ^ Z.of_nat 3) with 16777216.
  split; [apply Z.div_pos; lia|].
  apply Z.div_lt_upper_bound; lia.
Qed.

End WithCrypto.

(** C6 (defect).  [append_packet] does not look at the front packet: on a
    feed whose front packet is of type [contdas] it appends all the same.
    The log grows by the wire packet, [front_seq] advances and [front_mid]
    becomes the packet's message ID. *)
Theorem append_packet_after_contdas (feed : FEED) (pkt : PACKET) (d : disk)
  (front : bytes) :
  get_wire feed (-1) d = Ok front ->
  Py.slice front 15 16 = type_byte CONTDAS ->
  exists log : bytes,
    logs d !! fid feed = Some log
    /\ logs (append_packet feed pkt d).2 !! fid feed
       = Some (log ++ wire_bytes (wire pkt))
    /\ front_seq (append_packet feed pkt d).1 = u32 (front_seq feed + 1)
    /\ front_mid (append_packet feed pkt d).1 = fit 20 (mid pkt).
Proof.
  intros Hfront _. unfold get_wire in Hfront.
  destruct (logs d !! fid feed) as [log|] eqn:Hlog.
  - exists log. split; [reflexivity|]. unfold append_packet. simpl.
    rewrite lookup_insert_eq, Hlog. now repeat split.
  - exfalso. revert Hfront.
    destruct ((_ >? _) || (_ <=? _)); discriminate.
Qed.

(** The scenario: a feed that holds one packet, of type [contdas]; the
    packet signed for the place after it is appended. *)
Lemma append_packet_on_ended_feed :
  exists log : bytes,
    logs ended_feed_state.2 !! fid ended_feed_state.1 = Some log
    /\ logs (append_packet ended_feed_state.1 after_ended_packet
               ended_feed_state.2).2 !! fid ended_feed_state.1
       = Some (log ++ wire_bytes (wire after_ended_packet))
    /\ front_seq (append_packet ended_feed_state.1 after_ended_packet
                    ended_feed_state.2).1
       = u32 (front_seq ended_feed_state.1 + 1)
    /\ front_mid (append_packet ended_feed_state.1 after_ended_packet
                    ended_feed_state.2).1
       = fit 20 (mid after_ended_packet).
Proof.
  apply (append_packet_after_contdas ended_feed_state.1 after_ended_packet
           ended_feed_state.2 ended_feed_front);
    vm_compute; reflexivity.
Defined.

(** The scenario: the [updfile] packet of "f.txt" with base version 1 reads
    back with base version 0. *)
Lemma get_upd_file_name_of_version_1 :
  get_upd_file_name upd_feed_state.1 upd_feed_state.2
  = Ok (Some ("f.txt", 1 / 256)).
Proof.
  apply (@get_upd_file_name_after_add test_crypto plain_feed_state.1
           upd_feed_state.1 plain_feed_state.2 upd_feed_state.2 plain_feed_log
           "f.txt" key_1 1);
    try (vm_compute; reflexivity).
  lia.
Defined.

(** The struct based [verify_and_append_bytes] checks a packet under the
    sequence number [front_seq], not [front_seq + 1]: a replica of a new feed
    does not accept the first packet of the feed. *)
Lemma replica_rejects_first_packet : replica_front_seq = Ok 0.
Proof. vm_compute. reflexivity. Qed.

(** C3 (defect).  On a new feed, [append_blob] appends a packet that does
    not verify under the sequence number 1 it now has: it was signed under
    the sequence number 0, the front of the feed before the append.  The
    packet [append_bytes] appends does verify under 1. *)
Theorem append_blob_signs_under_front_seq :
  front_verifies (feed_with_blob (Bytes.encode "hello")) 1 = Ok false
  /\ front_verifies (feed_with_blob (Bytes.encode "hello")) 0 = Ok true
  /\ front_verifies (feed_with_plain (Bytes.encode "hello")) 1 = Ok true
  /\ (fun r : FEED * disk => front_seq r.1)
       <$> feed_with_blob (Bytes.encode "hello") = Ok 1.
Proof. repeat split; vm_compute; reflexivity. Qed.

(** C2 (defect).  A content of 128 bytes does not come back from its blob
    chain: [create_chain] makes one blob that holds the bytes from 28 on,
    byte 27 is in no blob, and [get_payload] returns the other bytes
    followed by a zero byte.  A content of 127 bytes does come back. *)
Theorem blob_chain_of_128_bytes_loses_byte_27 :
  blob_read_back (counting 128)
  = Ok (take 27 (counting 128) ++ drop 28 (counting 128) ++ [x00])
  /\ blob_read_back (counting 128) <> Ok (counting 128)
  /\ blob_read_back (counting 127) = Ok (counting 127).
Proof.
  split; [vm_compute; reflexivity|].
  split; [|vm_compute; reflexivity].
  vm_compute. discriminate.
Qed.

(** Two base versions read back: 1 reads back as 0, and the largest base
    version of 32 bits as the largest number of 24 bits. *)
Lemma get_upd_file_name_reads_three_bytes :
  upd_read_back "f.txt" 1 = Ok (Some ("f.txt", 0))
  /\ upd_read_back "f.txt" 4294967295 = Ok (Some ("f.txt", 16777215)).
Proof. split; vm_compute; reflexivity. Qed.

End FeedFacts.

(** ** The diff engine, forwards and backwards *)

Module DiffFacts.
Import Py PyFacts VersionManager VersionManagerFacts.

(** The change that undoes a change. *)
Lemma reverse_changes_cons (ch : change) (changes : list change) :
  reverse_changes (ch :: changes)
  = reverse_changes changes
    ++ [let '(a, b, c) := ch in
        if String.eqb b "D" then (a, "I", c) else (a, "D", c)].
Proof. reflexivity. Qed.

Lemma reverse_changes_app (xs ys : list change) :
  reverse_changes (xs ++ ys) = reverse_changes ys ++ reverse_changes xs.
Proof. unfold reverse_changes. now rewrite map_app, rev_app_distr. Qed.

(** Reverting the trailing deletes puts the old lines back. *)
Lemma revert_trailing_deletes (pre old_lines : list string) :
  for_each apply_change
    (reverse_changes (trailing_deletes (Z.of_nat (length pre) + 1) old_lines)) pre
  = Ok (pre ++ old_lines).
Proof.
  induction old_lines as [|l ls IH].
  - simpl. now rewrite app_nil_r.
  - unfold trailing_deletes in *. cbn [map].
    rewrite reverse_changes_cons, for_each_app, IH. cbn.
    replace (Z.of_nat (length pre) + 1 - 1) with (Z.of_nat (length pre)) by lia.
    now rewrite list_insert_after_prefix.
Qed.

(** Reverting the trailing inserts removes the new lines. *)
Lemma revert_trailing_inserts (pre new_lines : list string) :
  for_each apply_change
    (reverse_changes (trailing_inserts (Z.of_nat (length pre) + 1) new_lines))
    (pre ++ new_lines)
  = Ok pre.
Proof.
  revert pre. induction new_lines as [|l ls IH]; intros pre.
  - simpl. now rewrite app_nil_r.
  - cbn [trailing_inserts]. rewrite reverse_changes_cons, for_each_app.
    specialize (IH (pre ++ [l])).
    rewrite length_app in IH. simpl in IH.
    replace (Z.of_nat (length pre + 1) + 1) with (Z.of_nat (length pre) + 1 + 1) in IH by lia.
    rewrite <- app_assoc in IH. simpl in IH. rewrite IH. cbn.
    replace (Z.of_nat (length pre) + 1 - 1) with (Z.of_nat (length pre)) by lia.
    rewrite (list_del_after_prefix pre [] l). now rewrite app_nil_r.
Qed.

(** The loop invariant of [get_changes], read backwards. *)
Lemma revert_get_changes_loop (line_num : Z) (old_lines new_lines pre : list string) :
  line_num = Z.of_nat (length pre) + 1 ->
  for_each apply_change
    (reverse_changes (get_changes_loop line_num old_lines new_lines))
    (pre ++ new_lines)
  = Ok (pre ++ old_lines).
Proof.
  revert pre.
  funelim (get_changes_loop line_num old_lines new_lines); intros pre Hln; subst.
  - simp get_changes_loop. cbn [trailing_deletes map app].
    rewrite app_nil_r. apply revert_trailing_inserts.
  - simp get_changes_loop. rewrite !app_nil_r.
    apply revert_trailing_deletes.
  - simp get_changes_loop.
    destruct (String.eqb_spec old_l new_l) as [->|Hne].
    + specialize (H (pre ++ [new_l])).
      rewrite <- !app_assoc in H. simpl in H. apply H.
      rewrite length_app. simpl. lia.
    + destruct (negb (str_in old_l new_lines)).
      * rewrite reverse_changes_cons, for_each_app.
        rewrite (H0 pre eq_refl). cbn.
        replace (Z.of_nat (length pre) + 1 - 1) with (Z.of_nat (length pre)) by lia.
        now rewrite list_insert_after_prefix.
      * rewrite reverse_changes_cons, for_each_app.
        specialize (H1 (pre ++ [new_l])).
        rewrite <- !app_assoc in H1. simpl in H1. rewrite H1.
        2:{ rewrite length_app. simpl. lia. }
        cbn.
        replace (Z.of_nat (length pre) + 1 - 1) with (Z.of_nat (length pre)) by lia.
        now rewrite list_del_after_prefix.
Qed.

(** Replaying the changes of [get_changes] on the lines of the old text. *)
Lemma apply_get_changes_lines (old_version new_version : string) :
  for_each apply_change (get_changes old_version new_version)
    (split_lines old_version)
  = Ok (split_lines new_version).
Proof.
  exact (apply_get_changes_loop 1 (split_lines old_version)
           (split_lines new_version) [] eq_refl).
Qed.

Lemma revert_get_changes_lines (old_version new_version : string) :
  for_each apply_change (reverse_changes (get_changes old_version new_version))
    (split_lines new_version)
  = Ok (split_lines old_version).
Proof.
  exact (revert_get_changes_loop 1 (split_lines old_version)
           (split_lines new_version) [] eq_refl).
Qed.

(** X1. Undoing a diff: the reversed change list of [get_changes old new],
    applied to the new text, gives the old text back. *)
Theorem apply_reverse_changes_get_changes (old_version new_version : string) :
  apply_changes new_version
    (reverse_changes (get_changes old_version new_version))
  = Ok old_version.
Proof.
  unfold apply_changes. rewrite revert_get_changes_lines. simpl.
  now rewrite join_split_lines.
Qed.

(** X2. Change lists compose: the changes from [a] to [b] followed by the
    changes from [b] to [c] turn [a] into [c]; the reversed lists, in the
    opposite order, turn [c] into [a]; and undoing the step from [a] to [b]
    and then applying the changes from [a] to [c] turns [b] into [c]. *)
Theorem apply_changes_concatenated (a b c : string) :
  apply_changes a (get_changes a b ++ get_changes b c) = Ok c
  /\ apply_changes c (reverse_changes (get_changes b c)
                       ++ reverse_changes (get_changes a b)) = Ok a
  /\ apply_changes b (reverse_changes (get_changes a b) ++ get_changes a c) = Ok c.
Proof.
  unfold apply_changes. repeat split.
  - rewrite for_each_app, apply_get_changes_lines. cbn.
    rewrite apply_get_changes_lines. cbn. now rewrite join_split_lines.
  - rewrite for_each_app, revert_get_changes_lines. cbn.
    rewrite revert_get_changes_lines. cbn. now rewrite join_split_lines.
  - rewrite for_each_app, revert_get_changes_lines. cbn.
    rewrite apply_get_changes_lines. cbn. now rewrite join_split_lines.
Qed.

Lemma get_changes_loop_same (line_num : Z) (lines : list string) :
  get_changes_loop line_num lines lines = [].
Proof.
  revert line_num. induction lines as [|l ls IH]; intros line_num.
  - now simp get_changes_loop.
  - simp get_changes_loop. now rewrite String.eqb_refl.
Qed.

(** X3. [get_changes] returns the empty list exactly when the two texts are
    the same. *)
Theorem get_changes_nil_iff (old_version new_version : string) :
  get_changes old_version new_version = [] <-> old_version = new_version.
Proof.
  split.
  - intros Hnil.
    pose proof (apply_get_changes_lines old_version new_version) as Hrt.
    rewrite Hnil in Hrt. simpl in Hrt.
    rewrite <- (join_split_lines old_version), <- (join_split_lines new_version).
    now inversion Hrt.
  - intros ->. apply get_changes_loop_same.
Qed.

Lemma reverse_changes_involutive_on (changes : list change) :
  Forall (fun ch : change => ch.1.2 = "I" \/ ch.1.2 = "D") changes ->
  reverse_changes (reverse_changes changes) = changes.
Proof.
  induction 1 as [|[[a b] c] changes Hch _ IH]; [reflexivity|].
  rewrite reverse_changes_cons, reverse_changes_app, IH.
  destruct Hch as [Hb|Hb]; simpl in Hb; subst b; reflexivity.
Qed.

Lemma trailing_inserts_ops (line_num : Z) (new_lines : list string) :
  1 <= line_num ->
  Forall (fun ch : change => (ch.1.2 = "I" \/ ch.1.2 = "D") /\ 1 <= ch.1.1)
    (trailing_inserts line_num new_lines).
Proof.
  revert line_num. induction new_lines as [|x l IH]; intros line_num Hln.
  - constructor.
  - cbn. constructor; [split; [now left|simpl; lia]|]. apply IH. lia.
Qed.

Lemma trailing_deletes_ops (line_num : Z) (old_lines : list string) :
  1 <= line_num ->
  Forall (fun ch : change => (ch.1.2 = "I" \/ ch.1.2 = "D") /\ 1 <= ch.1.1)
    (trailing_deletes line_num old_lines).
Proof.
  intros Hln. unfold trailing_deletes.
  apply Forall_map, Forall_forall. intros x _. split; [now right|simpl; lia].
Qed.

Lemma get_changes_loop_ops (line_num : Z) (old_lines new_lines : list string) :
  1 <= line_num ->
  Forall (fun ch : change => (ch.1.2 = "I" \/ ch.1.2 = "D") /\ 1 <= ch.1.1)
    (get_changes_loop line_num old_lines new_lines).
Proof.
  funelim (get_changes_loop line_num old_lines new_lines); intros Hln.
  - simp get_changes_loop. apply Forall_app. split;
      [now apply trailing_deletes_ops|now apply trailing_inserts_ops].
  - simp get_changes_loop. apply Forall_app. split;
      [now apply trailing_deletes_ops|now apply trailing_inserts_ops].
  - simp get_changes_loop.
    destruct (String.eqb old_l new_l); [apply H; lia|].
    destruct (negb (str_in old_l new_lines)).
    + constructor; [split; [now right|simpl; lia]|]. now apply H0.
    + constructor; [split; [now left|simpl; lia]|]. apply H1. lia.
Qed.

(** X4. Every change [get_changes] makes is an insert or a delete at a line
    number of at least 1, so that reversing its change list twice gives the
    list back. *)
Theorem get_changes_well_formed (old_version new_version : string) :
  Forall (fun ch : change => (ch.1.2 = "I" \/ ch.1.2 = "D") /\ 1 <= ch.1.1)
    (get_changes old_version new_version)
  /\ reverse_changes (reverse_changes (get_changes old_version new_version))
     = get_changes old_version new_version.
Proof.
  assert (Hops : Forall (fun ch : change =>
                           (ch.1.2 = "I" \/ ch.1.2 = "D") /\ 1 <= ch.1.1)
                   (get_changes old_version new_version))
    by (apply get_changes_loop_ops; lia).
  split; [exact Hops|].
  apply reverse_changes_involutive_on.
  eapply Forall_impl; [exact Hops|]. now intros ch [Hop _].
Qed.

End DiffFacts.

(** ** The wire form of a change list *)

Module CodecFacts.
Import Py PyFacts BytesFacts SliceFacts VersionManager VersionManagerFacts.

Lemma from_little_to_little (n : nat) (z : Z) :
  Bytes.from_little (Bytes.to_little n z) = z mod 256 ^ Z.of_nat n.
Proof. unfold Bytes.from_little. apply (from_big_to_big n z). Qed.

(** Reading a variable-length integer back from the front of a byte string. *)
Lemma from_var_int_to_var_int (i : Z) (rest : bytes) :
  0 <= i < 2 ^ 64 ->
  VarInt.from_var_int (VarInt.to_var_int i ++ rest)
  = Ok (i, Z.of_nat (length (VarInt.to_var_int i))).
Proof.
  intros Hi. unfold VarInt.to_var_int.
  destruct (Z.leb_spec i 252).
  - cbn [app VarInt.from_var_int length]. rewrite to_Z_of_Z, Z.mod_small by lia.
    destruct (Z.leb_spec i 252); [reflexivity|lia].
  - destruct (Z.leb_spec i 65535).
    + cbn [app VarInt.from_var_int]. change (Bytes.to_Z xfd) with 253. cbn [Z.leb Z.eqb Z.compare Pos.compare Pos.compare_cont Pos.eqb].
      cbv zeta.
      assert (Hlen : (length (Bytes.to_little 2 i ++ rest) <? 2)%nat = false).
      { apply Nat.ltb_ge. rewrite length_app, length_to_little. lia. }
      rewrite Hlen. rewrite take_app_length' by now rewrite length_to_little.
      rewrite from_little_to_little, Z.mod_small by (simpl; lia).
      cbn [length]. now rewrite length_to_little.
    + destruct (Z.leb_spec i 4294967295).
      * cbn [app VarInt.from_var_int]. change (Bytes.to_Z xfe) with 254. cbn [Z.leb Z.eqb Z.compare Pos.compare Pos.compare_cont Pos.eqb].
        cbv zeta.
        assert (Hlen : (length (Bytes.to_little 4 i ++ rest) <? 4)%nat = false).
        { apply Nat.ltb_ge. rewrite length_app, length_to_little. lia. }
        rewrite Hlen. rewrite take_app_length' by now rewrite length_to_little.
        rewrite from_little_to_little, Z.mod_small by (simpl; lia).
        cbn [length]. now rewrite length_to_little.
      * cbn [app VarInt.from_var_int]. change (Bytes.to_Z xff) with 255. cbn [Z.leb Z.eqb Z.compare Pos.compare Pos.compare_cont Pos.eqb].
        cbv zeta.
        assert (Hlen : (length (Bytes.to_little 8 i ++ rest) <? 8)%nat = false).
        { apply Nat.ltb_ge. rewrite length_app, length_to_little. lia. }
        rewrite Hlen. rewrite take_app_length' by now rewrite length_to_little.
        rewrite from_little_to_little, Z.mod_small by (simpl; lia).
        cbn [length]. now rewrite length_to_little.
Qed.

Lemma length_to_var_int (i : Z) : (1 <= length (VarInt.to_var_int i))%nat.
Proof.
  unfold VarInt.to_var_int.
  repeat (destruct (_ <=? _)); simpl; lia.
Qed.

Lemma changes_to_bytes_concat (changes : list change) (dependency : Z) :
  changes_to_bytes changes dependency
  = Bytes.to_big 4 dependency ++ concat (map encode_change changes).
Proof.
  unfold changes_to_bytes.
  generalize (Bytes.to_big 4 dependency) as b.
  induction changes as [|[[i op] ln] changes IH]; intros b.
  - simpl. now rewrite app_nil_r.
  - cbn [foldl map concat]. rewrite IH. unfold encode_change.
    now rewrite <- !app_assoc.
Qed.

Lemma length_encode (s : string) : length (Bytes.encode s) = String.length s.
Proof.
  unfold Bytes.encode, list_byte_of_string.
  rewrite length_map. induction s as [|c s IH]; [reflexivity|].
  simpl. now rewrite IH.
Qed.

Lemma decode_encode (s : string) : Bytes.decode (Bytes.encode s) = s.
Proof. apply string_of_list_byte_of_string. Qed.

Lemma length_to_var_int_le (i : Z) : (length (VarInt.to_var_int i) <= 9)%nat.
Proof.
  unfold VarInt.to_var_int.
  repeat (destruct (_ <=? _)); cbn [length]; rewrite ?length_to_little; lia.
Qed.

(** One iteration of the loop of [bytes_to_changes] reads one change. *)
Lemma bytes_to_changes_loop_step (fuel : nat) (pre rest : bytes) (ch : change)
  (operations : list change) :
  codable ch ->
  bytes_to_changes_loop (S fuel) (pre ++ encode_change ch ++ rest)
    (Z.of_nat (length pre)) operations
  = bytes_to_changes_loop fuel (pre ++ encode_change ch ++ rest)
      (Z.of_nat (length (pre ++ encode_change ch))) (operations ++ [ch]).
Proof.
  destruct ch as [[i op] ln]. intros (Hi & (o & Hop & _) & Hln). simpl in Hi, Hop, Hln.
  subst op.
  set (b_change := VarInt.to_var_int i ++ Bytes.encode (String o "") ++ Bytes.encode ln).
  set (size := Z.of_nat (length b_change)).
  assert (Henc : encode_change (i, String o "", ln) = VarInt.to_var_int size ++ b_change)
    by reflexivity.
  assert (Hsize : 0 <= size < 2 ^ 64).
  { unfold size, b_change. rewrite !length_app, !length_encode.
    pose proof (length_to_var_int_le i). cbn [String.length]. lia. }
  set (all := pre ++ encode_change (i, String o "", ln) ++ rest).
  cbn [bytes_to_changes_loop]. fold all.
  assert (Hall : length all = (length pre + length (VarInt.to_var_int size)
                               + length b_change + length rest)%nat).
  { unfold all. rewrite Henc, !length_app. lia. }
  pose proof (length_to_var_int size) as Hvs.
  destruct (Z.ltb_spec (Z.of_nat (length pre)) (Z.of_nat (length all))); [|lia].
  (* size *)
  assert (H1 : Py.slice_from all (Z.of_nat (length pre))
               = VarInt.to_var_int size ++ b_change ++ rest).
  { unfold all. rewrite Henc, <- app_assoc. now apply slice_from_app. }
  rewrite H1, from_var_int_to_var_int by assumption. cbn [mbind res_bind].
  (* line number *)
  assert (H2 : Py.slice_from all
                 (Z.of_nat (length pre) + Z.of_nat (length (VarInt.to_var_int size)))
               = VarInt.to_var_int i
                 ++ (Bytes.encode (String o "") ++ Bytes.encode ln) ++ rest).
  { unfold all. rewrite Henc. unfold b_change. rewrite <- !app_assoc.
    rewrite (app_assoc pre).
    apply slice_from_app. rewrite length_app. lia. }
  rewrite H2, from_var_int_to_var_int by assumption. cbn [mbind res_bind].
  (* op *)
  set (k := (length pre + length (VarInt.to_var_int size)
             + length (VarInt.to_var_int i))%nat).
  replace (Z.of_nat (length pre) + Z.of_nat (length (VarInt.to_var_int size))
           + Z.of_nat (length (VarInt.to_var_int i))) with (Z.of_nat k)
    by (unfold k; lia).
  assert (Hb : length b_change
               = (length (VarInt.to_var_int i) + 1 + String.length ln)%nat).
  { unfold b_change. rewrite !length_app, !length_encode. cbn [String.length]. lia. }
  assert (Hsplit : all = (pre ++ VarInt.to_var_int size ++ VarInt.to_var_int i)
                         ++ Bytes.encode (String o "") ++ Bytes.encode ln ++ rest).
  { unfold all. rewrite Henc. unfold b_change. now rewrite <- !app_assoc. }
  assert (Hk : length (pre ++ VarInt.to_var_int size ++ VarInt.to_var_int i) = k).
  { unfold k. rewrite !length_app. lia. }
  assert (Hop : exists ob : byte, Bytes.encode (String o "") = [ob]
                                  /\ Bytes.chr ob = String o "").
  { exists (byte_of_ascii o). split; [reflexivity|].
    unfold Bytes.chr. cbn. now rewrite ascii_of_byte_of_ascii. }
  destruct Hop as (ob & Hob & Hchr).
  assert (H3 : Py.list_get all (Z.of_nat k) = Ok ob).
  { unfold Py.list_get. rewrite index_inside by (rewrite Hall, Hb; unfold k; lia).
    cbn [mbind res_bind]. rewrite Hsplit, Hob.
    rewrite lookup_app_r by (rewrite Hk; lia).
    rewrite Hk, Nat.sub_diag. reflexivity. }
  rewrite H3. cbn [mbind res_bind]. rewrite Hchr.
  (* the text *)
  assert (Hstr : size - Z.of_nat (length (VarInt.to_var_int i)) - 1
                 = Z.of_nat (String.length ln)).
  { unfold size. rewrite Hb. lia. }
  rewrite Hstr.
  assert (Htext : (if Z.of_nat (String.length ln) =? 0 then ""
                   else Bytes.decode
                          (Py.slice all (Z.of_nat k + 1)
                             (Z.of_nat k + 1 + Z.of_nat (String.length ln))))
                  = ln).
  { destruct (Z.eqb_spec (Z.of_nat (String.length ln)) 0) as [Hz|Hnz].
    - destruct ln; [reflexivity|simpl in Hz; lia].
    - rewrite Hsplit, Hob.
      rewrite (app_assoc _ [ob]).
      rewrite (slice_middle _ (Bytes.encode ln) rest);
        [apply decode_encode| |];
        rewrite !length_app, ?length_encode; cbn [length];
        rewrite <- ?length_app, ?Hk; rewrite ?length_app; lia. }
  rewrite Htext.
  f_equal. rewrite length_app. unfold encode_change. fold b_change. fold size.
  rewrite length_app, Hb. unfold k. lia.
Qed.

Lemma bytes_to_changes_loop_all (changes : list change) :
  Forall codable changes ->
  forall (fuel : nat) (pre : bytes) (operations : list change),
  (length changes < fuel)%nat ->
  bytes_to_changes_loop fuel (pre ++ concat (map encode_change changes))
    (Z.of_nat (length pre)) operations
  = Ok (operations ++ changes).
Proof.
  induction 1 as [|ch changes Hch _ IH]; intros fuel pre operations Hfuel.
  - destruct fuel as [|fuel]; [simpl in Hfuel; lia|].
    cbn [map concat bytes_to_changes_loop]. rewrite !app_nil_r.
    destruct (Z.ltb_spec (Z.of_nat (length pre)) (Z.of_nat (length pre))); [lia|].
    reflexivity.
  - destruct fuel as [|fuel]; [simpl in Hfuel; lia|].
    cbn [map concat].
    rewrite bytes_to_changes_loop_step by assumption.
    rewrite (app_assoc pre).
    rewrite IH by (simpl in Hfuel; lia).
    now rewrite <- app_assoc.
Qed.

Lemma length_encode_change (ch : change) : (1 <= length (encode_change ch))%nat.
Proof.
  destruct ch as [[i op] ln]. unfold encode_change. cbv zeta.
  rewrite length_app. pose proof (length_to_var_int (Z.of_nat (length
    (VarInt.to_var_int i ++ Bytes.encode op ++ Bytes.encode ln)))). lia.
Qed.

Lemma length_concat_encode (changes : list change) :
  (length changes <= length (concat (map encode_change changes)))%nat.
Proof.
  induction changes as [|ch changes IH]; [simpl; lia|].
  cbn [map concat length]. rewrite length_app.
  pose proof (length_encode_change ch). lia.
Qed.

(** X5. Wire form round trip: when every change has a line number and a
    length that fit a variable-length integer and an op of one ASCII
    character, and the dependency is a number of 32 bits, [bytes_to_changes]
    reads the change list and the dependency back from the bytes
    [changes_to_bytes] made of them. *)
Theorem bytes_to_changes_changes_to_bytes (changes : list change) (dependency : Z) :
  Forall codable changes -> 0 <= dependency < 2 ^ 32 ->
  bytes_to_changes (changes_to_bytes changes dependency) = Ok (changes, dependency).
Proof.
  intros Hch Hdep. unfold bytes_to_changes.
  rewrite changes_to_bytes_concat.
  replace 4 with (Z.of_nat (length (Bytes.to_big 4 dependency))) at 2
    by now rewrite length_to_big.
  rewrite bytes_to_changes_loop_all.
  - cbn [mbind res_bind app].
    rewrite slice_to_app by now rewrite length_to_big.
    rewrite from_big_to_big, Z.mod_small; [reflexivity|].
    change (256 ^ Z.of_nat 4) with (2 ^ 32). lia.
  - assumption.
  - rewrite length_app, length_to_big.
    pose proof (length_concat_encode changes). lia.
Qed.

(** The scenario: the change list of version 3, which depends on
    version 2. *)
Lemma update_3_read_back :
  bytes_to_changes (changes_to_bytes Scenario.update_3 2)
  = Ok (Scenario.update_3, 2).
Proof.
  apply (bytes_to_changes_changes_to_bytes Scenario.update_3 2).
  - repeat constructor; try (vm_compute; congruence).
    exists "I"%char. split; [reflexivity|]. vm_compute. lia.
  - lia.
Defined.

End CodecFacts.

(** ** The version graph and the search on it *)

Module GraphFacts.
Import Py PyFacts VersionManager VersionManagerFacts Scenario.

(** [path[-1]] is the last element of the path. *)
Lemma list_get_last {A : Type} (path : list A) (x : A) :
  Py.list_get path (-1) = Ok x -> last path = Some x.
Proof.
  unfold Py.list_get, Py.index. cbv zeta.
  destruct (Z.ltb_spec (-1) 0); [|lia].
  destruct ((_ <? 0) || (_ <=? _)) eqn:Hb; [discriminate|].
  apply orb_false_iff in Hb as [Hlo Hhi].
  apply Z.ltb_ge in Hlo. cbn [mbind res_bind].
  destruct (path !! _) as [y|] eqn:Hy; [|discriminate].
  intros [= <-]. rewrite last_lookup.
  replace (Nat.pred (length path)) with (Z.to_nat (-1 + Z.of_nat (length path))) by lia.
  exact Hy.
Qed.

Lemma is_walk_snoc (graph : version_graph) (path : list Z) (current n : Z) :
  is_walk graph path = true -> last path = Some current ->
  n ∈ neighbours graph current ->
  is_walk graph (path ++ [n]) = true.
Proof.
  intros Hwalk Hlast Hn. induction path as [|x [|y path] IH].
  - discriminate.
  - simpl in Hlast. injection Hlast as ->. simpl.
    rewrite bool_decide_eq_true_2 by assumption. reflexivity.
  - cbn [is_walk] in Hwalk. apply andb_true_iff in Hwalk as [Hxy Hrest].
    change ((x :: y :: path) ++ [n]) with (x :: y :: (path ++ [n])).
    cbn [is_walk]. rewrite Hxy. cbn [andb].
    apply IH; [exact Hrest|exact Hlast].
Qed.

Lemma head_snoc {A : Type} (path : list A) (x n : A) :
  head path = Some x -> head (path ++ [n]) = Some x.
Proof. destruct path; [discriminate|exact id]. Qed.

Section Bfs.
Variables (graph : version_graph) (start end_ : Z).

Lemma bfs_visit_from_start (path : list Z) (current : Z) (ns : list Z) :
  walk_from graph start path -> last path = Some current ->
  (forall n, n ∈ ns -> n ∈ neighbours graph current) ->
  forall (visited visited' : list bool) (queue queue' : list (list Z)),
  Forall (walk_from graph start) queue ->
  for_each (bfs_visit path) ns (visited, queue) = Ok (visited', queue') ->
  Forall (walk_from graph start) queue'.
Proof.
  intros [Hhead Hwalk] Hlast. induction ns as [|n ns IH]; intros Hns visited visited' queue queue' Hq.
  - now intros [= _ <-].
  - cbn [for_each bfs_visit].
    destruct (Py.list_get visited n) as [seen| |]; cbn [mbind res_bind]; [|discriminate..].
    destruct seen; cbn [negb].
    + cbn [mbind res_bind]. apply IH; [|exact Hq].
      intros m Hm. apply Hns. now right.
    + destruct (Py.list_set visited n true) as [visited1| |];
        cbn [mbind res_bind]; [|discriminate..].
      apply IH.
      * intros m Hm. apply Hns. now right.
      * apply Forall_app. split; [exact Hq|].
        constructor; [|constructor]. split.
        -- now apply head_snoc.
        -- apply (is_walk_snoc graph path current n); [assumption..|].
           apply Hns. now left.
Qed.

Lemma bfs_loop_from_start (fuel : nat) (visited : list bool)
  (queue : list (list Z)) (path : list Z) :
  Forall (walk_from graph start) queue ->
  bfs_loop fuel graph end_ visited queue = Ok path ->
  path = []
  \/ (walk_from graph start path /\ last path = Some end_).
Proof.
  revert visited queue.
  induction fuel as [|fuel IH]; intros visited queue Hq; [discriminate|].
  cbn [bfs_loop]. destruct queue as [|p queue]; [intros [= <-]; now left|].
  inversion Hq as [|? ? Hp Hq']; subst.
  destruct (Py.list_get p (-1)) as [current| |] eqn:Hcur;
    cbn [mbind res_bind]; [|discriminate..].
  apply list_get_last in Hcur.
  destruct (Z.eqb_spec current end_) as [->|Hne].
  - intros [= <-]. right. now split.
  - destruct (graph !! current) as [ns|] eqn:Hns; [|discriminate].
    destruct (for_each (bfs_visit p) ns (visited, queue))
      as [[visited' queue']| |] eqn:Hvisit; cbn [mbind res_bind]; [|discriminate..].
    apply IH.
    apply (bfs_visit_from_start p current ns Hp Hcur) in Hvisit; [exact Hvisit| |exact Hq'].
    intros n Hn. unfold neighbours. now rewrite Hns.
Qed.

End Bfs.

(** X6. A path that [_bfs] returns is empty, or it is a walk in the graph
    (every version is a neighbour of the one before it) that starts at
    [start] and ends at [end_]. *)
Theorem bfs_returns_a_walk (fuel : nat) (graph : version_graph) (start end_ : Z)
  (path : list Z) :
  _bfs fuel graph start end_ = Ok path ->
  path = [] \/ (walk_from graph start path /\ last path = Some end_).
Proof.
  unfold _bfs.
  destruct (Py.max_of (keys graph)) as [max_v| |]; cbn [mbind res_bind]; [|discriminate..].
  apply bfs_loop_from_start. constructor; [|constructor]. now split.
Qed.

(** The scenario: the path from version 3 to version 4 of [file_graph]. *)
Lemma bfs_returns_a_walk_3_to_4 :
  [3; 2; 1; 4] = []
  \/ (walk_from file_graph 3 [3; 2; 1; 4] /\ last [3; 2; 1; 4] = Some 4).
Proof.
  apply (bfs_returns_a_walk 10 file_graph 3 4). vm_compute. reflexivity.
Defined.

(** X7. When the graph is not empty and [start] is none of its keys and not
    [end_], [_bfs] raises [KeyError]. *)
Theorem bfs_start_not_in_graph (fuel : nat) (graph : version_graph)
  (start end_ : Z) :
  graph <> ∅ -> graph !! start = None -> start <> end_ ->
  _bfs (S fuel) graph start end_ = Raise KeyError.
Proof.
  intros Hne Hstart Hse. unfold _bfs.
  destruct (keys graph) as [|k ks] eqn:Hkeys.
  - exfalso. apply Hne. unfold keys in Hkeys.
    apply fmap_nil_inv in Hkeys. now apply map_to_list_empty_iff.
  - cbn [Py.max_of mbind res_bind bfs_loop].
    change (Py.list_get [start] (-1)) with (Ok (A := Z) start).
    cbn [mbind res_bind].
    destruct (Z.eqb_spec start end_); [contradiction|].
    now rewrite Hstart.
Qed.

(** The scenario: version 7 is no key of [file_graph]. *)
Lemma bfs_start_not_in_file_graph :
  _bfs 10 file_graph 7 4 = Raise KeyError.
Proof.
  apply (bfs_start_not_in_graph 9 file_graph 7 4).
  - intros Heq. apply (f_equal (fun m : version_graph => m !! 0)) in Heq.
    vm_compute in Heq. discriminate.
  - vm_compute. reflexivity.
  - lia.
Defined.

(** ** The graph of [extract_version_graph] *)

Lemma neighbours_add_edge (graph : version_graph) (i j v : Z) :
  neighbours (add_edge graph i j) v
  = if decide (v = i) then neighbours graph i ++ [j] else neighbours graph v.
Proof.
  unfold neighbours, add_edge. destruct (decide (v = i)) as [->|Hne].
  - now rewrite lookup_insert_eq.
  - now rewrite lookup_insert_ne by congruence.
Qed.

Lemma elem_neighbours_add_edge (graph : version_graph) (i j a b : Z) :
  b ∈ neighbours (add_edge graph i j) a
  <-> b ∈ neighbours graph a \/ (a = i /\ b = j).
Proof.
  rewrite neighbours_add_edge. destruct (decide (a = i)) as [->|Hne].
  - rewrite elem_of_app, list_elem_of_singleton. intuition.
  - intuition.
Qed.

Section WithFeeds.
Context {feed : Type} `{FeedStore feed}.

Lemma add_version_undirected (access : access_dict feed) (graph graph' : version_graph)
  (i : Z) :
  undirected graph -> add_version access graph i = Ok graph' -> undirected graph'.
Proof.
  intros Hsym. unfold add_version.
  destruct (access !! i) as [[current_feed minv]|]; [|now intros [= <-]].
  destruct (get_payload _ _) as [payload| |]; cbn [mbind res_bind]; [|discriminate..].
  intros [= <-] a b.
  rewrite !elem_neighbours_add_edge. intros [[Hab|[-> ->]]|[-> ->]].
  - left. left. now apply Hsym.
  - now right.
  - left. now right.
Qed.

Lemma for_each_add_version_undirected (access : access_dict feed) (versions : list Z) :
  forall graph graph' : version_graph,
  undirected graph ->
  for_each (add_version access) versions graph = Ok graph' -> undirected graph'.
Proof.
  induction versions as [|i versions IH]; intros graph graph' Hsym.
  - now intros [= <-].
  - cbn [for_each].
    destruct (add_version access graph i) as [graph1| |] eqn:Hadd;
      cbn [mbind res_bind]; [|discriminate..].
    apply IH. now apply (add_version_undirected access graph graph1 i).
Qed.

(** X8. The graph [extract_version_graph] returns stores every edge at both
    ends: a neighbour [b] of a key [a] is a key itself, and [a] is among its
    neighbours. *)
Theorem extract_version_graph_undirected (fuel : nat) (f : feed)
  (graph : version_graph) (access : access_dict feed) :
  extract_version_graph fuel f = Ok (graph, access) ->
  forall (a b : Z) (ns : list Z),
    graph !! a = Some ns -> b ∈ ns ->
    exists ms : list Z, graph !! b = Some ms /\ a ∈ ms.
Proof.
  unfold extract_version_graph.
  destruct (collect_access fuel f ∅ (-1)) as [[access' max_version]| |];
    cbn [mbind res_bind]; [|discriminate..].
  destruct (for_each _ _ _) as [graph'| |] eqn:Hgraph;
    cbn [mbind res_bind]; [|discriminate..].
  intros [= <- <-] a b ns Ha Hb.
  apply for_each_add_version_undirected in Hgraph.
  - specialize (Hgraph a b). unfold neighbours in Hgraph. rewrite Ha in Hgraph.
    specialize (Hgraph Hb).
    destruct (graph' !! b) as [ms|]; [now exists ms|].
    simpl in Hgraph. now apply elem_of_nil in Hgraph.
  - intros x y Hxy. unfold neighbours in Hxy. rewrite lookup_empty in Hxy.
    now apply elem_of_nil in Hxy.
Qed.

End WithFeeds.

(** The scenario: version 4 of [file_graph] depends on version 1. *)
Lemma file_graph_undirected :
  exists ms : list Z, file_graph !! 4 = Some ms /\ 1 ∈ ms.
Proof.
  apply (@extract_version_graph_undirected _ file_store 10 file_feed file_graph
           file_access ltac:(vm_compute; reflexivity) 1 4 [0; 2; 4]).
  - vm_compute. reflexivity.
  - repeat constructor.
Defined.


Lemma unvisited_mark (visited : list bool) (k : nat) :
  visited !! k = Some false ->
  (unvisited (<[k := true]> visited) + 1 = unvisited visited)%nat.
Proof.
  revert k. induction visited as [|b visited IH]; intros k; [discriminate|].
  destruct k as [|k]; simpl.
  - intros [= ->]. lia.
  - intros Hk. specialize (IH k Hk). lia.
Qed.

Lemma max_of_upper (l : list Z) (m : Z) :
  Py.max_of l = Ok m -> forall x, x ∈ l -> x <= m.
Proof.
  destruct l as [|y l]; [discriminate|]. cbn [Py.max_of]. intros [= <-].
  assert (Hfold : forall (l : list Z) (a : Z),
            a <= foldl Z.max a l /\ forall x, x ∈ l -> x <= foldl Z.max a l).
  { clear. induction l as [|z l IH]; intros a; simpl.
    - split; [lia|]. intros x Hx. now apply elem_of_nil in Hx.
    - destruct (IH (Z.max a z)) as [Ha Hl]. split; [lia|].
      intros x Hx. apply elem_of_cons in Hx as [->|Hx]; [lia|now apply Hl]. }
  intros x Hx. destruct (Hfold l y) as [Hy Hl].
  apply elem_of_cons in Hx as [->|Hx]; [exact Hy|now apply Hl].
Qed.

Lemma elem_of_keys {A : Type} (d : gmap Z A) (k : Z) :
  k ∈ keys d <-> is_Some (d !! k).
Proof.
  unfold keys. rewrite list_elem_of_fmap. split.
  - intros ([k' v] & -> & Hin). apply elem_of_map_to_list in Hin. now exists v.
  - intros [v Hv]. exists (k, v). split; [reflexivity|].
    now apply elem_of_map_to_list.
Qed.

Lemma length_range (a b : Z) : length (Py.range a b) = Z.to_nat (b - a).
Proof. unfold Py.range. now rewrite length_map, length_seq. Qed.

Section Bfs.
Variables (graph : version_graph) (end_ max_v : Z).
Hypothesis closed : forall a b, b ∈ neighbours graph a -> is_Some (graph !! b).
Hypothesis bounded : forall a, is_Some (graph !! a) -> 0 <= a <= max_v.

Lemma index_inside_Z (len : nat) (n : Z) :
  0 <= n < Z.of_nat len -> Py.index len n = Ok (Z.to_nat n).
Proof.
  intros Hn. pose proof (index_inside len (Z.to_nat n)) as Hidx.
  rewrite Z2Nat.id in Hidx by lia. apply Hidx. lia.
Qed.

Lemma list_get_inside {A : Type} (l : list A) (n : Z) :
  0 <= n < Z.of_nat (length l) ->
  exists x, Py.list_get l n = Ok x /\ l !! Z.to_nat n = Some x.
Proof.
  intros Hn. unfold Py.list_get.
  rewrite index_inside_Z by lia. cbn [mbind res_bind].
  destruct (lookup_lt_is_Some_2 l (Z.to_nat n)) as [x Hx]; [lia|].
  exists x. now rewrite Hx.
Qed.

Lemma bfs_visit_returns (path : list Z) (ns : list Z) :
  (forall n, n ∈ ns -> is_Some (graph !! n)) ->
  forall (visited : list bool) (queue : list (list Z)),
  Z.of_nat (length visited) = max_v + 1 ->
  Forall (ends_in_key graph) queue ->
  exists (visited' : list bool) (queue' : list (list Z)),
    for_each (bfs_visit path) ns (visited, queue) = Ok (visited', queue')
    /\ Z.of_nat (length visited') = max_v + 1
    /\ Forall (ends_in_key graph) queue'
    /\ (unvisited visited' + length queue' = unvisited visited + length queue)%nat.
Proof.
  induction ns as [|n ns IH]; intros Hns visited queue Hlen Hq.
  - exists visited, queue. now repeat split.
  - assert (Hn : is_Some (graph !! n)) by (apply Hns; now left).
    pose proof (bounded n Hn) as Hbound.
    destruct (list_get_inside visited n) as (seen & Hget & Hlook); [lia|].
    cbn [for_each bfs_visit]. rewrite Hget. cbn [mbind res_bind].
    destruct seen; cbn [negb].
    + cbn [mbind res_bind]. apply IH; [|assumption..].
      intros m Hm. apply Hns. now right.
    + unfold Py.list_set.
      rewrite index_inside_Z by lia. cbn [mbind res_bind].
      assert (Hns' : forall m, m ∈ ns -> is_Some (graph !! m))
        by (intros m Hm; apply Hns; now right).
      destruct (IH Hns' (<[Z.to_nat n := true]> visited) (queue ++ [path ++ [n]]))
        as (visited' & queue' & Hrun & Hlen' & Hq' & Hmeasure).
      * now rewrite length_insert.
      * apply Forall_app. split; [exact Hq|]. constructor; [|constructor].
        exists n. split; [apply last_snoc|exact Hn].
      * exists visited', queue'. repeat split; try assumption.
        rewrite Hmeasure, length_app. cbn [length].
        pose proof (unvisited_mark visited (Z.to_nat n) Hlook). lia.
Qed.

Lemma bfs_loop_returns (fuel : nat) :
  forall (visited : list bool) (queue : list (list Z)),
  Z.of_nat (length visited) = max_v + 1 ->
  Forall (ends_in_key graph) queue ->
  (unvisited visited + length queue < fuel)%nat ->
  exists path, bfs_loop fuel graph end_ visited queue = Ok path.
Proof.
  induction fuel as [|fuel IH]; intros visited queue Hlen Hq Hfuel; [lia|].
  cbn [bfs_loop]. destruct queue as [|p queue]; [now exists []|].
  inversion Hq as [|? ? (current & Hlast & [ns Hns]) Hq']; subst.
  assert (Hget : Py.list_get p (-1) = Ok current).
  { unfold Py.list_get, Py.index. cbv zeta.
    destruct p as [|x p]; [discriminate|].
    rewrite last_lookup in Hlast. cbn [length Nat.pred] in Hlast.
    destruct (Z.ltb_spec (-1) 0); [|lia].
    destruct (Z.ltb_spec (-1 + Z.of_nat (length (x :: p))) 0);
      [cbn [length] in *; lia|].
    destruct (Z.leb_spec (Z.of_nat (length (x :: p)))
                (-1 + Z.of_nat (length (x :: p)))); [lia|].
    cbn [orb mbind res_bind].
    replace (Z.to_nat (-1 + Z.of_nat (length (x :: p)))) with (length p)
      by (cbn [length]; lia).
    now rewrite Hlast. }
  rewrite Hget. cbn [mbind res_bind].
  destruct (current =? end_); [now exists p|].
  rewrite Hns.
  destruct (bfs_visit_returns p ns) with (visited := visited) (queue := queue)
    as (visited' & queue' & Hrun & Hlen' & Hqueue' & Hmeasure); try assumption.
  { intros n Hn. apply (closed current). unfold neighbours. now rewrite Hns. }
  rewrite Hrun. cbn [mbind res_bind].
  apply IH; [assumption..|]. cbn [length] in Hfuel. lia.
Qed.

End Bfs.

Lemma unvisited_le (visited : list bool) : (unvisited visited <= length visited)%nat.
Proof. induction visited as [|[] visited IH]; simpl; lia. Qed.

(** On a graph whose neighbours are keys and whose keys are not negative,
    [_bfs] returns when it is given fuel for every version and the start. *)
Lemma bfs_returns (fuel : nat) (graph : version_graph) (start end_ max_v : Z) :
  (forall a b, b ∈ neighbours graph a -> is_Some (graph !! b)) ->
  (forall a, is_Some (graph !! a) -> 0 <= a) ->
  is_Some (graph !! start) ->
  Py.max_of (keys graph) = Ok max_v ->
  (Z.to_nat max_v + 3 <= fuel)%nat ->
  exists path, _bfs fuel graph start end_ = Ok path.
Proof.
  intros Hclosed Hnonneg Hstart Hmax Hfuel. unfold _bfs. rewrite Hmax.
  cbn [mbind res_bind].
  assert (Hbounded : forall a, is_Some (graph !! a) -> 0 <= a <= max_v).
  { intros a Ha. split; [now apply Hnonneg|].
    apply (max_of_upper _ _ Hmax). now apply elem_of_keys. }
  pose proof (Hbounded start Hstart) as Hs.
  apply (bfs_loop_returns graph end_ max_v Hclosed Hbounded).
  - rewrite length_map, length_range. lia.
  - constructor; [|constructor]. exists start. now split.
  - pose proof (unvisited_le (map (fun i => i =? start) (Py.range 0 (max_v + 1)))) as Hle.
    rewrite length_map, length_range in Hle. cbn [length]. lia.
Qed.

Lemma is_Some_add_edge (graph : version_graph) (i j a : Z) :
  is_Some (add_edge graph i j !! a) <-> a = i \/ is_Some (graph !! a).
Proof.
  unfold add_edge. destruct (decide (a = i)) as [->|Hne].
  - rewrite lookup_insert_eq. split; [now left|now eexists].
  - rewrite lookup_insert_ne by congruence. split; [now right|].
    now intros [|].
Qed.

Section Keys.
Context {feed : Type} `{FeedStore feed}.

Lemma add_version_nonneg (access : access_dict feed) (graph graph' : version_graph)
  (i : Z) :
  (forall a, is_Some (graph !! a) -> 0 <= a) -> 0 <= i ->
  add_version access graph i = Ok graph' ->
  forall a, is_Some (graph' !! a) -> 0 <= a.
Proof.
  intros Hkeys Hi. unfold add_version.
  destruct (access !! i) as [[current_feed minv]|]; [|now intros [= <-]].
  destruct (get_payload _ _) as [payload| |]; cbn [mbind res_bind]; [|discriminate..].
  intros [= <-] a. rewrite !is_Some_add_edge.
  intros [->|[->|Ha]]; [apply from_big_nonneg|exact Hi|now apply Hkeys].
Qed.

Lemma for_each_add_version_nonneg (access : access_dict feed) (versions : list Z) :
  Forall (fun i => 0 <= i) versions ->
  forall graph graph' : version_graph,
  (forall a, is_Some (graph !! a) -> 0 <= a) ->
  for_each (add_version access) versions graph = Ok graph' ->
  forall a, is_Some (graph' !! a) -> 0 <= a.
Proof.
  induction 1 as [|i versions Hi _ IH]; intros graph graph' Hkeys.
  - now intros [= <-].
  - cbn [for_each].
    destruct (add_version access graph i) as [graph1| |] eqn:Hadd;
      cbn [mbind res_bind]; [|discriminate..].
    apply IH. now apply (add_version_nonneg access graph graph1 i).
Qed.

(** X9. On the graph [extract_version_graph] returns, the search of [_bfs]
    from a key of the graph ends: with enough fuel it returns a path, and
    raises nothing. *)
Theorem bfs_returns_on_version_graph (fuel0 : nat) (f : feed)
  (graph : version_graph) (access : access_dict feed) (start end_ : Z) :
  extract_version_graph fuel0 f = Ok (graph, access) ->
  is_Some (graph !! start) ->
  exists bound : nat, forall fuel : nat, (bound <= fuel)%nat ->
    exists path : list Z, _bfs fuel graph start end_ = Ok path.
Proof.
  unfold extract_version_graph.
  destruct (collect_access fuel0 f ∅ (-1)) as [[access' max_version]| |];
    cbn [mbind res_bind]; [|discriminate..].
  destruct (for_each _ _ _) as [graph'| |] eqn:Hgraph;
    cbn [mbind res_bind]; [|discriminate..].
  intros [= <- <-] Hstart.
  assert (Hsym : undirected graph').
  { apply for_each_add_version_undirected in Hgraph; [exact Hgraph|].
    intros x y Hxy. unfold neighbours in Hxy. rewrite lookup_empty in Hxy.
    now apply elem_of_nil in Hxy. }
  assert (Hkeys : forall a, is_Some (graph' !! a) -> 0 <= a).
  { apply (for_each_add_version_nonneg access' (Py.range 1 (max_version + 1)))
      with (graph := ∅); [| |exact Hgraph].
    - apply Forall_forall. intros i Hi. apply list_elem_of_In in Hi.
      unfold Py.range in Hi. apply in_map_iff in Hi as (k & <- & _). lia.
    - intros a [ns Ha]. now rewrite lookup_empty in Ha. }
  assert (Hclosed : forall a b, b ∈ neighbours graph' a -> is_Some (graph' !! b)).
  { intros a b Hb. apply Hsym in Hb. unfold neighbours in Hb.
    destruct (graph' !! b); [now eexists|]. now apply elem_of_nil in Hb. }
  destruct (Py.max_of (keys graph')) as [max_v| |] eqn:Hmax.
  - exists (Z.to_nat max_v + 3)%nat. intros fuel Hfuel.
    exact (bfs_returns fuel graph' start end_ max_v Hclosed Hkeys Hstart Hmax Hfuel).
  - exfalso. destruct (keys graph') as [|k ks] eqn:Hk; [|discriminate].
    apply elem_of_keys in Hstart. rewrite Hk in Hstart.
    now apply elem_of_nil in Hstart.
  - destruct (keys graph'); discriminate.
Qed.

End Keys.

(** The scenario: the search from version 3 of [file_graph]. *)
Lemma bfs_returns_on_file_graph :
  exists bound : nat, forall fuel : nat, (bound <= fuel)%nat ->
    exists path : list Z, _bfs fuel file_graph 3 4 = Ok path.
Proof.
  apply (@bfs_returns_on_version_graph _ file_store 10 file_feed file_graph
           file_access 3 4).
  - vm_compute. reflexivity.
  - vm_compute. now eexists.
Defined.

End GraphFacts.

(** ** Version jumps on every kind of path *)

Module PathFacts.
Import Py PyFacts VersionManager VersionManagerFacts Scenario DiffFacts GraphFacts.

#[local] Arguments mono_inc : simpl never.
#[local] Arguments mono_dec : simpl never.

Lemma mono_dec_sorted (l : list Z) : mono_dec l = true <-> Sorted Z.gt l.
Proof.
  induction l as [|x [|y l] IH].
  - split; [constructor|reflexivity].
  - split; [repeat constructor|reflexivity].
  - rewrite mono_dec_cons2, andb_true_iff, IH, Z.gtb_gt. split.
    + intros [Hxy Hs]. constructor; [assumption|now constructor].
    + intros Hs. inversion Hs as [|? ? Hs' Hhd]; subst.
      inversion Hhd; subst. now split.
Qed.

Section WithFeeds.
Context {feed : Type} `{FeedStore feed}.

(** The three branches of [jump_versions] at once: on a path that goes down
    to [m] and then up, where either part may be missing. *)
Lemma changes_along_path (access : access_dict feed) (cs : Z -> list change)
  (down : list Z) (m : Z) (up : list Z) :
  Sorted Z.gt (down ++ [m]) -> Sorted Z.lt (m :: up) ->
  (forall step, In step (down ++ up) -> step_changes access step = Ok (cs step)) ->
  changes_along access (down ++ m :: up)
  = Ok (concat (map (fun step => reverse_changes (cs step)) down)
        ++ concat (map cs up)).
Proof.
  intros Hdown Hup Hcs.
  destruct down as [|x down].
  - (* increasing *)
    unfold changes_along. cbn [app].
    apply mono_inc_sorted in Hup. rewrite Hup. cbn [map concat app].
    rewrite (apply_steps_ok access cs); [reflexivity|]. intros; now apply Hcs.
  - destruct up as [|y up].
    + (* decreasing *)
      unfold changes_along.
      assert (Hinc : mono_inc ((x :: down) ++ [m]) = false).
      { inversion Hdown as [|? ? _ Hhd]; subst.
        destruct down as [|z down]; simpl in *;
          inversion Hhd; subst; apply mono_inc_down; lia. }
      apply mono_dec_sorted in Hdown. rewrite Hinc, Hdown.
      rewrite removelast_last.
      rewrite (revert_steps_ok access cs).
      * cbn [app map concat]. now rewrite !app_nil_r.
      * intros step Hstep. apply Hcs. now rewrite app_nil_r.
    + apply changes_along_down_up; try assumption; discriminate.
Qed.

(** X10. When the feed holds no [updfile] packet, [jump_versions] between
    two different versions raises [ValueError]: it asks for the greatest key
    of an empty [access_dict]. *)
Theorem jump_versions_without_updfile (fuel : nat) (start end_ : Z) (f : feed) :
  get_upd f = None -> start <> end_ ->
  jump_versions (S fuel) start end_ f = Raise ValueError.
Proof.
  intros Hupd Hne. unfold jump_versions.
  destruct (Z.eqb_spec start end_); [contradiction|].
  unfold extract_version_graph. cbn [collect_access]. rewrite Hupd.
  reflexivity.
Qed.

Section Texts.
Variables (text : Z -> string) (dep : Z -> Z).

(** The change list of a version turns the text of its dependency into its
    own text. *)
#[local] Abbreviation cs :=
  (fun step : Z => get_changes (text (dep step)) (text step)).

Lemma revert_down (down : list Z) (m : Z) :
  descends dep (down ++ [m]) ->
  for_each apply_change
    (concat (map (fun step => reverse_changes (cs step)) down))
    (split_lines (text (hd m down)))
  = Ok (split_lines (text m)).
Proof.
  induction down as [|x down IH]; intros Hdesc; [reflexivity|].
  cbn [map concat hd]. rewrite for_each_app.
  rewrite revert_get_changes_lines. cbn [mbind res_bind].
  destruct down as [|y down].
  - cbn in Hdesc. destruct Hdesc as [-> _]. reflexivity.
  - cbn [app descends] in Hdesc. destruct Hdesc as [Hxy Hrest].
    rewrite Hxy. apply IH. exact Hrest.
Qed.

Lemma apply_up (up : list Z) (m : Z) :
  ascends dep (m :: up) ->
  for_each apply_change (concat (map cs up)) (split_lines (text m))
  = Ok (split_lines (text (List.last up m))).
Proof.
  revert m. induction up as [|y up IH]; intros m Hasc; [reflexivity|].
  cbn [map concat]. rewrite for_each_app.
  cbn [ascends] in Hasc. destruct Hasc as [Hy Hrest].
  rewrite Hy, apply_get_changes_lines. cbn [mbind res_bind].
  rewrite (IH y Hrest). destruct up as [|z up]; [reflexivity|].
  f_equal. f_equal. f_equal.
  change (List.last (y :: z :: up) m) with (List.last (z :: up) m).
  generalize z. clear. induction up as [|w up IH]; intros z; [reflexivity|].
  change (List.last (z :: w :: up) y) with (List.last (w :: up) y).
  change (List.last (z :: w :: up) m) with (List.last (w :: up) m).
  apply IH.
Qed.

(** X11. The jump reaches the end version: for two different versions that
    are not above the greatest version of the feed, when the change list
    of every version on the path is [get_changes] of the text of the version
    it depends on and its own text, and the path [_bfs] returns goes down
    the dependencies to a version [m] and then up (either part may be
    missing), the change list [jump_versions] returns turns the text of
    [start] into the text of [end_]. *)
Theorem jump_versions_reaches_end (fuel : nat) (start end_ : Z) (f : feed)
  (graph : version_graph) (access : access_dict feed) (max_version : Z)
  (down : list Z) (m : Z) (up : list Z) :
  start <> end_ ->
  extract_version_graph fuel f = Ok (graph, access) ->
  Py.max_of (keys access) = Ok max_version ->
  start <= max_version -> end_ <= max_version ->
  _bfs fuel graph start end_ = Ok (down ++ m :: up) ->
  Sorted Z.gt (down ++ [m]) -> Sorted Z.lt (m :: up) ->
  descends dep (down ++ [m]) -> ascends dep (m :: up) ->
  (forall step, In step (down ++ up) ->
     step_changes access step
     = Ok (get_changes (text (dep step)) (text step))) ->
  exists changes : list change,
    jump_versions fuel start end_ f = Ok changes
    /\ apply_changes (text start) changes = Ok (text end_).
Proof.
  intros Hne Hgraph Hmax Hs He Hbfs Hdown Hup Hdesc Hasc Hcs.
  exists (concat (map (fun step => reverse_changes (cs step)) down)
          ++ concat (map cs up)).
  split.
  - unfold jump_versions.
    destruct (Z.eqb_spec start end_); [contradiction|].
    rewrite Hgraph. cbn [mbind res_bind]. rewrite Hmax. cbn [mbind res_bind].
    destruct (Z.gtb_spec start max_version); [lia|].
    destruct (Z.gtb_spec end_ max_version); [lia|]. cbn [orb].
    rewrite Hbfs. cbn [mbind res_bind].
    now apply changes_along_path.
  - assert (Hends : hd m down = start /\ List.last up m = end_).
    { unfold _bfs in Hbfs.
      destruct (Py.max_of (keys graph)); cbn [mbind res_bind] in Hbfs;
        [|discriminate..].
      apply (bfs_loop_from_start graph start) in Hbfs.
      2:{ constructor; [|constructor]. now split. }
      destruct Hbfs as [Hnil|[[Hhead _] Hlast]].
      { destruct down; discriminate. }
      split.
      - destruct down; simpl in Hhead |- *; congruence.
      - rewrite last_app in Hlast.
        destruct up as [|y up]; [simpl in Hlast |- *; congruence|].
        rewrite last_cons in Hlast.
        assert (Hl : last (y :: up) = Some (List.last (y :: up) m)).
        { clear. revert y. induction up as [|z up IH]; intros y; [reflexivity|].
          rewrite last_cons. rewrite (IH z). reflexivity. }
        rewrite Hl in Hlast. congruence. }
    destruct Hends as [<- <-].
    unfold apply_changes. rewrite for_each_app.
    rewrite (revert_down down m Hdesc). cbn [mbind res_bind].
    rewrite (apply_up up m Hasc). cbn [mbind res_bind].
    now rewrite join_split_lines.
Qed.

End Texts.

End WithFeeds.

(** The scenario: a feed without an [updfile] packet. *)
Lemma jump_versions_on_bare_feed :
  @jump_versions _ bare_store 10 1 2 bare_feed = Raise ValueError.
Proof.
  apply (@jump_versions_without_updfile _ bare_store 9 1 2 bare_feed).
  - reflexivity.
  - lia.
Defined.

(** The scenario: the jump from version 3 to version 4 of "f.txt" goes down
    to version 1 and up again. *)
Lemma jump_versions_reaches_version_4 :
  exists changes : list change,
    @jump_versions _ file_store 10 3 4 file_feed = Ok changes
    /\ apply_changes (version_text 3) changes = Ok (version_text 4).
Proof.
  apply (@jump_versions_reaches_end _ file_store version_text version_dep 10 3 4
           file_feed file_graph file_access 4 [3; 2] 1 [4]).
  - lia.
  - vm_compute. reflexivity.
  - vm_compute. reflexivity.
  - lia.
  - lia.
  - vm_compute. reflexivity.
  - repeat constructor.
  - repeat constructor.
  - repeat split.
  - repeat split.
  - intros step [<-|[<-|[<-|[]]]]; vm_compute; reflexivity.
Defined.

End PathFacts.

(** ** The packet codec of the struct based store *)

Module PacketFacts.
Import Packet BytesFacts SliceFacts FeedFacts.

Lemma fit_fit (n : nat) (b : bytes) : fit n (fit n b) = fit n b.
Proof. apply fit_exact, length_fit. Qed.

Lemma length_wire_bytes (w : WIRE_PACKET) : length (wire_bytes w) = 128%nat.
Proof. unfold wire_bytes. now rewrite !length_app, !length_fit. Qed.

(** Laying the struct over the bytes of a wire packet gives the fields back. *)
Lemma wire_struct_wire_bytes (w : WIRE_PACKET) :
  wire_struct (wire_bytes w)
  = {| reserved := fit 8 (reserved w); dmx := fit 7 (dmx w);
       type := fit 1 (type w); payload := fit 48 (payload w);
       signature := fit 64 (signature w) |}.
Proof.
  unfold wire_struct, wire_bytes. f_equal.
  - apply (slice_middle []); rewrite ?length_fit; reflexivity.
  - apply slice_middle; rewrite ?length_fit; reflexivity.
  - rewrite (app_assoc (fit 8 _)).
    apply slice_middle; rewrite ?length_app, ?length_fit; reflexivity.
  - rewrite (app_assoc (fit 8 _)), (app_assoc (_ ++ _) (fit 1 _)).
    apply slice_middle; rewrite ?length_app, ?length_fit; reflexivity.
  - rewrite (app_assoc (fit 8 _)), (app_assoc (_ ++ _) (fit 1 _)),
      (app_assoc (_ ++ _) (fit 48 _)).
    rewrite <- (app_nil_r (fit 64 _)) at 1.
    apply slice_middle; rewrite ?length_app, ?length_fit; reflexivity.
Qed.

Section WithCrypto.
Context `{Crypto}.

(** The block name is the prefix, the feed ID, the sequence number and the
    previous message ID, in 184 bytes. *)
Lemma block_name_parts (reserved fid seq prev_mid : bytes) :
  length reserved = 8%nat -> length fid = 32%nat -> length seq = 4%nat ->
  length prev_mid = 20%nat ->
  block_name reserved fid seq prev_mid
  = reserved ++ fid ++ seq ++ prev_mid ++ Bytes.zeros 120.
Proof.
  intros Hr Hf Hs Hp. unfold block_name.
  replace (Bytes.zeros 184)
    with (Bytes.zeros 8 ++ Bytes.zeros 32 ++ Bytes.zeros 4 ++ Bytes.zeros 20
          ++ Bytes.zeros 120) by (rewrite <- !zeros_add; reflexivity).
  rewrite set_slice_to_app by reflexivity.
  rewrite (set_slice_middle reserved (Bytes.zeros 32))
    by (rewrite ?length_zeros, ?Hr; reflexivity).
  rewrite (app_assoc reserved fid).
  rewrite (set_slice_middle (reserved ++ fid) (Bytes.zeros 4))
    by (rewrite ?length_app, ?length_zeros, ?Hr, ?Hf; reflexivity).
  rewrite (app_assoc (reserved ++ fid) seq).
  rewrite (set_slice_middle ((reserved ++ fid) ++ seq) (Bytes.zeros 20))
    by (rewrite ?length_app, ?length_zeros, ?Hr, ?Hf, ?Hs; reflexivity).
  now rewrite <- !app_assoc.
Qed.

Lemma full_array_parts (reserved fid seq prev_mid dmx pkt_type payload : bytes) :
  length reserved = 8%nat -> length fid = 32%nat -> length seq = 4%nat ->
  length prev_mid = 20%nat -> length dmx = 7%nat -> length pkt_type = 1%nat ->
  length payload = 48%nat ->
  Py.set_slice
    (Py.set_slice
       (Py.set_slice (block_name reserved fid seq prev_mid) 64 71 dmx)
       71 72 pkt_type)
    72 120 payload
  = expanded reserved fid seq prev_mid dmx pkt_type payload ++ Bytes.zeros 64.
Proof.
  intros Hr Hf Hs Hp Hd Ht Hpay. rewrite block_name_parts by assumption.
  replace (Bytes.zeros 120)
    with (Bytes.zeros 7 ++ Bytes.zeros 1 ++ Bytes.zeros 48 ++ Bytes.zeros 64)
    by (rewrite <- !zeros_add; reflexivity).
  set (name := reserved ++ fid ++ seq ++ prev_mid).
  assert (Hname : length name = 64%nat)
    by (unfold name; rewrite !length_app, Hr, Hf, Hs, Hp; reflexivity).
  replace (reserved ++ fid ++ seq ++ prev_mid ++ Bytes.zeros 7 ++ Bytes.zeros 1
           ++ Bytes.zeros 48 ++ Bytes.zeros 64)
    with (name ++ Bytes.zeros 7 ++ Bytes.zeros 1 ++ Bytes.zeros 48 ++ Bytes.zeros 64)
    by (unfold name; now rewrite <- !app_assoc).
  rewrite (set_slice_middle name (Bytes.zeros 7))
    by (rewrite ?length_zeros, ?Hname; reflexivity).
  rewrite (app_assoc name dmx).
  rewrite (set_slice_middle (name ++ dmx) (Bytes.zeros 1))
    by (rewrite ?length_app, ?length_zeros, ?Hname, ?Hd; reflexivity).
  rewrite (app_assoc (name ++ dmx) pkt_type).
  rewrite (set_slice_middle ((name ++ dmx) ++ pkt_type) (Bytes.zeros 48))
    by (rewrite ?length_app, ?length_zeros, ?Hname, ?Hd, ?Ht; reflexivity).
  unfold expanded, name. now rewrite <- !app_assoc.
Qed.

Lemma length_expanded (reserved fid seq prev_mid dmx pkt_type payload : bytes) :
  length reserved = 8%nat -> length fid = 32%nat -> length seq = 4%nat ->
  length prev_mid = 20%nat -> length dmx = 7%nat -> length pkt_type = 1%nat ->
  length payload = 48%nat ->
  length (expanded reserved fid seq prev_mid dmx pkt_type payload) = 120%nat.
Proof.
  intros Hr Hf Hs Hp Hd Ht Hpay. unfold expanded.
  rewrite !length_app, Hr, Hf, Hs, Hp, Hd, Ht, Hpay. reflexivity.
Qed.

Lemma length_PKT_PREFIX : length PKT_PREFIX = 8%nat.
Proof. reflexivity. Qed.

(** What [new_packet] returns. *)
Lemma new_packet_spec (fid seq prev_mid payload pkt_type key : bytes) (pkt : PACKET) :
  new_packet fid seq prev_mid payload pkt_type key = Ok pkt ->
  let msg := expanded PKT_PREFIX fid seq prev_mid (dmx_of fid seq prev_mid)
               pkt_type payload in
  length fid = 32%nat /\ length seq = 4%nat /\ length prev_mid = 20%nat
  /\ length payload = 48%nat /\ length pkt_type = 1%nat /\ length key = 32%nat
  /\ pkt = {| wire := {| reserved := PKT_PREFIX; dmx := dmx_of fid seq prev_mid;
                         type := pkt_type; payload := payload;
                         signature := fit 64 (sign key msg) |};
              Packet.fid := fid; Packet.seq := seq; Packet.prev_mid := prev_mid;
              mid := fit 20 (Py.slice_to (sha256 (msg ++ sign key msg)) 20) |}.
Proof.
  unfold new_packet, len_is. intros Hnew.
  assert_case Hfid. assert_case Hseq. assert_case Hprev. assert_case Hpay.
  assert_case Hty. assert_case Hkey.
  apply Nat.eqb_eq in Hfid, Hseq, Hprev, Hpay, Hty, Hkey.
  cbv zeta in Hnew |- *.
  rewrite (fit_exact 8 PKT_PREFIX) in Hnew by reflexivity.
  assert (Hdmx : fit 7 (Py.slice_to
                   (sha256 (Py.slice_to (block_name PKT_PREFIX fid seq prev_mid) 64)) 7)
                 = dmx_of fid seq prev_mid).
  { unfold dmx_of. rewrite block_name_parts by (assumption || reflexivity).
    rewrite !(app_assoc _ _ (Bytes.zeros 120)), !(app_assoc _ _ prev_mid),
      !(app_assoc _ _ seq).
    rewrite slice_to_app
      by (rewrite !length_app, Hfid, Hseq, Hprev; reflexivity).
    now rewrite <- !app_assoc. }
  rewrite Hdmx in Hnew.
  rewrite full_array_parts in Hnew
    by (try assumption; try reflexivity; apply length_fit).
  set (msg := expanded PKT_PREFIX fid seq prev_mid (dmx_of fid seq prev_mid)
                pkt_type payload) in *.
  assert (Hmsg : length msg = 120%nat)
    by (apply length_expanded; try assumption; try reflexivity; apply length_fit).
  rewrite slice_to_app in Hnew by now rewrite Hmsg.
  rewrite set_slice_from_app in Hnew by now rewrite Hmsg.
  rewrite slice_from_app in Hnew by now rewrite Hmsg.
  injection Hnew as <-.
  repeat split; try assumption.
  now rewrite (fit_exact 1 pkt_type), (fit_exact 48 payload), (fit_exact 32 fid),
    (fit_exact 4 seq), (fit_exact 20 prev_mid) by assumption.
Qed.

(** X12. A packet that [new_packet] makes is accepted: when signatures have
    64 bytes and a signature made with the key verifies under the feed ID,
    [pkt_from_wire], given the same feed ID, sequence number and previous
    message ID, returns the packet from its 128 bytes. *)
Theorem pkt_from_wire_new_packet (fid seq prev_mid payload pkt_type key : bytes)
  (pkt : PACKET) :
  (forall msg, length (sign key msg) = 64%nat) ->
  (forall msg, verify fid (sign key msg) msg = true) ->
  new_packet fid seq prev_mid payload pkt_type key = Ok pkt ->
  pkt_from_wire fid seq prev_mid (wire_bytes (wire pkt)) = Ok (Some pkt).
Proof.
  intros Hsig Hverify Hnew.
  apply new_packet_spec in Hnew
    as (Hfid & Hseq & Hprev & Hpay & Hty & Hkey & ->).
  cbn [wire]. unfold pkt_from_wire, len_is.
  rewrite length_wire_bytes, Hfid, Hseq, Hprev. cbn [Nat.eqb assert mbind res_bind].
  rewrite wire_struct_wire_bytes.
  cbn [reserved dmx type Packet.payload signature].
  rewrite (fit_exact 8 PKT_PREFIX) by reflexivity.
  rewrite (fit_exact 7 (dmx_of _ _ _)) by apply length_fit.
  rewrite (fit_exact 1 pkt_type), (fit_exact 48 payload), fit_fit by assumption.
  rewrite full_array_parts
    by (try assumption; try reflexivity; apply length_fit).
  set (msg := expanded PKT_PREFIX fid seq prev_mid (dmx_of fid seq prev_mid)
                pkt_type payload) in *.
  assert (Hmsg : length msg = 120%nat)
    by (apply length_expanded; try assumption; try reflexivity; apply length_fit).
  rewrite slice_to_app by now rewrite Hmsg.
  rewrite (fit_exact 64 (sign key msg)) by apply Hsig.
  rewrite Hverify, andb_false_r.
  rewrite set_slice_from_app by now rewrite Hmsg.
  now rewrite (fit_exact 32 fid), (fit_exact 4 seq), (fit_exact 20 prev_mid)
    by assumption.
Qed.

End WithCrypto.

(** ** The scenarios *)

(** A fact about concrete data, settled by running the code. *)
Ltac by_computation :=
  vm_compute; first [reflexivity | discriminate].

(** The stand-in hash has 32 bytes and the stand-in signature 64. *)
Lemma length_test_sha256 (msg : bytes) :
  length (Scenario.test_sha256 msg) = 32%nat.
Proof.
  unfold Scenario.test_sha256. cbv zeta. now rewrite !length_app, !length_to_big.
Qed.

Lemma length_test_sign (key msg : bytes) :
  length (Scenario.test_sign key msg) = 64%nat.
Proof.
  unfold Scenario.test_sign. now rewrite length_app, !length_test_sha256.
Qed.

Lemma test_verify_sign (key msg : bytes) :
  @verify Scenario.test_crypto key (@sign Scenario.test_crypto key msg) msg = true.
Proof.
  cbn [verify sign Scenario.test_crypto]. unfold Bytes.eqb.
  now apply bool_decide_eq_true_2.
Qed.

(** The scenario: the packet signed for the place after the front of
    [ended_feed]. *)
Lemma pkt_from_wire_after_ended_packet :
  @pkt_from_wire Scenario.test_crypto Scenario.key_1 (Bytes.to_big 4 2)
    (Feed.front_mid Scenario.ended_feed_state.1)
    (wire_bytes (wire Scenario.after_ended_packet))
  = Ok (Some Scenario.after_ended_packet).
Proof.
  apply (@pkt_from_wire_new_packet Scenario.test_crypto Scenario.key_1
           (Bytes.to_big 4 2) (Feed.front_mid Scenario.ended_feed_state.1)
           (Bytes.zeros 48) (type_byte PLAIN48) Scenario.key_1
           Scenario.after_ended_packet).
  - intros msg. apply length_test_sign.
  - intros msg. apply test_verify_sign.
  - by_computation.
Defined.

End PacketFacts.

(** ** The struct based feed store: headers, logs and children *)

Module StoreFacts.
Import Packet Feed BytesFacts SliceFacts PyFacts FeedFacts PacketFacts.

Lemma length_feed_bytes (feed : FEED) : length (feed_bytes feed) = 128%nat.
Proof.
  unfold feed_bytes.
  now rewrite !length_app, !length_fit, !length_to_big, length_zeros.
Qed.

Lemma slice_to_all {A : Type} (l : list A) (n : Z) :
  Z.of_nat (length l) <= n -> Py.slice_to l n = l.
Proof.
  intros Hn. unfold Py.slice_to, Py.clamp.
  destruct (Z.ltb_spec n 0); [lia|].
  rewrite Z.min_r by lia. rewrite Nat2Z.id. apply take_ge. lia.
Qed.

Lemma from_big_to_big_32 (z : Z) :
  0 <= z < 2 ^ 32 -> Bytes.from_big (Bytes.to_big 4 z) = z.
Proof.
  intros Hz. rewrite from_big_to_big. apply Z.mod_small.
  change (256 ^ Z.of_nat 4) with (2 ^ 32). lia.
Qed.

(** Laying the struct over the bytes of a header gives the feed back. *)
Lemma feed_struct_feed_bytes (feed : FEED) :
  is_struct feed -> feed_struct (Py.slice_to (feed_bytes feed) 128) = feed.
Proof.
  intros (Hfid & Hpfid & Hamid & Hfmid & Hpseq & Haseq & Hfseq).
  rewrite slice_to_all by (rewrite length_feed_bytes; lia).
  unfold feed_struct, feed_bytes.
  rewrite !(fit_exact 32), !(fit_exact 20) by assumption.
  destruct feed as [fid pfid pseq aseq amid fseq fmid]. cbn [Feed.fid Feed.parent_fid
    Feed.parent_seq Feed.anchor_seq Feed.anchor_mid Feed.front_seq Feed.front_mid] in *.
  f_equal.
  - apply slice_middle; rewrite ?length_zeros, ?Hfid; reflexivity.
  - rewrite (app_assoc (Bytes.zeros 12)).
    apply slice_middle; rewrite ?length_app, ?length_zeros, ?Hfid, ?Hpfid; reflexivity.
  - rewrite (app_assoc (Bytes.zeros 12)), (app_assoc (_ ++ _) pfid).
    rewrite (slice_middle _ (Bytes.to_big 4 pseq));
      [now apply from_big_to_big_32| |];
      rewrite ?length_app, ?length_zeros, ?length_to_big, ?Hfid, ?Hpfid; reflexivity.
  - rewrite (app_assoc (Bytes.zeros 12)), (app_assoc (_ ++ _) pfid),
      (app_assoc (_ ++ _) (Bytes.to_big 4 pseq)).
    rewrite (slice_middle _ (Bytes.to_big 4 aseq));
      [now apply from_big_to_big_32| |];
      rewrite ?length_app, ?length_zeros, ?length_to_big, ?Hfid, ?Hpfid; reflexivity.
  - rewrite (app_assoc (Bytes.zeros 12)), (app_assoc (_ ++ _) pfid),
      (app_assoc (_ ++ _) (Bytes.to_big 4 pseq)),
      (app_assoc (_ ++ _) (Bytes.to_big 4 aseq)).
    apply slice_middle;
      rewrite ?length_app, ?length_zeros, ?length_to_big, ?Hfid, ?Hpfid, ?Hamid;
      reflexivity.
  - rewrite (app_assoc (Bytes.zeros 12)), (app_assoc (_ ++ _) pfid),
      (app_assoc (_ ++ _) (Bytes.to_big 4 pseq)),
      (app_assoc (_ ++ _) (Bytes.to_big 4 aseq)), (app_assoc (_ ++ _) amid).
    rewrite (slice_middle _ (Bytes.to_big 4 fseq));
      [now apply from_big_to_big_32| |];
      rewrite ?length_app, ?length_zeros, ?length_to_big, ?Hfid, ?Hpfid, ?Hamid;
      reflexivity.
  - rewrite (app_assoc (Bytes.zeros 12)), (app_assoc (_ ++ _) pfid),
      (app_assoc (_ ++ _) (Bytes.to_big 4 pseq)),
      (app_assoc (_ ++ _) (Bytes.to_big 4 aseq)), (app_assoc (_ ++ _) amid),
      (app_assoc (_ ++ _) (Bytes.to_big 4 fseq)).
    rewrite <- (app_nil_r fmid) at 1.
    apply slice_middle;
      rewrite ?length_app, ?length_zeros, ?length_to_big, ?Hfid, ?Hpfid, ?Hamid,
        ?Hfmid; reflexivity.
Qed.

Lemma u32_range (z : Z) : 0 <= u32 z < 2 ^ 32.
Proof. unfold u32. apply Z.mod_pos_bound. lia. Qed.

Lemma get_feed_save_header (feed : FEED) (d : disk) :
  is_struct feed -> get_feed (fid feed) (save_header feed d) = Ok feed.
Proof.
  intros Hfeed. unfold get_feed, save_header. cbn [heads].
  rewrite lookup_insert_eq. now rewrite feed_struct_feed_bytes.
Qed.

Lemma is_struct_append_packet (feed : FEED) (pkt : PACKET) (d : disk) :
  is_struct feed -> is_struct (append_packet feed pkt d).1.
Proof.
  intros (Hfid & Hpfid & Hamid & Hfmid & Hpseq & Haseq & Hfseq).
  unfold append_packet, is_struct.
  cbn [fst Feed.fid Feed.parent_fid Feed.parent_seq anchor_seq anchor_mid
       front_seq front_mid].
  pose proof (u32_range (front_seq feed + 1)).
  rewrite !length_fit. repeat apply conj; try assumption; try reflexivity; lia.
Qed.

(** The header [append_packet] saves is read back as the new feed. *)
Lemma get_feed_append_packet (feed : FEED) (pkt : PACKET) (d : disk) :
  is_struct feed ->
  is_struct (append_packet feed pkt d).1
  /\ get_feed (fid feed) (append_packet feed pkt d).2
     = Ok (append_packet feed pkt d).1.
Proof.
  intros Hfeed. split; [now apply is_struct_append_packet|].
  pose proof (is_struct_append_packet feed pkt d Hfeed) as Hfeed'.
  unfold append_packet in *. cbn [fst snd] in *.
  match goal with
  | |- get_feed _ (save_header ?f ?d0) = _ =>
      change (fid feed) with (fid f); now apply get_feed_save_header
  end.
Qed.

(** X13. A feed that [create_feed] returns holds arrays of the sizes of the
    struct and the given feed ID, its front is its anchor, and [get_feed]
    reads it back from its header file. *)
Theorem get_feed_after_create_feed (fid : bytes) (trusted_seq : Z)
  (trusted_mid : option bytes) (parent_seq : Z) (parent_fid : bytes)
  (d d' : disk) (feed : FEED) :
  create_feed fid trusted_seq trusted_mid parent_seq parent_fid d = Ok (feed, d') ->
  is_struct feed
  /\ Feed.fid feed = fid
  /\ front_seq feed = anchor_seq feed
  /\ get_feed fid d' = Ok feed.
Proof.
  unfold create_feed, len_is. cbv zeta. intros Hcreate.
  assert_case Hfid. assert_case Hmid. assert_case Hpfid.
  apply Nat.eqb_eq in Hfid, Hmid, Hpfid.
  injection Hcreate as <- <-.
  assert (Hstruct : is_struct
            {| Feed.fid := fit 32 fid; Feed.parent_fid := fit 32 parent_fid;
               Feed.parent_seq := u32 parent_seq; anchor_seq := u32 trusted_seq;
               anchor_mid := fit 20 (default (Py.slice_to fid 20) trusted_mid);
               front_seq := u32 trusted_seq;
               front_mid := fit 20 (Py.slice_to fid 20) |}).
  { unfold is_struct.
    cbn [Feed.fid Feed.parent_fid Feed.parent_seq anchor_seq anchor_mid
         front_seq front_mid].
    rewrite !length_fit.
    pose proof (u32_range parent_seq). pose proof (u32_range trusted_seq).
    repeat apply conj; try reflexivity; lia. }
  split; [exact Hstruct|].
  split; [cbn; now apply fit_exact|].
  split; [reflexivity|].
  rewrite <- (fit_exact 32 fid Hfid) at 1.
  now apply (get_feed_save_header _ d) in Hstruct.
Qed.

(** ** The log *)

Lemma slice_app_l {A : Type} (a b : list A) (i j : Z) :
  0 <= i <= j -> j <= Z.of_nat (length a) ->
  Py.slice (a ++ b) i j = Py.slice a i j.
Proof.
  intros Hij Hj. unfold Py.slice, Py.clamp.
  destruct (Z.ltb_spec i 0); [lia|]. destruct (Z.ltb_spec j 0); [lia|].
  rewrite length_app.
  rewrite !Z.min_l by lia.
  rewrite drop_app_le by lia.
  apply take_app_le. rewrite length_drop. lia.
Qed.

Lemma slice_app_r {A : Type} (a b : list A) (i j : Z) :
  i = Z.of_nat (length a) -> j = Z.of_nat (length a + length b) ->
  Py.slice (a ++ b) i j = b.
Proof.
  intros Hi Hj. rewrite <- (app_nil_r b) at 1. now apply slice_middle.
Qed.

Section Log.
Variables (feed : FEED) (pkt : PACKET) (d : disk).
Hypothesis Hstruct : is_struct feed.
Hypothesis Hlog : log_complete feed d.
Hypothesis Hroom : front_seq feed + 1 < 2 ^ 32.

#[local] Abbreviation feed' := ((append_packet feed pkt d).1).
#[local] Abbreviation d' := ((append_packet feed pkt d).2).

Lemma front_seq_append : front_seq feed' = front_seq feed + 1.
Proof.
  destruct Hstruct as (_ & _ & _ & _ & _ & _ & Hf).
  unfold append_packet. cbn. unfold u32. apply Z.mod_small. lia.
Qed.

Lemma log_append : log_of feed' d' = log_of feed d ++ wire_bytes (wire pkt).
Proof.
  unfold log_of, append_packet. cbn.
  now rewrite lookup_insert_eq.
Qed.

Lemma log_complete_append : log_complete feed' d'.
Proof.
  destruct Hlog as [Hle Hlen]. split.
  - rewrite front_seq_append. unfold append_packet. cbn. lia.
  - rewrite log_append, front_seq_append, length_app, length_wire_bytes.
    unfold append_packet. cbn [fst anchor_seq]. lia.
Qed.

Lemma get_wire_log (f : FEED) (dd : disk) (i : Z) :
  0 <= anchor_seq f -> anchor_seq f < i <= front_seq f ->
  logs dd !! fid f = Some (log_of f dd) ->
  get_wire f i dd
  = Ok (Py.slice (log_of f dd) (128 * (i - anchor_seq f - 1))
          (128 * (i - anchor_seq f - 1) + 128)).
Proof.
  intros Ha Hi Hl. unfold get_wire. cbv zeta.
  destruct (Z.ltb_spec i 0); [lia|].
  destruct (Z.gtb_spec i (front_seq f)); [lia|].
  destruct (Z.leb_spec i (anchor_seq f)); [lia|]. cbn [orb].
  now rewrite Hl.
Qed.

Lemma logs_lookup_append : logs d' !! fid feed' = Some (log_of feed' d').
Proof.
  unfold log_of, append_packet. cbn.
  now rewrite lookup_insert_eq.
Qed.

Lemma anchor_seq_append : anchor_seq feed' = anchor_seq feed.
Proof. reflexivity. Qed.

(** The packet just appended is the front packet. *)
Lemma get_wire_appended :
  get_wire feed' (front_seq feed + 1) d' = Ok (wire_bytes (wire pkt)).
Proof.
  destruct Hstruct as (_ & _ & _ & _ & _ & Ha & Hf). destruct Hlog as [Hle Hlen].
  rewrite get_wire_log.
  - f_equal. rewrite log_append, anchor_seq_append.
    apply slice_app_r; rewrite ?length_wire_bytes; lia.
  - rewrite anchor_seq_append. lia.
  - rewrite anchor_seq_append, front_seq_append. lia.
  - apply logs_lookup_append.
Qed.

Lemma get_wire_front : get_wire feed' (-1) d' = Ok (wire_bytes (wire pkt)).
Proof.
  rewrite <- get_wire_appended. unfold get_wire. cbv zeta.
  destruct Hstruct as (_ & _ & _ & _ & _ & Ha & Hf).
  destruct (Z.ltb_spec (-1) 0); [|lia].
  destruct (Z.ltb_spec (front_seq feed + 1) 0); [lia|].
  rewrite front_seq_append.
  now replace (front_seq feed + 1 + -1 + 1) with (front_seq feed + 1) by lia.
Qed.

(** The packets that were there before are read as before. *)
Lemma get_wire_before (i : Z) :
  anchor_seq feed < i <= front_seq feed ->
  get_wire feed' i d' = get_wire feed i d.
Proof.
  intros Hi.
  destruct Hstruct as (_ & _ & _ & _ & _ & Ha & Hf). destruct Hlog as [Hle Hlen].
  assert (Hfile : logs d !! fid feed = Some (log_of feed d)).
  { unfold log_of in *. destruct (logs d !! fid feed); [reflexivity|].
    simpl in Hlen. lia. }
  rewrite (get_wire_log feed d) by (assumption || lia).
  rewrite get_wire_log.
  - f_equal. rewrite log_append, anchor_seq_append. apply slice_app_l; lia.
  - rewrite anchor_seq_append. lia.
  - rewrite anchor_seq_append, front_seq_append. lia.
  - apply logs_lookup_append.
Qed.

End Log.

(** X14. The log is append-only: on a feed whose fields have the sizes of
    the struct, whose log holds one packet of 128 bytes for every sequence
    number after the anchor, and whose front can move by one within 32
    bits, [append_packet] moves the front by one, the new packet is read at
    the new front (and at index -1), every packet that was there is read as
    before, the log stays complete, and [get_feed] reads the new feed back
    from the header file. *)
Theorem append_packet_appends (feed : FEED) (pkt : PACKET) (d : disk) :
  is_struct feed -> log_complete feed d -> front_seq feed + 1 < 2 ^ 32 ->
  let feed' := (append_packet feed pkt d).1 in
  let d' := (append_packet feed pkt d).2 in
  log_complete feed' d'
  /\ front_seq feed' = front_seq feed + 1
  /\ get_wire feed' (front_seq feed + 1) d' = Ok (wire_bytes (wire pkt))
  /\ get_wire feed' (-1) d' = Ok (wire_bytes (wire pkt))
  /\ (forall i, anchor_seq feed < i <= front_seq feed ->
        get_wire feed' i d' = get_wire feed i d)
  /\ get_feed (fid feed) d' = Ok feed'.
Proof.
  intros Hstruct Hlog Hroom. cbv zeta.
  split; [now apply log_complete_append|].
  split; [now apply front_seq_append|].
  split; [now apply get_wire_appended|].
  split; [now apply get_wire_front|].
  split; [intros i Hi; now apply get_wire_before|].
  now apply get_feed_append_packet.
Qed.

Lemma range_snoc (a b : Z) : a <= b -> Py.range a (b + 1) = Py.range a b ++ [b].
Proof.
  intros Hab. unfold Py.range.
  replace (Z.to_nat (b + 1 - a)) with (S (Z.to_nat (b - a))) by lia.
  rewrite seq_S, map_app. cbn [map Nat.add]. f_equal. f_equal. lia.
Qed.

Lemma elem_of_range (a b x : Z) : In x (Py.range a b) -> a <= x < b.
Proof.
  unfold Py.range. rewrite in_map_iff. intros (k & <- & Hk).
  apply in_seq in Hk. lia.
Qed.

Lemma for_each_ext {A S : Type} (body1 body2 : S -> A -> res S) (xs : list A) :
  (forall x, In x xs -> forall s, body1 s x = body2 s x) ->
  forall s, for_each body1 xs s = for_each body2 xs s.
Proof.
  induction xs as [|x xs IH]; intros Hext s; [reflexivity|].
  cbn [for_each]. rewrite (Hext x) by now left.
  destruct (body2 s x); cbn [mbind res_bind]; [|reflexivity..].
  apply IH. intros y Hy. apply Hext. now right.
Qed.

(** Reading a packet looks at the log of the feed only. *)
Lemma get_wire_same_log (feed : FEED) (i : Z) (d1 d2 : disk) :
  logs d1 !! fid feed = logs d2 !! fid feed ->
  get_wire feed i d1 = get_wire feed i d2.
Proof. intros Hlogs. unfold get_wire. now rewrite Hlogs. Qed.

Lemma create_feed_returns (fid : bytes) (trusted_seq : Z)
  (trusted_mid : option bytes) (parent_seq : Z) (parent_fid : bytes)
  (d d' : disk) (feed : FEED) :
  create_feed fid trusted_seq trusted_mid parent_seq parent_fid d = Ok (feed, d') ->
  length fid = 32%nat /\ length parent_fid = 32%nat
  /\ feed = {| Feed.fid := fid; Feed.parent_fid := parent_fid;
               Feed.parent_seq := u32 parent_seq; anchor_seq := u32 trusted_seq;
               anchor_mid := default (Py.slice_to fid 20) trusted_mid;
               front_seq := u32 trusted_seq;
               front_mid := fit 20 (Py.slice_to fid 20) |}
  /\ d' = save_header feed d.
Proof.
  unfold create_feed, len_is. cbv zeta. intros Hcreate.
  assert_case Hfid. assert_case Hmid. assert_case Hpfid.
  apply Nat.eqb_eq in Hfid, Hmid, Hpfid.
  injection Hcreate as <- <-.
  rewrite (fit_exact 32 fid), (fit_exact 32 parent_fid), (fit_exact 20 (default _ _))
    by assumption.
  now repeat split.
Qed.

Section WithCrypto.
Context `{Crypto}.

(** The bytes of the wire packet [new_packet] makes. *)
Lemma new_packet_wire_bytes (fid seq prev_mid payload pkt_type key : bytes)
  (pkt : PACKET) :
  new_packet fid seq prev_mid payload pkt_type key = Ok pkt ->
  length payload = 48%nat /\ length pkt_type = 1%nat
  /\ wire_struct (wire_bytes (wire pkt)) = wire pkt
  /\ type (wire pkt) = pkt_type /\ Packet.payload (wire pkt) = payload
  /\ exists head tail : bytes,
       length head = 15%nat
       /\ wire_bytes (wire pkt) = head ++ pkt_type ++ payload ++ tail.
Proof.
  intros Hnew.
  apply new_packet_spec in Hnew as (Hfid & Hseq & Hprev & Hpay & Hty & Hkey & ->).
  cbn [wire type Packet.payload].
  split; [assumption|]. split; [assumption|].
  split.
  { rewrite wire_struct_wire_bytes. cbn [reserved dmx type Packet.payload signature].
    rewrite (fit_exact 8 PKT_PREFIX) by reflexivity.
    rewrite (fit_exact 7 (dmx_of _ _ _)) by apply length_fit.
    now rewrite (fit_exact 1 pkt_type), (fit_exact 48 payload), fit_fit by assumption. }
  split; [reflexivity|]. split; [reflexivity|].
  eexists (PKT_PREFIX ++ dmx_of fid seq prev_mid), _. split.
  - rewrite length_app. unfold dmx_of. now rewrite length_fit.
  - unfold wire_bytes. cbn [reserved dmx type Packet.payload signature].
    rewrite (fit_exact 8 PKT_PREFIX) by reflexivity.
    rewrite (fit_exact 7 (dmx_of _ _ _)) by apply length_fit.
    rewrite (fit_exact 1 pkt_type), (fit_exact 48 payload) by assumption.
    now rewrite <- !app_assoc.
Qed.

(** X15. On such a feed (struct sized fields, a complete log, room for one
    more sequence number), when [append_bytes] returns, the payload had at
    most 48 bytes, and [get_payload] returns it for the front packet, filled
    up with zero bytes to 48 bytes. *)
Theorem get_payload_after_append_bytes (fuel : nat) (feed feed' : FEED)
  (payload key : bytes) (d d' : disk) :
  is_struct feed -> log_complete feed d -> front_seq feed + 1 < 2 ^ 32 ->
  append_bytes feed payload key d = Ok (feed', d') ->
  (length payload <= 48)%nat
  /\ get_payload fuel feed' (-1) d'
     = Ok (payload ++ Bytes.zeros (48 - length payload)).
Proof.
  intros Hstruct Hlog Hroom Happend. unfold append_bytes in Happend.
  cbv zeta in Happend. assert_case Hlen. apply Nat.leb_le in Hlen.
  destruct (new_packet _ _ _ _ _ _) as [pkt| |] eqn:Hpkt; [|discriminate..].
  cbn [mbind res_bind] in Happend.
  assert (Hfeed : feed' = (append_packet feed pkt d).1) by (now inversion Happend).
  assert (Hdisk : d' = (append_packet feed pkt d).2) by (now inversion Happend).
  clear Happend. subst feed' d'.
  split; [exact Hlen|].
  apply new_packet_wire_bytes in Hpkt as (Hpaylen & _ & Hws & Hty & Hpay & _).
  unfold get_payload. rewrite get_wire_front by assumption.
  cbn [mbind res_bind]. rewrite Hws, Hty, Hpay.
  change (Bytes.eqb (type_byte PLAIN48) (type_byte CHAIN20)) with false.
  cbn [negb]. f_equal.
  destruct (Nat.ltb_spec (length payload) 48).
  - replace (Bytes.zeros 48)
      with (Bytes.zeros (length payload) ++ Bytes.zeros (48 - length payload))
      by (rewrite <- zeros_add; f_equal; lia).
    apply set_slice_to_app. now rewrite length_zeros.
  - replace (48 - length payload)%nat with 0%nat by lia.
    now rewrite app_nil_r.
Qed.

Lemma short_var_int (n : Z) :
  0 <= n <= 252 ->
  VarInt.to_var_int n = [Bytes.of_Z n]
  /\ forall rest, VarInt.from_var_int (Bytes.of_Z n :: rest) = Ok (n, 1).
Proof.
  intros Hn. unfold VarInt.to_var_int, VarInt.from_var_int.
  rewrite to_Z_of_Z, Z.mod_small by lia.
  destruct (Z.leb_spec n 252); [|lia]. now split.
Qed.

(** X16. On such a feed, a content of at most 27 bytes that [append_blob]
    appends fits the [chain20] packet: [get_payload] returns it from the
    front packet, and no blob is written. *)
Theorem get_payload_after_short_append_blob (fuel : nat) (feed feed' : FEED)
  (content key : bytes) (d d' : disk) :
  is_struct feed -> log_complete feed d -> front_seq feed + 1 < 2 ^ 32 ->
  (length content <= 27)%nat ->
  append_blob feed content key d = Ok (feed', d') ->
  get_payload fuel feed' (-1) d' = Ok content
  /\ blobs d' = blobs d.
Proof.
  intros Hstruct Hlog Hroom Hlen Happend. unfold append_blob, create_chain in Happend.
  cbv zeta in Happend.
  destruct (Z.leb_spec (Z.of_nat (length content)) 27); [|lia].
  destruct (new_packet _ _ _ _ _ _) as [pkt| |] eqn:Hpkt; [|discriminate..].
  cbn [mbind res_bind for_each] in Happend.
  destruct (assert _); [|discriminate..]. cbn [mbind res_bind] in Happend.
  assert (Hfeed : feed' = (append_packet feed pkt d).1) by (now inversion Happend).
  assert (Hdisk : d' = (append_packet feed pkt d).2) by (now inversion Happend).
  clear Happend. subst feed' d'.
  split; [|reflexivity].
  apply new_packet_wire_bytes in Hpkt as (Hpaylen & _ & Hws & Hty & Hpay & _).
  destruct (short_var_int (Z.of_nat (length content))) as [Hvar Hread]; [lia|].
  rewrite Hvar in Hpay.
  assert (Hpayload : Packet.payload (wire pkt)
                     = [Bytes.of_Z (Z.of_nat (length content))] ++ content
                       ++ Bytes.zeros (47 - length content)).
  { rewrite Hpay.
    replace (Bytes.zeros 48)
      with (Bytes.zeros 1 ++ Bytes.zeros (length content)
            ++ Bytes.zeros (47 - length content))
      by (rewrite <- !zeros_add; f_equal; lia).
    rewrite set_slice_to_app by reflexivity.
    apply set_slice_middle; rewrite ?length_zeros; cbn [length]; lia. }
  unfold get_payload. rewrite get_wire_front by assumption.
  cbn [mbind res_bind]. rewrite Hws, Hty.
  change (Bytes.eqb (type_byte CHAIN20) (type_byte CHAIN20)) with true.
  cbn [negb]. rewrite Hpayload. cbn [app]. rewrite Hread. cbn [mbind res_bind].
  destruct (Z.leb_spec (Z.of_nat (length content)) 27); [|lia].
  f_equal.
  change (Bytes.of_Z (Z.of_nat (length content)) :: content
          ++ Bytes.zeros (47 - length content))
    with ([Bytes.of_Z (Z.of_nat (length content))] ++ content
          ++ Bytes.zeros (47 - length content)).
  apply slice_middle; cbn [length]; lia.
Qed.

(** X17. On such a feed, after [add_apply] of a version of 32 bits of a file
    feed, [get_newest_apply] returns that version for the file feed. *)
Theorem get_newest_apply_after_add_apply (feed feed' : FEED)
  (file_fid key : bytes) (v_num : Z) (d d' : disk) :
  is_struct feed -> log_complete feed d -> front_seq feed + 1 < 2 ^ 32 ->
  0 <= v_num < 2 ^ 32 ->
  add_apply feed file_fid v_num key d = Ok (feed', d') ->
  get_newest_apply feed' file_fid d' = Ok (Some v_num).
Proof.
  intros Hstruct Hlog Hroom Hv Hadd. unfold add_apply, create_apply_pkt in Hadd.
  cbv zeta in Hadd. unfold len_is in Hadd.
  assert_case Hfid. assert_case Hvn. apply Nat.eqb_eq in Hfid.
  destruct (new_packet _ _ _ _ _ _) as [pkt| |] eqn:Hpkt; [|discriminate..].
  cbn [mbind res_bind] in Hadd.
  assert (Hfeed : feed' = (append_packet feed pkt d).1) by (now inversion Hadd).
  assert (Hdisk : d' = (append_packet feed pkt d).2) by (now inversion Hadd).
  clear Hadd. subst feed' d'.
  apply new_packet_wire_bytes in Hpkt
    as (Hpaylen & Htylen & _ & _ & _ & head & tail & Hhead & Hw).
  assert (Hpayload :
            Py.set_slice (Py.set_slice_to (Bytes.zeros 48) 32 file_fid) 32 36
              (Bytes.to_big 4 v_num)
            = file_fid ++ Bytes.to_big 4 v_num ++ Bytes.zeros 12).
  { replace (Bytes.zeros 48)
      with (Bytes.zeros 32 ++ Bytes.zeros 4 ++ Bytes.zeros 12)
      by (rewrite <- !zeros_add; reflexivity).
    rewrite set_slice_to_app by reflexivity.
    apply set_slice_middle; rewrite ?length_zeros, ?Hfid; reflexivity. }
  rewrite Hpayload in Hw.
  unfold get_newest_apply, range_down.
  pose proof (log_complete_append feed pkt d Hstruct Hlog Hroom) as [Hle' _].
  rewrite (front_seq_append feed pkt d Hstruct Hroom) in *.
  rewrite (anchor_seq_append feed pkt d) in *.
  pose proof Hlog as [Hle _].
  destruct (Z.to_nat (front_seq feed + 1 - anchor_seq feed)) as [|n] eqn:Hn; [lia|].
  cbn [List.seq map newest_apply_loop].
  change (Z.of_nat 0) with 0. rewrite Z.sub_0_r.
  rewrite get_wire_appended by assumption.
  cbn [mbind res_bind]. rewrite Hw.
  assert (Htype : Py.slice (head ++ type_byte APPLYUP
                            ++ (file_fid ++ Bytes.to_big 4 v_num ++ Bytes.zeros 12)
                            ++ tail) 15 16 = type_byte APPLYUP).
  { apply slice_middle; rewrite ?Hhead; reflexivity. }
  assert (Hfile : Py.slice (head ++ type_byte APPLYUP
                            ++ (file_fid ++ Bytes.to_big 4 v_num ++ Bytes.zeros 12)
                            ++ tail) 16 48 = file_fid).
  { rewrite (app_assoc head), <- !(app_assoc file_fid).
    apply slice_middle; rewrite ?length_app, ?Hhead, ?Hfid; reflexivity. }
  assert (Hversion : Py.slice (head ++ type_byte APPLYUP
                               ++ (file_fid ++ Bytes.to_big 4 v_num ++ Bytes.zeros 12)
                               ++ tail) 48 52 = Bytes.to_big 4 v_num).
  { rewrite (app_assoc head), <- !(app_assoc file_fid),
      (app_assoc (head ++ _) file_fid), <- !(app_assoc (Bytes.to_big 4 v_num)).
    apply slice_middle; rewrite ?length_app, ?Hhead, ?Hfid, ?length_to_big; reflexivity. }
  rewrite Htype, Hfile, Hversion.
  unfold Bytes.eqb. rewrite !bool_decide_eq_true_2 by reflexivity. cbn [andb].
  now rewrite from_big_to_big_32.
Qed.

(** X18. On such a feed, after the packet that [create_end_pkt] makes for
    the feed has been appended, [get_contn] returns the feed ID the packet
    names as the continuation. *)
Theorem get_contn_after_end_pkt (feed : FEED) (seq contn_fid key : bytes)
  (pkt : PACKET) (d : disk) :
  is_struct feed -> log_complete feed d -> front_seq feed + 1 < 2 ^ 32 ->
  create_end_pkt (fid feed) seq (front_mid feed) contn_fid key = Ok pkt ->
  get_contn (append_packet feed pkt d).1 (append_packet feed pkt d).2
  = Ok (Some contn_fid).
Proof.
  intros Hstruct Hlog Hroom Hend. unfold create_end_pkt in Hend. cbv zeta in Hend.
  apply new_packet_wire_bytes in Hend
    as (Hpaylen & Htylen & _ & _ & _ & head & tail & Hhead & Hw).
  assert (Hfid : length contn_fid = 32%nat).
  { revert Hpaylen. unfold Py.set_slice_to, Py.clamp.
    destruct (Z.ltb_spec 32 0); [lia|].
    rewrite length_app, length_drop, length_zeros. cbn. lia. }
  assert (Hpayload : Py.set_slice_to (Bytes.zeros 48) 32 contn_fid
                     = contn_fid ++ Bytes.zeros 16).
  { replace (Bytes.zeros 48) with (Bytes.zeros 32 ++ Bytes.zeros 16)
      by (rewrite <- !zeros_add; reflexivity).
    now apply set_slice_to_app. }
  rewrite Hpayload in Hw.
  unfold get_contn. rewrite front_seq_append by assumption.
  pose proof Hstruct as (_ & _ & _ & _ & _ & _ & Hf).
  destruct (Z.ltb_spec (front_seq feed + 1) 1); [lia|].
  rewrite get_wire_front by assumption.
  cbn [mbind res_bind]. rewrite Hw.
  assert (Htype : Py.slice (head ++ type_byte CONTDAS ++ (contn_fid ++ Bytes.zeros 16)
                            ++ tail) 15 16 = type_byte CONTDAS).
  { apply slice_middle; rewrite ?Hhead; reflexivity. }
  assert (Hcontn : Py.slice (head ++ type_byte CONTDAS ++ (contn_fid ++ Bytes.zeros 16)
                             ++ tail) 16 48 = contn_fid).
  { rewrite (app_assoc head), <- !(app_assoc contn_fid).
    apply slice_middle; rewrite ?length_app, ?Hhead, ?Hfid; reflexivity. }
  rewrite Htype, Hcontn. unfold Bytes.eqb.
  now rewrite bool_decide_eq_true_2 by reflexivity.
Qed.

(** X19. When hashes have 32 bytes, [get_next_dmx] of a feed is the
    demultiplexing field of the packet that [new_packet] makes for the place
    after the front of the feed. *)
Theorem get_next_dmx_is_dmx_of_next_packet (feed : FEED)
  (payload pkt_type key : bytes) (pkt : PACKET) :
  (forall msg, length (sha256 msg) = 32%nat) ->
  new_packet (fid feed) (Bytes.to_big 4 (front_seq feed + 1)) (front_mid feed)
    payload pkt_type key = Ok pkt ->
  dmx (wire pkt) = get_next_dmx feed.
Proof.
  intros Hsha Hnew.
  apply new_packet_spec in Hnew as (Hfid & Hseq & Hprev & _ & _ & _ & ->).
  cbn [wire dmx]. unfold get_next_dmx. cbv zeta.
  set (seq := Bytes.to_big 4 (front_seq feed + 1)) in *.
  assert (Hname : Py.set_slice
                    (Py.set_slice
                       (Py.set_slice (Py.set_slice_to (Bytes.zeros 64) 8 PKT_PREFIX)
                          8 40 (fid feed))
                       40 44 seq)
                    44 64 (front_mid feed)
                  = PKT_PREFIX ++ fid feed ++ seq ++ front_mid feed).
  { replace (Bytes.zeros 64)
      with (Bytes.zeros 8 ++ Bytes.zeros 32 ++ Bytes.zeros 4 ++ Bytes.zeros 20)
      by (rewrite <- !zeros_add; reflexivity).
    rewrite set_slice_to_app by reflexivity.
    rewrite (set_slice_middle PKT_PREFIX (Bytes.zeros 32))
      by (rewrite ?length_zeros; reflexivity).
    rewrite (app_assoc PKT_PREFIX (fid feed)).
    rewrite (set_slice_middle (PKT_PREFIX ++ fid feed) (Bytes.zeros 4))
      by (rewrite ?length_app, ?length_zeros, ?Hfid; reflexivity).
    rewrite (app_assoc (PKT_PREFIX ++ fid feed)).
    rewrite <- (app_nil_r (Bytes.zeros 20)).
    rewrite (set_slice_middle _ (Bytes.zeros 20) [])
      by (rewrite ?length_app, ?length_zeros, ?Hfid, ?Hseq; reflexivity).
    now rewrite app_nil_r, <- !app_assoc. }
  rewrite Hname. unfold dmx_of.
  apply fit_exact. change 7 with (Z.of_nat 7).
  unfold Py.slice_to. rewrite clamp_inside by (rewrite Hsha; lia).
  rewrite length_take, Hsha. reflexivity.
Qed.

(** X20. On such a parent feed, and for a child ID other than the parent's,
    [create_child_feed] adds the child to the children of the parent:
    [get_children] of the parent returns the children it had, then the ID of
    the child; the child names the parent and the parent's front, and holds
    one packet. *)
Theorem get_children_after_create_child_feed (parent_feed parent_feed' child_feed : FEED)
  (parent_key child_fid child_key : bytes) (d d' : disk) (children : list bytes) :
  is_struct parent_feed -> log_complete parent_feed d ->
  front_seq parent_feed + 1 < 2 ^ 32 ->
  child_fid <> fid parent_feed ->
  get_children parent_feed d = Ok children ->
  create_child_feed parent_feed parent_key child_fid child_key d
  = Ok (child_feed, parent_feed', d') ->
  get_children parent_feed' d' = Ok (children ++ [child_fid])
  /\ fid child_feed = child_fid
  /\ parent_fid child_feed = fid parent_feed
  /\ parent_seq child_feed = front_seq parent_feed
  /\ front_seq child_feed = 1.
Proof.
  intros Hstruct Hlog Hroom Hne Hchildren Hcreate.
  unfold create_child_feed in Hcreate.
  destruct (create_parent_pkt _ _ _ _ _) as [parent_pkt| |] eqn:Hppkt;
    [|discriminate..].
  cbn [mbind res_bind] in Hcreate.
  destruct (create_feed _ _ _ _ _ _) as [[child0 d1]| |] eqn:Hfeed;
    [|discriminate..].
  cbn [mbind res_bind] in Hcreate. cbv zeta in Hcreate.
  destruct (create_child_pkt _ _ _) as [child_pkt| |] eqn:Hcpkt; [|discriminate..].
  cbn [mbind res_bind] in Hcreate.
  destruct (append_packet child0 child_pkt d1) as [child d2] eqn:Hchild.
  destruct (append_packet parent_feed parent_pkt d2) as [parent2 d3] eqn:Hparent.
  injection Hcreate as <- <- <-.
  apply create_feed_returns in Hfeed as (Hcfid & _ & -> & ->).
  pose proof Hstruct as (_ & _ & _ & _ & _ & Hanchor & Hfront).
  (* the child *)
  assert (Hchild_is : child
                      = (append_packet
                           {| fid := child_fid; parent_fid := fid parent_feed;
                              parent_seq := u32 (front_seq parent_feed);
                              anchor_seq := u32 0;
                              anchor_mid := default (Py.slice_to child_fid 20) None;
                              front_seq := u32 0;
                              front_mid := fit 20 (Py.slice_to child_fid 20) |}
                           child_pkt
                           (save_header
                              {| fid := child_fid; parent_fid := fid parent_feed;
                                 parent_seq := u32 (front_seq parent_feed);
                                 anchor_seq := u32 0;
                                 anchor_mid := default (Py.slice_to child_fid 20) None;
                                 front_seq := u32 0;
                                 front_mid := fit 20 (Py.slice_to child_fid 20) |} d)).1)
    by now rewrite Hchild.
  assert (Hd2 : logs d2 !! fid parent_feed = logs d !! fid parent_feed).
  { replace d2 with (append_packet
                       {| fid := child_fid; parent_fid := fid parent_feed;
                          parent_seq := u32 (front_seq parent_feed);
                          anchor_seq := u32 0;
                          anchor_mid := default (Py.slice_to child_fid 20) None;
                          front_seq := u32 0;
                          front_mid := fit 20 (Py.slice_to child_fid 20) |}
                       child_pkt
                       (save_header
                          {| fid := child_fid; parent_fid := fid parent_feed;
                             parent_seq := u32 (front_seq parent_feed);
                             anchor_seq := u32 0;
                             anchor_mid := default (Py.slice_to child_fid 20) None;
                             front_seq := u32 0;
                             front_mid := fit 20 (Py.slice_to child_fid 20) |} d)).2
      by now rewrite Hchild.
    unfold append_packet, save_header. cbn.
    now rewrite lookup_insert_ne. }
  assert (Hlog2 : log_complete parent_feed d2).
  { destruct Hlog as [Hle Hlen]. split; [exact Hle|].
    unfold log_of in *. now rewrite Hd2. }
  replace parent2 with (append_packet parent_feed parent_pkt d2).1
    by now rewrite Hparent.
  replace d3 with (append_packet parent_feed parent_pkt d2).2 by now rewrite Hparent.
  split.
  - unfold get_children in *.
    rewrite front_seq_append by assumption. rewrite anchor_seq_append.
    destruct Hlog as [Hle _].
    rewrite range_snoc by lia. rewrite VersionManagerFacts.for_each_app.
    rewrite (for_each_ext _ (collect_child parent_feed d)).
    + rewrite Hchildren. cbn [mbind res_bind for_each].
      unfold collect_child. rewrite get_wire_appended by assumption.
      cbn [mbind res_bind].
      unfold create_parent_pkt in Hppkt. cbv zeta in Hppkt.
      apply new_packet_wire_bytes in Hppkt
        as (Hpaylen & _ & _ & _ & _ & head & tail & Hhead & Hw).
      assert (Hpayload : Py.set_slice_to (Bytes.zeros 48) 32 child_fid
                         = child_fid ++ Bytes.zeros 16).
      { replace (Bytes.zeros 48) with (Bytes.zeros 32 ++ Bytes.zeros 16)
          by (rewrite <- !zeros_add; reflexivity).
        now apply set_slice_to_app. }
      rewrite Hpayload in Hw. rewrite Hw.
      assert (Htype : Py.slice (head ++ type_byte MKCHILD
                                ++ (child_fid ++ Bytes.zeros 16) ++ tail) 15 16
                      = type_byte MKCHILD).
      { apply slice_middle; rewrite ?Hhead; reflexivity. }
      assert (Hfid : Py.slice (head ++ type_byte MKCHILD
                               ++ (child_fid ++ Bytes.zeros 16) ++ tail) 16 48
                     = child_fid).
      { rewrite (app_assoc head), <- !(app_assoc child_fid).
        apply slice_middle; rewrite ?length_app, ?Hhead, ?Hcfid; reflexivity. }
      rewrite Htype, Hfid. unfold Bytes.eqb.
      now rewrite bool_decide_eq_true_2 by reflexivity.
    + intros i Hi s. apply elem_of_range in Hi. unfold collect_child.
      rewrite get_wire_before by (assumption || lia).
      now rewrite (get_wire_same_log parent_feed i d2 d Hd2).
  - rewrite Hchild_is. unfold append_packet. cbn.
    repeat split.
    unfold u32. apply Z.mod_small. lia.
Qed.

End WithCrypto.

(** ** The scenarios *)

#[local] Ltac struct_by_computation :=
  unfold is_struct, log_complete; repeat apply conj; by_computation.

Import Scenario.

(** The scenario: the new feed of [new_feed]. *)
Lemma get_feed_after_new_feed :
  is_struct new_feed_state.1
  /\ fid new_feed_state.1 = key_1
  /\ front_seq new_feed_state.1 = anchor_seq new_feed_state.1
  /\ get_feed key_1 new_feed_state.2 = Ok new_feed_state.1.
Proof.
  apply (get_feed_after_create_feed key_1 0 None 0 (Bytes.zeros 32) empty_disk
           new_feed_state.2 new_feed_state.1).
  by_computation.
Defined.

(** The scenario: a second packet is appended to the feed with one plain
    packet. *)
Lemma append_packet_to_plain_feed :
  get_wire (append_packet plain_feed_state.1 after_ended_packet plain_feed_state.2).1
    (-1) (append_packet plain_feed_state.1 after_ended_packet plain_feed_state.2).2
  = Ok (wire_bytes (wire after_ended_packet)).
Proof.
  refine (proj1 (proj2 (proj2 (proj2
            (append_packet_appends plain_feed_state.1 after_ended_packet
               plain_feed_state.2 _ _ _))))); struct_by_computation.
Defined.

(** The scenario: the payload "hello" on the new feed. *)
Lemma get_payload_of_plain_feed :
  (length (Bytes.encode "hello") <= 48)%nat
  /\ get_payload 10 plain_feed_state.1 (-1) plain_feed_state.2
     = Ok (Bytes.encode "hello" ++ Bytes.zeros (48 - length (Bytes.encode "hello"))).
Proof.
  apply (@get_payload_after_append_bytes test_crypto 10 new_feed_state.1
           plain_feed_state.1 (Bytes.encode "hello") key_1 new_feed_state.2
           plain_feed_state.2);
    first [struct_by_computation | by_computation].
Defined.

(** The scenario: the content "hello" as a blob on the new feed. *)
Lemma get_payload_of_short_blob :
  get_payload 10 short_blob_state.1 (-1) short_blob_state.2
  = Ok (Bytes.encode "hello")
  /\ blobs short_blob_state.2 = blobs new_feed_state.2.
Proof.
  apply (@get_payload_after_short_append_blob test_crypto 10 new_feed_state.1
           short_blob_state.1 (Bytes.encode "hello") key_1 new_feed_state.2
           short_blob_state.2);
    first [struct_by_computation | by_computation | vm_compute; lia].
Defined.

(** The scenario: version 3 of the file feed [repeat x02 32] is applied. *)
Lemma get_newest_apply_of_apply_feed :
  get_newest_apply apply_feed_state.1 (repeat x02 32) apply_feed_state.2
  = Ok (Some 3).
Proof.
  apply (@get_newest_apply_after_add_apply test_crypto plain_feed_state.1
           apply_feed_state.1 (repeat x02 32) key_1 3 plain_feed_state.2
           apply_feed_state.2);
    first [lia | struct_by_computation | by_computation].
Defined.

(** The scenario: the new feed is ended with the continuation
    [repeat x02 32]. *)
Lemma get_contn_of_ended_feed :
  get_contn (append_packet new_feed_state.1 end_packet new_feed_state.2).1
    (append_packet new_feed_state.1 end_packet new_feed_state.2).2
  = Ok (Some (repeat x02 32)).
Proof.
  apply (@get_contn_after_end_pkt test_crypto new_feed_state.1 (Bytes.to_big 4 1)
           (repeat x02 32) key_1 end_packet new_feed_state.2);
    first [struct_by_computation | by_computation].
Defined.

(** The scenario: the packet signed for the place after the front of
    [ended_feed]. *)
Lemma get_next_dmx_of_ended_feed :
  dmx (wire after_ended_packet) = @get_next_dmx test_crypto ended_feed_state.1.
Proof.
  apply (@get_next_dmx_is_dmx_of_next_packet test_crypto ended_feed_state.1
           (Bytes.zeros 48) (type_byte PLAIN48) key_1 after_ended_packet).
  - intros msg. apply length_test_sha256.
  - by_computation.
Defined.

(** The scenario: the feed with one plain packet gets the child
    [repeat x02 32]. *)
Lemma get_children_of_parent_feed :
  get_children child_feed_state.1.2 child_feed_state.2 = Ok ([] ++ [repeat x02 32])
  /\ fid child_feed_state.1.1 = repeat x02 32
  /\ parent_fid child_feed_state.1.1 = fid plain_feed_state.1
  /\ parent_seq child_feed_state.1.1 = front_seq plain_feed_state.1
  /\ front_seq child_feed_state.1.1 = 1.
Proof.
  apply (@get_children_after_create_child_feed test_crypto plain_feed_state.1
           child_feed_state.1.2 child_feed_state.1.1 key_1 (repeat x02 32)
           (repeat x02 32) plain_feed_state.2 child_feed_state.2 []);
    first [struct_by_computation | by_computation].
Defined.

End StoreFacts.

(** ** The struct based feed store: packets offered to a replica *)

Module ReplicaFacts.
Import Packet Feed BytesFacts SliceFacts PyFacts FeedFacts PacketFacts StoreFacts.

Section WithCrypto.
Context `{Crypto}.

(** What [pkt_from_wire] makes of the bytes of a packet of [new_packet] when
    it is asked to check them under a sequence number [seq']: the signature
    is checked over the block of [seq']. *)
Lemma pkt_from_wire_under (fid seq seq' prev_mid payload pkt_type key : bytes)
  (pkt : PACKET) :
  new_packet fid seq prev_mid payload pkt_type key = Ok pkt ->
  length seq' = 4%nat ->
  let block := expanded PKT_PREFIX fid seq' prev_mid (dmx (wire pkt)) pkt_type
                 payload in
  pkt_from_wire fid seq' prev_mid (wire_bytes (wire pkt))
  = if negb PYCOM && negb (verify fid (signature (wire pkt)) block)
    then Ok None
    else Ok (Some {| wire := wire pkt; Packet.fid := fid; Packet.seq := seq';
                     Packet.prev_mid := prev_mid;
                     mid := fit 20 (Py.slice_to
                                      (sha256 (block ++ signature (wire pkt))) 20) |}).
Proof.
  intros Hnew Hseq'.
  apply new_packet_spec in Hnew
    as (Hfid & Hseq & Hprev & Hpay & Hty & Hkey & ->).
  cbn [wire dmx signature]. cbv zeta.
  unfold pkt_from_wire, len_is.
  rewrite length_wire_bytes, Hfid, Hseq', Hprev. cbn [Nat.eqb assert mbind res_bind].
  rewrite wire_struct_wire_bytes.
  cbn [reserved dmx type Packet.payload signature].
  rewrite (fit_exact 8 PKT_PREFIX) by reflexivity.
  rewrite (fit_exact 7 (dmx_of _ _ _)) by apply length_fit.
  rewrite (fit_exact 1 pkt_type), (fit_exact 48 payload), fit_fit by assumption.
  rewrite full_array_parts
    by (try assumption; try reflexivity; apply length_fit).
  set (block := expanded PKT_PREFIX fid seq' prev_mid (dmx_of fid seq prev_mid)
                  pkt_type payload) in *.
  assert (Hblock : length block = 120%nat)
    by (apply length_expanded; try assumption; try reflexivity; apply length_fit).
  rewrite slice_to_app by now rewrite Hblock.
  rewrite set_slice_from_app by now rewrite Hblock.
  now rewrite (fit_exact 32 fid), (fit_exact 4 seq'), (fit_exact 20 prev_mid)
    by assumption.
Qed.

(** C7 (defect).  The struct based [verify_and_append_bytes] does not check
    a packet under the sequence number [front_seq + 1].  Take the packet
    that [new_packet] makes for the place after the front of a feed, as
    [append_bytes] does, whose signature verifies over the block of
    [front_seq + 1] and not over the block of [front_seq]: [pkt_from_wire]
    accepts it under the feed ID, [front_seq + 1] and the front message ID,
    and yet [verify_and_append_bytes] returns without appending it; the feed
    and the files are as they were. *)
Theorem verify_and_append_bytes_rejects_next_packet (feed : FEED)
  (payload pkt_type key : bytes) (pkt : PACKET) (d : disk) :
  PYCOM = false ->
  0 <= front_seq feed -> front_seq feed + 1 < 2 ^ 32 ->
  new_packet (fid feed) (Bytes.to_big 4 (front_seq feed + 1)) (front_mid feed)
    payload pkt_type key = Ok pkt ->
  verify (fid feed) (signature (wire pkt))
    (expanded PKT_PREFIX (fid feed) (Bytes.to_big 4 (front_seq feed + 1))
       (front_mid feed) (dmx (wire pkt)) pkt_type payload) = true ->
  verify (fid feed) (signature (wire pkt))
    (expanded PKT_PREFIX (fid feed) (Bytes.to_big 4 (front_seq feed))
       (front_mid feed) (dmx (wire pkt)) pkt_type payload) = false ->
  (exists accepted : PACKET,
     pkt_from_wire (fid feed) (Bytes.to_big 4 (front_seq feed + 1))
       (front_mid feed) (wire_bytes (wire pkt)) = Ok (Some accepted)
     /\ wire accepted = wire pkt)
  /\ verify_and_append_bytes feed (wire_bytes (wire pkt)) d = Ok (feed, d).
Proof.
  intros Hpycom _ _ Hnew Hnext Hfront. split.
  - eexists. split.
    + rewrite (pkt_from_wire_under _ _ (Bytes.to_big 4 (front_seq feed + 1))
                 _ _ _ _ pkt Hnew) by apply length_to_big.
      rewrite Hnext, andb_false_r. reflexivity.
    + reflexivity.
  - unfold verify_and_append_bytes.
    rewrite (pkt_from_wire_under _ _ (Bytes.to_big 4 (front_seq feed))
               _ _ _ _ pkt Hnew) by apply length_to_big.
    now rewrite Hpycom, Hfront.
Qed.

End WithCrypto.

Import Scenario.

(** The packet [first_packet] is the one [append_bytes] appends to the new
    feed. *)
Lemma first_packet_is_appended :
  get_wire plain_feed_state.1 1 plain_feed_state.2
  = Ok (wire_bytes (wire first_packet)).
Proof. by_computation. Qed.

(** The scenario: a replica of the new feed is offered the first packet of
    the feed. *)
Lemma replica_rejects_first_packet_of_feed :
  (exists accepted : PACKET,
     @pkt_from_wire test_crypto (fid new_feed_state.1)
       (Bytes.to_big 4 (front_seq new_feed_state.1 + 1))
       (front_mid new_feed_state.1) (wire_bytes (wire first_packet))
     = Ok (Some accepted)
     /\ wire accepted = wire first_packet)
  /\ @verify_and_append_bytes test_crypto new_feed_state.1
       (wire_bytes (wire first_packet)) new_feed_state.2
     = Ok (new_feed_state.1, new_feed_state.2).
Proof.
  apply (@verify_and_append_bytes_rejects_next_packet test_crypto
           new_feed_state.1 (Bytes.encode "hello" ++ Bytes.zeros 43)
           (type_byte PLAIN48) key_1 first_packet new_feed_state.2);
    by_computation.
Defined.

End ReplicaFacts.

(** ** The class based blob chain *)

Module ChainFacts.
Import Deprecated BytesFacts SliceFacts PyFacts DeprecatedFacts CodecFacts.
Import PacketFacts.

(** The last hundred bytes, and the bytes before them. *)
Lemma slice_last_100 (front back : bytes) :
  length back = 100%nat ->
  Py.slice_from (front ++ back) (-100) = back
  /\ Py.slice_to (front ++ back) (-100) = front.
Proof.
  intros Hback. unfold Py.slice_from, Py.slice_to, Py.clamp.
  destruct (Z.ltb_spec (-100) 0); [|lia].
  rewrite length_app, Hback.
  replace (Z.to_nat (Z.max 0 (-100 + Z.of_nat (length front + 100))))
    with (length front) by lia.
  now rewrite drop_app_length, take_app_length.
Qed.

Section WithCrypto.
Context `{Crypto}.

(** The loop of [create_chain] makes a chain that [_verify_chain] follows
    back through the content. *)
Lemma chain_loop_verifies (n : nat) :
  forall (content ptr0 : bytes) (chain0 : list Blob) (fuel : nat),
  length content = (100 * n)%nat -> (n < fuel)%nat ->
  exists (chain : list Blob) (ptr : bytes),
    chain_loop fuel content ptr0 chain0 = Ok (chain0 ++ chain, ptr)
    /\ forall acc,
         verify_loop (rev (chain0 ++ chain)) ptr acc
         = verify_loop (rev chain0) ptr0 (acc ++ content).
Proof.
  induction n as [|n IH]; intros content ptr0 chain0 fuel Hlen Hfuel.
  - destruct content; [|discriminate].
    destruct fuel as [|fuel]; [lia|].
    exists [], ptr0. cbn [chain_loop length Nat.eqb negb]. rewrite !app_nil_r.
    split; [reflexivity|]. intros acc. now rewrite app_nil_r.
  - destruct fuel as [|fuel]; [lia|].
    assert (Hsplit : content = take (100 * n) content ++ drop (100 * n) content)
      by now rewrite take_drop.
    set (front := take (100 * n) content) in *.
    set (back := drop (100 * n) content) in *.
    assert (Hfront : length front = (100 * n)%nat)
      by (unfold front; rewrite length_take; lia).
    assert (Hback : length back = 100%nat)
      by (unfold back; rewrite length_drop; lia).
    cbn [chain_loop].
    destruct (length content =? 0)%nat eqn:Hzero;
      [apply Nat.eqb_eq in Hzero; lia|]. cbn [negb].
    rewrite Hsplit.
    destruct (slice_last_100 front back Hback) as [-> ->].
    destruct (IH front (blob_signature (new_Blob back ptr0))
                (chain0 ++ [new_Blob back ptr0]) fuel Hfront)
      as (chain & ptr & Hloop & Hverify); [lia|].
    exists (new_Blob back ptr0 :: chain), ptr. split.
    + rewrite Hloop. now rewrite <- app_assoc.
    + intros acc.
      replace (chain0 ++ new_Blob back ptr0 :: chain)
        with ((chain0 ++ [new_Blob back ptr0]) ++ chain)
        by now rewrite <- app_assoc.
      rewrite Hverify. rewrite rev_app_distr. cbn [rev app verify_loop].
      unfold Bytes.eqb. rewrite bool_decide_eq_true_2 by reflexivity.
      cbn [negb new_Blob Deprecated.ptr blob_payload]. now rewrite <- app_assoc.
Qed.

Lemma new_Packet_payload (fid seq prev_mid payload pkt_type : bytes)
  (skey : option bytes) (pkt : Packet) :
  new_Packet fid seq prev_mid payload pkt_type skey = Ok pkt ->
  length payload = 48%nat ->
  Deprecated.payload pkt = payload.
Proof.
  unfold new_Packet. intros Hnew Hlen.
  do 4 (match type of Hnew with
        | context [assert ?c] =>
            destruct c; cbn [assert mbind res_bind] in Hnew; [|discriminate]
        end).
  cbv zeta in Hnew.
  assert (Hlt : (length payload <? 48)%nat = false) by now rewrite Hlen.
  rewrite Hlt in Hnew. unfold len_is in Hnew. rewrite Hlen in Hnew.
  cbn [Nat.eqb assert mbind res_bind] in Hnew.
  destruct skey; now injection Hnew as <-.
Qed.

(** X21. The chain that [create_chain] makes of a content of less than 2^64
    bytes verifies: [_verify_chain], given the head packet and the blobs,
    follows every pointer and returns the content. *)
Theorem verify_chain_create_chain (fid seq prev_mid content skey : bytes)
  (pkt : Packet) (chain : list Blob) :
  Z.of_nat (length content) < 2 ^ 64 ->
  create_chain fid seq prev_mid content skey = Ok (pkt, chain) ->
  _verify_chain pkt chain = Ok (Some content).
Proof.
  intros Hsize Hcreate. unfold create_chain in Hcreate. cbv zeta in Hcreate.
  set (var := VarInt.to_var_int (Z.of_nat (length content))) in *.
  assert (Hvar : forall rest, VarInt.from_var_int (var ++ rest)
                              = Ok (Z.of_nat (length content), Z.of_nat (length var)))
    by (intros rest; apply from_var_int_to_var_int; lia).
  pose proof (length_to_var_int (Z.of_nat (length content))) as Hvar1.
  pose proof (length_to_var_int_le (Z.of_nat (length content))) as Hvar9.
  fold var in Hvar1, Hvar9.
  destruct (Z.geb_spec (28 - Z.of_nat (length (var ++ content))) 0) as [Hshort|Hlong].
  - (* the content fits the header *)
    cbn [mbind res_bind] in Hcreate.
    match type of Hcreate with
    | context [assert (len_is ?p 48)] => set (payload := p) in *
    end.
    unfold len_is in Hcreate.
    destruct (length payload =? 48)%nat eqn:Hlen; [|discriminate].
    apply Nat.eqb_eq in Hlen. cbn [assert mbind res_bind] in Hcreate.
    destruct (new_Packet _ _ _ _ _ _) as [p| |] eqn:Hpkt; [|discriminate..].
    cbn [mbind res_bind] in Hcreate. injection Hcreate as <- <-.
    apply new_Packet_payload in Hpkt; [|exact Hlen].
    unfold _verify_chain. rewrite Hpkt. unfold payload.
    rewrite <- !app_assoc, Hvar. cbn [mbind res_bind rev verify_loop fmap option_fmap option_map].
    set (fill := Bytes.zeros (Z.to_nat (28 - Z.of_nat (length (var ++ content))))).
    rewrite length_app in Hshort.
    assert (Hfill : (length var + length content + length fill = 28)%nat)
      by (unfold fill; rewrite length_zeros, length_app; lia).
    assert (Hmid : Py.slice (var ++ content ++ fill ++ Bytes.zeros 20)
                     (Z.of_nat (length var)) (-20) = content ++ fill).
    { unfold Py.slice, Py.clamp.
      destruct (Z.ltb_spec (Z.of_nat (length var)) 0); [lia|].
      destruct (Z.ltb_spec (-20) 0); [|lia].
      rewrite !length_app, length_zeros.
      rewrite Z.min_l by lia. rewrite Nat2Z.id, drop_app_length.
      replace (Z.to_nat (Z.max 0 (-20 + Z.of_nat (length var + (length content
                 + (length fill + 20))))) - length var)%nat
        with (length (content ++ fill)) by (rewrite length_app; lia).
      rewrite (app_assoc content). apply take_app_length. }
    rewrite Hmid. do 2 f_equal.
    apply slice_to_app. reflexivity.
  - (* the content needs blobs *)
    rewrite length_app in Hlong.
    set (rest := Py.slice_from (var ++ content) 28) in *.
    set (pad := Z.to_nat (100 - Z.of_nat (length rest) mod 100)) in *.
    assert (Hrest : rest = drop (28 - length var) content).
    { unfold rest, Py.slice_from.
      change 28 with (Z.of_nat 28).
      rewrite clamp_inside by (rewrite length_app; lia).
      rewrite drop_app_ge by lia. reflexivity. }
    assert (Hhead : Py.slice_to (var ++ content) 28
                    = var ++ take (28 - length var) content).
    { unfold Py.slice_to. change 28 with (Z.of_nat 28).
      rewrite clamp_inside by (rewrite length_app; lia).
      rewrite take_app_ge by lia. reflexivity. }
    pose proof (Z.mod_pos_bound (Z.of_nat (length rest)) 100 eq_refl) as Hmod.
    pose proof (Z.div_mod (Z.of_nat (length rest)) 100) as Hdiv.
    assert (Hpadded : length (rest ++ Bytes.zeros pad)
                      = (100 * (Z.to_nat (Z.of_nat (length rest) / 100) + 1))%nat).
    { rewrite length_app, length_zeros. unfold pad.
      assert (0 <= Z.of_nat (length rest) / 100) by (apply Z.div_pos; lia).
      lia. }
    destruct (chain_loop_verifies _ (rest ++ Bytes.zeros pad) (Bytes.zeros 20) []
                (S (length (rest ++ Bytes.zeros pad))) Hpadded)
      as (blobs & ptr & Hloop & Hverify); [lia|].
    rewrite Hloop in Hcreate. cbn [mbind res_bind app] in Hcreate.
    match type of Hcreate with
    | context [assert (len_is ?p 48)] => set (payload := p) in *
    end.
    unfold len_is in Hcreate.
    destruct (length payload =? 48)%nat eqn:Hlen; [|discriminate].
    apply Nat.eqb_eq in Hlen. cbn [assert mbind res_bind] in Hcreate.
    destruct (new_Packet _ _ _ _ _ _) as [p| |] eqn:Hpkt; [|discriminate..].
    cbn [mbind res_bind] in Hcreate. injection Hcreate as <- <-.
    apply new_Packet_payload in Hpkt; [|exact Hlen].
    unfold _verify_chain. rewrite Hpkt. unfold payload.
    rewrite Hhead, <- !app_assoc, Hvar. cbn [mbind res_bind].
    assert (Hptr : length ptr = 20%nat).
    { unfold payload in Hlen. rewrite Hhead, !length_app, length_take in Hlen. lia. }
    assert (Hmid : Py.slice (var ++ take (28 - length var) content ++ ptr)
                     (Z.of_nat (length var)) (-20)
                   = take (28 - length var) content).
    { unfold Py.slice, Py.clamp.
      destruct (Z.ltb_spec (Z.of_nat (length var)) 0); [lia|].
      destruct (Z.ltb_spec (-20) 0); [|lia].
      rewrite !length_app, length_take, Hptr.
      rewrite Z.min_l by lia. rewrite Nat2Z.id, drop_app_length.
      replace (Z.to_nat (Z.max 0 (-20 + Z.of_nat (length var
                 + ((28 - length var) `min` length content + 20)))) - length var)%nat
        with (length (take (28 - length var) content))
        by (rewrite length_take; lia).
      apply take_app_length. }
    assert (Hlast : Py.slice_from (var ++ take (28 - length var) content ++ ptr) (-20)
                    = ptr).
    { unfold Py.slice_from, Py.clamp.
      destruct (Z.ltb_spec (-20) 0); [|lia].
      rewrite !length_app, length_take, Hptr.
      rewrite (app_assoc var).
      replace (Z.to_nat (Z.max 0 (-20 + Z.of_nat (length var
                 + ((28 - length var) `min` length content + 20)))))
        with (length (var ++ take (28 - length var) content))
        by (rewrite length_app, length_take; lia).
      apply drop_app_length. }
    rewrite Hmid, Hlast.
    specialize (Hverify (take (28 - length var) content)).
    cbn [app rev] in Hverify. rewrite Hverify. cbn [verify_loop fmap option_fmap option_map].
    do 2 f_equal. rewrite Hrest, app_assoc, take_drop.
    apply slice_to_app. reflexivity.
Qed.

End WithCrypto.

(** The scenario: the chain of a content of 130 bytes. *)
Lemma verify_chain_of_130 :
  _verify_chain Scenario.chain_of_130.1 Scenario.chain_of_130.2
  = Ok (Some (Scenario.counting 130)).
Proof.
  apply (@verify_chain_create_chain Scenario.test_crypto Scenario.key_1
           (Bytes.to_big 4 1) (take 20 Scenario.key_1) (Scenario.counting 130)
           Scenario.key_1 Scenario.chain_of_130.1 Scenario.chain_of_130.2);
    by_computation.
Defined.

End ChainFacts.

(** ** The class based feed: the log file *)

Module LogFacts.
Import Deprecated BytesFacts SliceFacts PyFacts DeprecatedFacts PacketFacts
  StoreFacts.

(** A slice behind a prefix does not see the prefix. *)
Lemma slice_behind {A : Type} (a a' b : list A) (i j : Z) :
  length a = length a' -> Z.of_nat (length a) <= i <= j ->
  Py.slice (a ++ b) i j = Py.slice (a' ++ b) i j.
Proof.
  intros Hlen Hij. unfold Py.slice, Py.clamp.
  destruct (Z.ltb_spec i 0); [lia|]. destruct (Z.ltb_spec j 0); [lia|].
  rewrite !length_app, <- Hlen.
  set (n := (length a + length b)%nat).
  rewrite !(drop_app_ge a), !(drop_app_ge a') by lia.
  now rewrite <- Hlen.
Qed.

Lemma slice_take {A : Type} (l : list A) (n : nat) (i j : Z) :
  0 <= i <= j -> j <= Z.of_nat n -> (n <= length l)%nat ->
  Py.slice (take n l) i j = Py.slice l i j.
Proof.
  intros Hij Hj Hn.
  rewrite <- (take_drop n l) at 2.
  symmetry. apply slice_app_l; [lia|]. rewrite length_take. lia.
Qed.

Section WithCrypto.
Context `{Crypto}.

(** What [Packet(...)] returns when it is given a signing key. *)
Lemma new_Packet_signed (fid seq prev_mid payload pkt_type skey : bytes)
  (pkt : Packet) :
  new_Packet fid seq prev_mid payload pkt_type (Some skey) = Ok pkt ->
  let block_name := prefix ++ fid ++ seq ++ prev_mid in
  let dmx := Py.slice_to (sha256 block_name) 7 in
  let msg := block_name ++ dmx ++ pkt_type ++ pad48 payload in
  length fid = 32%nat /\ length seq = 4%nat /\ length prev_mid = 20%nat
  /\ length skey = 32%nat /\ (length payload <= 48)%nat
  /\ pkt = {| block_name := block_name; Deprecated.fid := fid;
              Deprecated.seq := seq; Deprecated.prev_mid := prev_mid;
              Deprecated.payload := pad48 payload;
              Deprecated.pkt_type := pkt_type; Deprecated.skey := Some skey;
              Deprecated.dmx := dmx;
              signature := Some (sign skey msg);
              mid := Some (Py.slice_to (sha256 (msg ++ sign skey msg)) 20);
              wire := Some (dmx ++ pkt_type ++ pad48 payload ++ sign skey msg) |}.
Proof.
  unfold new_Packet, len_is. intros Hnew.
  do 4 (match type of Hnew with
        | context [assert ?c] =>
            destruct c eqn:?; cbn [assert mbind res_bind] in Hnew; [|discriminate]
        end).
  cbv zeta in Hnew.
  assert (Hpad : (if (length payload <? 48)%nat
                  then payload ++ Bytes.zeros (48 - length payload) else payload)
                 = pad48 payload /\ (length payload <= 48)%nat).
  { unfold pad48. destruct (Nat.ltb_spec (length payload) 48) as [Hlt|Hge].
    - split; [reflexivity|lia].
    - destruct (length payload =? 48)%nat eqn:Hlen.
      + apply Nat.eqb_eq in Hlen. rewrite Hlen. cbn. rewrite app_nil_r. split; [reflexivity|lia].
      + exfalso. revert Hnew.
        destruct (Nat.ltb_spec (length payload) 48); [lia|].
        discriminate. }
  destruct Hpad as [Hpad Hle]. rewrite Hpad in Hnew.
  match type of Hnew with
  | context [assert ?c] =>
      destruct c eqn:?; cbn [assert mbind res_bind] in Hnew; [|discriminate]
  end.
  injection Hnew as <-. cbv zeta.
  repeat match goal with
         | Hx : (_ =? _)%nat = true |- _ => apply Nat.eqb_eq in Hx
         end.
  unfold expand. cbn [Deprecated.block_name Deprecated.dmx Deprecated.pkt_type
                      Deprecated.payload].
  now repeat split.
Qed.

Lemma length_pad48 (payload : bytes) :
  (length payload <= 48)%nat -> length (pad48 payload) = 48%nat.
Proof. intros Hle. unfold pad48. rewrite length_app, length_zeros. lia. Qed.

Lemma length_slice_to_sha (msg : bytes) (n : nat) :
  (forall m, length (sha256 m) = 32%nat) -> (n <= 32)%nat ->
  length (Py.slice_to (sha256 msg) (Z.of_nat n)) = n.
Proof. intros Hsha Hn. apply length_slice_to. rewrite Hsha. lia. Qed.

(** X22. A packet that [Packet] signs is accepted: when hashes have 32
    bytes, signatures have 64 bytes, a signature made with the key verifies
    under the feed ID and the packet type is one byte, [pkt_from_bytes]
    returns, from the wire bytes, the packet with the same fields,
    signature, message ID and wire bytes, and no signing key. *)
Theorem pkt_from_bytes_new_Packet (fid seq prev_mid payload pkt_type skey : bytes)
  (pkt : Packet) :
  (forall msg, length (sha256 msg) = 32%nat) ->
  (forall msg, length (sign skey msg) = 64%nat) ->
  (forall msg, verify fid (sign skey msg) msg = true) ->
  length pkt_type = 1%nat ->
  new_Packet fid seq prev_mid payload pkt_type (Some skey) = Ok pkt ->
  exists pkt_wire : bytes,
    wire pkt = Some pkt_wire
    /\ pkt_from_bytes fid seq prev_mid pkt_wire
       = Ok (Some {| block_name := block_name pkt; Deprecated.fid := fid;
                     Deprecated.seq := seq; Deprecated.prev_mid := prev_mid;
                     Deprecated.payload := Deprecated.payload pkt;
                     Deprecated.pkt_type := pkt_type; Deprecated.skey := None;
                     Deprecated.dmx := dmx pkt; signature := signature pkt;
                     mid := mid pkt; wire := wire pkt |}).
Proof.
  intros Hsha Hsig Hverify Hty Hnew.
  pose proof Hnew as Hnew0.
  apply new_Packet_signed in Hnew as (Hfid & Hseq & Hprev & Hskey & Hle & ->).
  cbn [wire block_name Deprecated.payload dmx signature mid].
  set (bn := prefix ++ fid ++ seq ++ prev_mid) in *.
  set (d := Py.slice_to (sha256 bn) 7) in *.
  set (msg := bn ++ d ++ pkt_type ++ pad48 payload) in *.
  assert (Hd : length d = 7%nat) by (apply (length_slice_to_sha bn 7); [assumption|lia]).
  pose proof (length_pad48 payload Hle) as Hpad.
  eexists. split; [reflexivity|].
  unfold pkt_from_bytes, len_is.
  rewrite !length_app, Hd, Hty, Hpad, Hsig. cbn [Nat.add Nat.eqb assert mbind res_bind].
  assert (Htype : Py.slice (d ++ pkt_type ++ pad48 payload ++ sign skey msg) 7 8
                  = pkt_type).
  { apply slice_middle; rewrite ?Hd, ?Hty; reflexivity. }
  assert (Hpayload : Py.slice (d ++ pkt_type ++ pad48 payload ++ sign skey msg) 8 56
                     = pad48 payload).
  { rewrite (app_assoc d).
    apply slice_middle; rewrite ?length_app, ?Hd, ?Hty, ?Hpad; reflexivity. }
  assert (Hsignature : Py.slice_from (d ++ pkt_type ++ pad48 payload ++ sign skey msg) 56
                       = sign skey msg).
  { rewrite (app_assoc d), (app_assoc (d ++ pkt_type)).
    apply slice_from_app. rewrite !length_app, Hd, Hty, Hpad. reflexivity. }
  rewrite Htype, Hpayload, Hsignature.
  unfold new_Packet, len_is. rewrite Hfid, Hseq, Hprev, Hpad.
  cbn [Nat.eqb Nat.ltb Nat.leb assert mbind res_bind].
  change (48 <? 48)%nat with false. cbv zeta. rewrite Hpad.
  cbn [Nat.eqb assert mbind res_bind].
  unfold expand. cbn [block_name dmx Deprecated.pkt_type Deprecated.payload
                      Deprecated.fid Deprecated.seq Deprecated.prev_mid].
  fold bn. fold d. fold msg. now rewrite Hverify.
Qed.

End WithCrypto.

(** What [append_pkt] did when it returned [True]. *)
Lemma append_pkt_true (self self' : Feed) (pkt : Packet) (d d' : disk) :
  append_pkt self pkt d = Ok (true, self', d') ->
  exists (w m content : bytes),
    wire pkt = Some w /\ mid pkt = Some m
    /\ length w = 120%nat /\ length m = 20%nat
    /\ files d !! file_name self = Some content
    /\ has_ended self d = Ok false
    /\ self' = with_front self (front_seq self + 1) m
    /\ let log := content ++ Bytes.zeros 8 ++ w in
       let updated :=
         Py.slice_to log 104 ++ (Bytes.to_big 4 (front_seq self + 1) ++ m)
         ++ Py.slice_from log 128 in
       d' = {| files := <[file_name self :=
                           Py.set_slice_to log (Z.of_nat (length updated)) updated]>
                         (files d);
               blobs := blobs d |}.
Proof.
  unfold append_pkt. intros Happend.
  destruct (has_ended self d) as [[|]| |] eqn:Hended;
    cbn [mbind res_bind] in Happend; [discriminate| |discriminate..].
  destruct (wire pkt) as [w|]; [|discriminate].
  destruct (mid pkt) as [m|]; [|discriminate].
  unfold len_is in Happend.
  destruct (length (Bytes.zeros 8 ++ w) =? 128)%nat eqn:Hw; [|discriminate].
  apply Nat.eqb_eq in Hw. rewrite length_app, length_zeros in Hw.
  cbn [assert mbind res_bind] in Happend.
  destruct (files d !! file_name self) as [content|] eqn:Hfile; [|discriminate].
  unfold _update_header, len_is in Happend.
  cbn [with_front front_seq front_mid file_name files] in Happend.
  destruct (length (Bytes.to_big 4 (front_seq self + 1) ++ m) =? 24)%nat eqn:Hm;
    [|discriminate].
  apply Nat.eqb_eq in Hm. rewrite length_app, length_to_big in Hm.
  cbn [assert mbind res_bind] in Happend.
  rewrite lookup_insert_eq in Happend. cbn [mbind res_bind] in Happend.
  injection Happend as <- <-.
  exists w, m, content. cbv zeta. rewrite insert_insert_eq.
  repeat split; try reflexivity; lia.
Qed.

Section Appended.
Variables (self self' : Feed) (pkt : Packet) (d d' : disk) (w m content : bytes).
Hypothesis Hanchor : 0 <= anchor_seq self.
Hypothesis Hfront : anchor_seq self <= front_seq self.
Hypothesis Hfile : files d !! file_name self = Some content.
Hypothesis Hlen : Z.of_nat (length content) = 128 * (1 + front_seq self - anchor_seq self).
Hypothesis Hw : length w = 120%nat.
Hypothesis Hm : length m = 20%nat.
Hypothesis Hself : self' = with_front self (front_seq self + 1) m.
Hypothesis Hd :
  let log := content ++ Bytes.zeros 8 ++ w in
  let updated :=
    Py.slice_to log 104 ++ (Bytes.to_big 4 (front_seq self + 1) ++ m)
    ++ Py.slice_from log 128 in
  d' = {| files := <[file_name self :=
                      Py.set_slice_to log (Z.of_nat (length updated)) updated]>
                    (files d);
          blobs := blobs d |}.

#[local] Abbreviation new_header :=
  (header_with_front content (front_seq self + 1) m).

Lemma length_new_header : length new_header = 128%nat.
Proof.
  unfold header_with_front. rewrite !length_app, length_take, length_to_big, Hm. lia.
Qed.

Lemma file_appended :
  files d' !! file_name self
  = Some (new_header ++ drop 128 content ++ Bytes.zeros 8 ++ w).
Proof.
  rewrite Hd. cbv zeta. cbn [files]. rewrite lookup_insert_eq. f_equal.
  assert (Hhead : Py.slice_to (content ++ Bytes.zeros 8 ++ w) 104 = take 104 content).
  { unfold Py.slice_to. change 104 with (Z.of_nat 104).
    rewrite clamp_inside by (rewrite length_app; lia).
    apply take_app_le. lia. }
  assert (Htail : Py.slice_from (content ++ Bytes.zeros 8 ++ w) 128
                  = drop 128 content ++ Bytes.zeros 8 ++ w).
  { unfold Py.slice_from. change 128 with (Z.of_nat 128).
    rewrite clamp_inside by (rewrite length_app; lia).
    apply drop_app_le. lia. }
  rewrite Hhead, Htail.
  rewrite set_slice_to_all.
  - unfold header_with_front. now rewrite <- !app_assoc.
  - rewrite !length_app, length_take, length_to_big, Hm, length_drop,
      length_zeros, Hw. lia.
Qed.

Lemma log_complete_appended : log_complete self' d'.
Proof.
  split.
  - rewrite Hself. cbn. lia.
  - eexists. rewrite Hself at 1. cbn [with_front file_name].
    split; [apply file_appended|].
    rewrite Hself. cbn [with_front front_seq anchor_seq].
    rewrite !length_app, length_new_header, length_drop, length_zeros, Hw. lia.
Qed.

Lemma get_wire_file (f : Feed) (dd : disk) (file : bytes) (i : Z) :
  0 <= anchor_seq f -> anchor_seq f < i <= front_seq f ->
  files dd !! file_name f = Some file ->
  get_wire f i dd
  = Ok (Py.slice_from
          (Py.slice file (128 * (i - anchor_seq f)) (128 * (i - anchor_seq f) + 128))
          8).
Proof.
  intros Ha Hi Hf. unfold get_wire. cbv zeta.
  destruct (Z.ltb_spec i 0); [lia|].
  destruct (Z.gtb_spec i (front_seq f)); [lia|].
  destruct (Z.leb_spec i (anchor_seq f)); [lia|]. cbn [orb].
  now rewrite Hf.
Qed.

Lemma file_wire_appended : get_wire self' (front_seq self + 1) d' = Ok w.
Proof.
  rewrite (get_wire_file self' d' (new_header ++ drop 128 content ++ Bytes.zeros 8 ++ w)
             (front_seq self + 1)).
  - f_equal. rewrite Hself. cbn [with_front anchor_seq].
    rewrite (app_assoc new_header).
    rewrite <- (app_nil_r (Bytes.zeros 8 ++ w)).
    rewrite (slice_middle _ (Bytes.zeros 8 ++ w) []).
    + now apply slice_from_app.
    + rewrite length_app, length_new_header, length_drop. lia.
    + rewrite !length_app, length_new_header, length_drop, length_zeros, Hw. lia.
  - rewrite Hself. exact Hanchor.
  - rewrite Hself. cbn. lia.
  - rewrite Hself. cbn [with_front file_name]. apply file_appended.
Qed.

Lemma file_wire_front : get_wire self' (-1) d' = Ok w.
Proof.
  rewrite <- file_wire_appended. unfold get_wire. cbv zeta.
  destruct (Z.ltb_spec (-1) 0); [|lia].
  destruct (Z.ltb_spec (front_seq self + 1) 0); [lia|].
  rewrite Hself. cbn [with_front front_seq anchor_seq file_name].
  now replace (front_seq self + 1 + -1 + 1) with (front_seq self + 1) by lia.
Qed.

Lemma file_wire_before (i : Z) :
  anchor_seq self < i <= front_seq self ->
  get_wire self' i d' = get_wire self i d.
Proof.
  intros Hi.
  rewrite (get_wire_file self d content) by assumption.
  rewrite (get_wire_file self' d' (new_header ++ drop 128 content ++ Bytes.zeros 8 ++ w)).
  - do 2 f_equal. rewrite Hself. cbn [with_front anchor_seq].
    rewrite (app_assoc new_header).
    rewrite slice_app_l
      by (rewrite ?length_app, ?length_new_header, ?length_drop; lia).
    rewrite <- (take_drop 128 content) at 3.
    apply slice_behind.
    + rewrite length_new_header, length_take. lia.
    + rewrite length_new_header. lia.
  - rewrite Hself. exact Hanchor.
  - rewrite Hself. cbn. lia.
  - rewrite Hself. cbn [with_front file_name]. apply file_appended.
Qed.

(** Opening the log file again gives the feed as the append left it. *)
Lemma open_Feed_appended :
  front_seq self + 1 < 2 ^ 32 ->
  open_Feed (file_name self) (feed_skey self) d = Ok self ->
  open_Feed (file_name self) (feed_skey self) d' = Ok self'.
Proof.
  intros Hroom. unfold open_Feed. rewrite Hfile, file_appended.
  intros Hopen. injection Hopen as Hopen.
  assert (Hheader : Py.slice_to content 128 = take 128 content).
  { unfold Py.slice_to. change 128 with (Z.of_nat 128).
    rewrite clamp_inside by lia. reflexivity. }
  assert (Hheader' : Py.slice_to (new_header ++ drop 128 content
                                  ++ Bytes.zeros 8 ++ w) 128 = new_header).
  { apply slice_to_app. now rewrite length_new_header. }
  rewrite Hheader in Hopen. rewrite Hheader'.
  assert (Hold : forall i j, 0 <= i <= j -> j <= 104 ->
            Py.slice new_header i j = Py.slice (take 128 content) i j).
  { intros i j Hij Hj. unfold header_with_front.
    rewrite slice_app_l by (rewrite ?length_take; lia).
    rewrite !slice_take by lia. reflexivity. }
  assert (Hfields : feed_fid self = Py.slice (take 128 content) 12 44
                    /\ parent_id self = Py.slice (take 128 content) 44 76
                    /\ parent_seq self
                       = Bytes.from_big (Py.slice (take 128 content) 76 80)
                    /\ anchor_seq self
                       = Bytes.from_big (Py.slice (take 128 content) 80 84)
                    /\ anchor_mid self = Py.slice (take 128 content) 84 104)
    by (rewrite <- Hopen; now repeat split).
  destruct Hfields as (Hfid & Hpid & Hpseq & Haseq & Hamid).
  rewrite Hself. unfold with_front. rewrite !Hold by lia.
  rewrite <- Hfid, <- Hpid, <- Hpseq, <- Haseq, <- Hamid.
  do 2 f_equal.
  - unfold header_with_front.
    rewrite (slice_middle (take 104 content) (Bytes.to_big 4 (front_seq self + 1)) m)
      by (rewrite ?length_take, ?length_to_big; lia).
    apply from_big_to_big_32. lia.
  - unfold header_with_front. rewrite (app_assoc (take 104 content)).
    apply slice_app_r; rewrite ?length_app, ?length_take, ?length_to_big, ?Hm; lia.
Qed.

End Appended.

Section Theorems.
Context `{Crypto}.

(** X23. The log file is append-only: on a feed whose anchor is not
    negative, whose log file holds the header and one packet of 128 bytes
    for every sequence number after the anchor, and whose front can move by
    one within 32 bits (hashes have 32 bytes), after [append_bytes] has
    appended a payload, [self[-1]] is the payload filled up to 48 bytes, the
    front has moved by one, the log file is complete again, and every packet
    that was there is read as before. *)
Theorem getitem_after_append_bytes (fuel : nat) (self self' : Feed)
  (payload : bytes) (d d' : disk) :
  (forall msg, length (sha256 msg) = 32%nat) ->
  0 <= anchor_seq self -> log_complete self d ->
  front_seq self + 1 < 2 ^ 32 ->
  append_bytes self payload d = Ok (true, self', d') ->
  getitem fuel self' (-1) d' = Ok (pad48 payload)
  /\ front_seq self' = front_seq self + 1
  /\ log_complete self' d'
  /\ forall i, anchor_seq self < i <= front_seq self ->
       get_wire self' i d' = get_wire self i d.
Proof.
  intros Hsha Hanchor [Hfront (content & Hfile & Hlen)] _ Happend.
  unfold append_bytes in Happend.
  destruct (feed_skey self) as [skey|]; [|discriminate].
  destruct (new_Packet _ _ _ _ _ _) as [pkt| |] eqn:Hpkt; [|discriminate..].
  cbn [mbind res_bind] in Happend.
  apply append_pkt_true in Happend
    as (w & m & content' & Hwire & Hmid & Hw & Hm & Hfile' & _ & Hself & Hd).
  rewrite Hfile in Hfile'. injection Hfile' as <-.
  apply new_Packet_signed in Hpkt as (_ & _ & _ & _ & Hle & ->).
  unfold wire in Hwire. apply (inj Some) in Hwire.
  split; [|split; [|split]].
  - unfold getitem.
    rewrite (file_wire_front self self' d d' w m content) by assumption.
    cbn [mbind res_bind]. rewrite <- Hwire.
    set (dmx := Py.slice_to (sha256 (prefix ++ feed_fid self
                 ++ Bytes.to_big 4 (front_seq self + 1) ++ front_mid self)) 7).
    assert (Hdmx : length dmx = 7%nat)
      by (apply (length_slice_to_sha _ 7); [assumption|lia]).
    pose proof (length_pad48 payload Hle) as Hpad.
    rewrite (slice_middle dmx plain48) by (rewrite ?Hdmx; reflexivity).
    change (Bytes.eqb plain48 chain20) with false. cbn [negb].
    f_equal. rewrite (app_assoc dmx).
    apply slice_middle; rewrite ?length_app, ?Hdmx, ?Hpad; reflexivity.
  - now rewrite Hself.
  - now apply (log_complete_appended self self' d d' w m content).
  - intros i Hi. now apply (file_wire_before self self' d d' w m content).
Qed.

(** X24. The header of the log file follows the feed: after [append_pkt]
    has appended a packet to a feed that was opened from its complete log
    file (the front can move by one within 32 bits), opening the file again
    gives the feed as the call left it. *)
Theorem open_Feed_after_append_pkt (self self' : Feed) (pkt : Packet) (d d' : disk) :
  open_Feed (file_name self) (feed_skey self) d = Ok self ->
  log_complete self d -> front_seq self + 1 < 2 ^ 32 ->
  append_pkt self pkt d = Ok (true, self', d') ->
  open_Feed (file_name self) (feed_skey self) d' = Ok self'.
Proof.
  intros Hopen [Hfront (content & Hfile & Hlen)] Hroom Happend.
  apply append_pkt_true in Happend
    as (w & m & content' & Hwire & Hmid & Hw & Hm & Hfile' & _ & Hself & Hd).
  rewrite Hfile in Hfile'. injection Hfile' as <-.
  apply (open_Feed_appended self self' d d' w m content); try assumption.
  pose proof Hopen as Hopen'. unfold open_Feed in Hopen'. rewrite Hfile in Hopen'.
  injection Hopen' as <-. cbn [anchor_seq].
  apply VersionManagerFacts.from_big_nonneg.
Qed.

(** X25. An ended feed stays ended: on such a feed (anchor not negative,
    complete log file, room for one more sequence number, hashes of 32
    bytes), after the packet that [create_end_pkt] makes for a continuation
    ID of 32 bytes has been appended, [has_ended] returns [True],
    [get_contn] returns the feed ID the packet names, and [append_pkt] of
    any packet returns [False] and changes neither the feed nor the
    files. *)
Theorem append_pkt_after_end_pkt (self self' : Feed) (seq contn_fid skey : bytes)
  (pkt : Packet) (d d' : disk) :
  (forall msg, length (sha256 msg) = 32%nat) ->
  0 <= anchor_seq self -> log_complete self d ->
  front_seq self + 1 < 2 ^ 32 ->
  length contn_fid = 32%nat ->
  create_end_pkt (feed_fid self) seq (front_mid self) contn_fid skey = Ok pkt ->
  append_pkt self pkt d = Ok (true, self', d') ->
  has_ended self' d' = Ok true
  /\ get_contn self' d' = Ok (Some contn_fid)
  /\ forall pkt2, append_pkt self' pkt2 d' = Ok (false, self', d').
Proof.
  intros Hsha Hanchor [Hfront (content & Hfile & Hlen)] _ Hcontn Hpkt Happend.
  apply append_pkt_true in Happend
    as (w & m & content' & Hwire & Hmid & Hw & Hm & Hfile' & _ & Hself & Hd).
  rewrite Hfile in Hfile'. injection Hfile' as <-.
  unfold create_end_pkt in Hpkt.
  apply new_Packet_signed in Hpkt as (_ & _ & _ & _ & Hle & ->).
  unfold wire in Hwire. apply (inj Some) in Hwire.
  set (dmx := Py.slice_to (sha256 (prefix ++ feed_fid self ++ seq
                                   ++ front_mid self)) 7) in *.
  assert (Hdmx : length dmx = 7%nat)
    by (apply (length_slice_to_sha _ 7); [assumption|lia]).
  pose proof (length_pad48 contn_fid Hle) as Hpad.
  assert (Htype : Py.slice w 7 8 = contdas).
  { rewrite <- Hwire. apply slice_middle; rewrite ?Hdmx; reflexivity. }
  assert (Hfid : Py.slice w 8 40 = contn_fid).
  { rewrite <- Hwire. unfold pad48. rewrite (app_assoc dmx), <- !(app_assoc contn_fid).
    apply slice_middle; rewrite ?length_app, ?Hdmx, ?Hcontn; reflexivity. }
  assert (Hfront' : front_seq self' = front_seq self + 1) by now rewrite Hself.
  assert (Hended : has_ended self' d' = Ok true).
  { unfold has_ended, get_type. rewrite Hfront'.
    destruct (Z.ltb_spec (front_seq self + 1) 1); [lia|].
    rewrite (file_wire_front self self' d d' w m content) by assumption.
    cbn [mbind res_bind]. rewrite Htype.
    change (is_type contdas) with true. cbn [mbind res_bind].
    now rewrite bool_decide_eq_true_2. }
  split; [exact Hended|]. split.
  - unfold get_contn, len. rewrite Hfront'.
    destruct (Z.ltb_spec (front_seq self + 1) 1); [lia|].
    rewrite (file_wire_front self self' d d' w m content) by assumption.
    cbn [mbind res_bind]. rewrite Htype, Hfid.
    unfold Bytes.eqb. now rewrite bool_decide_eq_true_2 by reflexivity.
  - intros pkt2. unfold append_pkt. now rewrite Hended.
Qed.

End Theorems.

(** ** The scenarios *)

Import Scenario.

(** The log file of [log_feed] holds its header and no packet. *)
Lemma log_complete_log_feed : log_complete log_feed log_disk.
Proof.
  split; [by_computation|].
  eexists. split; [vm_compute; reflexivity|by_computation].
Qed.

(** The scenario: the packet signed for the first place of [log_feed]. *)
Lemma pkt_from_bytes_first_signed :
  exists pkt_wire : bytes,
    wire first_signed = Some pkt_wire
    /\ @pkt_from_bytes test_crypto key_1 (Bytes.to_big 4 1) (take 20 key_1) pkt_wire
       = Ok (Some {| block_name := block_name first_signed;
                     Deprecated.fid := key_1;
                     Deprecated.seq := Bytes.to_big 4 1;
                     Deprecated.prev_mid := take 20 key_1;
                     Deprecated.payload := Deprecated.payload first_signed;
                     Deprecated.pkt_type := plain48; Deprecated.skey := None;
                     Deprecated.dmx := dmx first_signed;
                     signature := signature first_signed;
                     mid := mid first_signed; wire := wire first_signed |}).
Proof.
  apply (@pkt_from_bytes_new_Packet test_crypto key_1 (Bytes.to_big 4 1)
           (take 20 key_1) (Bytes.encode "x") plain48 key_1 first_signed).
  - intros msg. apply length_test_sha256.
  - intros msg. apply length_test_sign.
  - intros msg. apply test_verify_sign.
  - reflexivity.
  - by_computation.
Defined.

(** The scenario: the payload "x" is appended to [log_feed]. *)
Lemma getitem_of_plain_log :
  getitem 10 plain_log_state.1.2 (-1) plain_log_state.2
  = Ok (pad48 (Bytes.encode "x")).
Proof.
  refine (proj1 (@getitem_after_append_bytes test_crypto 10 log_feed
                   plain_log_state.1.2 (Bytes.encode "x") log_disk
                   plain_log_state.2 _ _ _ _ _)).
  - intros msg. apply length_test_sha256.
  - by_computation.
  - exact log_complete_log_feed.
  - by_computation.
  - by_computation.
Defined.

(** The scenario: the log file of [log_feed] is opened again after the first
    packet has been appended. *)
Lemma open_Feed_of_plain_log :
  open_Feed (file_name log_feed) (feed_skey log_feed) plain_log_state.2
  = Ok plain_log_state.1.2.
Proof.
  apply (open_Feed_after_append_pkt log_feed plain_log_state.1.2 first_signed
           log_disk plain_log_state.2).
  - by_computation.
  - exact log_complete_log_feed.
  - by_computation.
  - by_computation.
Defined.

(** The scenario: [log_feed] is ended with the continuation
    [repeat x02 32]. *)
Lemma has_ended_of_ended_log :
  has_ended ended_log_state.1.2 ended_log_state.2 = Ok true.
Proof.
  refine (proj1 (@append_pkt_after_end_pkt test_crypto log_feed
                   ended_log_state.1.2 (Bytes.to_big 4 1) (repeat x02 32) key_1
                   end_Packet log_disk ended_log_state.2 _ _ _ _ _ _ _)).
  - intros msg. apply length_test_sha256.
  - by_computation.
  - exact log_complete_log_feed.
  - by_computation.
  - reflexivity.
  - by_computation.
  - by_computation.
Defined.

End LogFacts.

(** ** The class based feed: waiting for blobs *)

Module BlobFacts.
Import Deprecated BytesFacts SliceFacts PyFacts DeprecatedFacts PacketFacts
  StoreFacts LogFacts.

(** When the loop of [waiting_for_blob] finds nothing missing, the loop of
    [__getitem__] reads the chain to its end. *)
Lemma unwrap_chain_when_not_waiting (fuel : nat) (d : disk) (ptr : bytes) :
  waiting_loop fuel d ptr = Ok None ->
  forall content, exists content', unwrap_chain fuel d content ptr = Ok content'.
Proof.
  revert ptr. induction fuel as [|fuel IH]; intros ptr; [discriminate|].
  cbn [waiting_loop unwrap_chain].
  destruct (negb (Bytes.eqb ptr (Bytes.zeros 20))).
  - destruct (_get_blob ptr d) as [blob|]; [|discriminate].
    intros Hwait content. now apply IH.
  - intros _ content. now exists content.
Qed.

(** The pointer [waiting_for_blob] returns names no blob file. *)
Lemma waiting_loop_missing (fuel : nat) (d : disk) (ptr missing : bytes) :
  waiting_loop fuel d ptr = Ok (Some missing) -> blobs d !! missing = None.
Proof.
  revert ptr. induction fuel as [|fuel IH]; intros ptr; [discriminate|].
  cbn [waiting_loop].
  destruct (negb (Bytes.eqb ptr (Bytes.zeros 20))); [|discriminate].
  unfold _get_blob.
  destruct (blobs d !! ptr) as [content|] eqn:Hptr; cbn [mbind option_bind].
  - apply IH.
  - now intros [= <-].
Qed.

Lemma waiting_for_blob_missing (fuel : nat) (self : Feed) (d : disk)
  (missing : bytes) :
  waiting_for_blob fuel self d = Ok (Some missing) -> blobs d !! missing = None.
Proof.
  unfold waiting_for_blob.
  destruct (len self <? 1); [discriminate|].
  destruct (get_wire self (-1) d) as [wire| |]; cbn [mbind res_bind]; [|discriminate..].
  destruct (negb (Bytes.eqb (Py.slice wire 7 8) chain20)); [discriminate|].
  cbv zeta. destruct (Bytes.eqb (Py.slice wire 36 56) (Bytes.zeros 20)); [discriminate|].
  apply waiting_loop_missing.
Qed.

Lemma payload_pointer (wire : bytes) :
  length wire = 120%nat ->
  Py.slice_from (Py.slice wire 8 56) (-20) = Py.slice wire 36 56.
Proof.
  intros Hlen.
  pose (a := take 8 wire). pose (b := take 28 (drop 8 wire)).
  pose (c := take 20 (drop 36 wire)). pose (r := drop 56 wire).
  assert (Hw : wire = a ++ b ++ c ++ r).
  { unfold a, b, c, r.
    rewrite <- (take_drop 8 wire) at 1. f_equal.
    rewrite <- (take_drop 28 (drop 8 wire)) at 1. f_equal.
    rewrite drop_drop. change (8 + 28)%nat with 36%nat.
    rewrite <- (take_drop 20 (drop 36 wire)) at 1. f_equal.
    now rewrite drop_drop. }
  assert (Ha : length a = 8%nat) by (unfold a; rewrite length_take; lia).
  assert (Hb : length b = 28%nat)
    by (unfold b; rewrite length_take, length_drop; lia).
  assert (Hc : length c = 20%nat)
    by (unfold c; rewrite length_take, length_drop; lia).
  rewrite Hw.
  rewrite (app_assoc b c r), (slice_middle a (b ++ c) r)
    by (rewrite ?length_app, ?Ha, ?Hb, ?Hc; reflexivity).
  rewrite <- (app_assoc b c r), (app_assoc a b (c ++ r)).
  rewrite (slice_middle (a ++ b) c r)
    by (rewrite ?length_app, ?Ha, ?Hb, ?Hc; reflexivity).
  unfold Py.slice_from, Py.clamp. destruct (Z.ltb_spec (-20) 0); [|lia].
  rewrite length_app, Hb, Hc.
  match goal with
  | |- drop ?n _ = _ => replace n with (length b) by (rewrite Hb; reflexivity)
  end.
  apply drop_app_length.
Qed.

(** X26. When the feed holds a packet, its front packet has 120 bytes and a
    payload that starts with a variable-length integer, and
    [waiting_for_blob] reports that no blob of the front entry is missing,
    reading the front entry succeeds: [self[-1]] finds every blob of the
    chain and returns a content. *)
Theorem getitem_when_not_waiting (fuel : nat) (self : Feed) (d : disk)
  (wire : bytes) (size num_bytes : Z) :
  1 <= front_seq self ->
  get_wire self (-1) d = Ok wire -> length wire = 120%nat ->
  VarInt.from_var_int (Py.slice wire 8 56) = Ok (size, num_bytes) ->
  waiting_for_blob (S fuel) self d = Ok None ->
  exists content, getitem (S fuel) self (-1) d = Ok content.
Proof.
  intros Hfront Hwire Hlen Hvar. unfold waiting_for_blob, getitem, len.
  rewrite Hwire.
  destruct (Z.ltb_spec (front_seq self) 1); [lia|].
  cbn [mbind res_bind].
  destruct (negb (Bytes.eqb (Py.slice wire 7 8) chain20)); [now eexists|].
  rewrite Hvar. cbn [mbind res_bind]. cbv zeta.
  rewrite (payload_pointer wire Hlen).
  destruct (Bytes.eqb (Py.slice wire 36 56) (Bytes.zeros 20)) eqn:Hnull.
  - intros _. cbn [unwrap_chain]. rewrite Hnull. cbn [negb mbind res_bind].
    now eexists.
  - intros Hwait.
    destruct (unwrap_chain_when_not_waiting _ _ _ Hwait
                (Py.slice (Py.slice wire 8 56) num_bytes (-20)))
      as [content' Hunwrap].
    rewrite Hunwrap. cbn [mbind res_bind]. now eexists.
Qed.

Section WithCrypto.
Context `{Crypto}.

(** X27. [verify_and_append_blob] accepts a blob only when the feed waits
    for it: the pointer [waiting_for_blob] returned is the first 20 bytes of
    the hash of the blob; the blob is then stored under that pointer, the
    log files are as they were, and the feed no longer waits for that
    blob. *)
Theorem verify_and_append_blob_accepted (fuel : nat) (self : Feed)
  (wire : bytes) (d d' : disk) :
  verify_and_append_blob fuel self wire d = Ok (true, d') ->
  exists ptr : bytes,
    waiting_for_blob fuel self d = Ok (Some ptr)
    /\ ptr = Py.slice_to (sha256 wire) 20
    /\ _get_blob ptr d' = Some wire
    /\ files d' = files d
    /\ forall fuel' : nat, waiting_for_blob fuel' self d' <> Ok (Some ptr).
Proof.
  unfold verify_and_append_blob, assert, len_is.
  destruct (Nat.eqb_spec (length wire) 120) as [Hlen|];
    cbn [mbind res_bind]; [|discriminate].
  set (blob := new_Blob (Py.slice_to wire (-20)) (Py.slice_from wire (-20))).
  destruct (waiting_for_blob fuel self d) as [waiting| |] eqn:Hwait;
    cbn [mbind res_bind]; [|discriminate..].
  destruct (bool_decide_reflect (waiting = Some (blob_signature blob)))
    as [->|]; [|discriminate].
  cbn [negb].
  assert (Hwire : blob_wire blob = wire).
  { unfold blob, new_Blob. cbn [blob_wire].
    unfold Py.slice_to, Py.slice_from. apply take_drop. }
  assert (Hsig : blob_signature blob = Py.slice_to (sha256 wire) 20).
  { rewrite <- Hwire. reflexivity. }
  intros Hres.
  assert (Hd : (_write_blob [blob] d).2 = d') by (now inversion Hres).
  clear Hres. cbn [_write_blob foldl snd] in Hd. subst d'.
  assert (Hget : _get_blob (blob_signature blob)
                   {| files := files d;
                      blobs := <[blob_signature blob := blob_wire blob]> (blobs d) |}
                 = Some wire).
  { unfold _get_blob. cbn [blobs]. rewrite lookup_insert_eq. cbn [mbind option_bind].
    rewrite Hwire. f_equal. apply slice_to_all. lia. }
  exists (blob_signature blob).
  split; [reflexivity|]. split; [exact Hsig|].
  split; [exact Hget|]. split; [reflexivity|].
  intros fuel' Hwait'. apply waiting_for_blob_missing in Hwait'.
  unfold _get_blob in Hget. rewrite Hwait' in Hget. discriminate.
Qed.

End WithCrypto.

(** ** The scenarios *)

Import Scenario.

(** The scenario: the feed of [log_feed] after [append_blob] of a content of
    130 bytes holds both blobs of the chain. *)
Lemma getitem_of_blob_log :
  exists content : bytes,
    getitem 10 blob_log_state.1.2 (-1) blob_log_state.2 = Ok content.
Proof.
  apply (getitem_when_not_waiting 9 blob_log_state.1.2 blob_log_state.2
           (value_of (get_wire blob_log_state.1.2 (-1) blob_log_state.2) [])
           130 1); by_computation.
Defined.

(** The scenario: a replica that holds the head packet of the chain is given
    the blob the head packet points to. *)
Lemma verify_and_append_head_blob :
  exists ptr : bytes,
    waiting_for_blob 10 head_only_state.1.2 head_only_state.2 = Ok (Some ptr)
    /\ ptr = Py.slice_to (@sha256 test_crypto head_blob_wire) 20
    /\ _get_blob ptr head_blob_disk = Some head_blob_wire
    /\ files head_blob_disk = files head_only_state.2
    /\ forall fuel' : nat,
         waiting_for_blob fuel' head_only_state.1.2 head_blob_disk <> Ok (Some ptr).
Proof.
  apply (@verify_and_append_blob_accepted test_crypto 10 head_only_state.1.2
           head_blob_wire head_only_state.2 head_blob_disk).
  by_computation.
Defined.

End BlobFacts.

(** ** The class based feed: blob chains on disk *)

Module BlobChainFacts.
Import Deprecated BytesFacts SliceFacts PyFacts DeprecatedFacts CodecFacts
  PacketFacts StoreFacts ChainFacts LogFacts BlobFacts.

(** [_write_blob] leaves the log files alone. *)
Lemma files_write_blob (chain : list Blob) (d : disk) :
  files (_write_blob chain d).2 = files d.
Proof.
  unfold _write_blob. cbn [snd]. revert d.
  induction chain as [|b chain IH]; intros d; [reflexivity|].
  cbn [foldl]. now rewrite IH.
Qed.

Lemma blobs_write_blob_other (chain : list Blob) (d : disk) (k : bytes) :
  k ∉ (blob_signature <$> chain) ->
  blobs (_write_blob chain d).2 !! k = blobs d !! k.
Proof.
  unfold _write_blob. cbn [snd]. revert d.
  induction chain as [|b chain IH]; intros d Hk; [reflexivity|].
  cbn [foldl]. rewrite fmap_cons, not_elem_of_cons in Hk. destruct Hk as [Hne Hk].
  rewrite IH by exact Hk. cbn [blobs]. now rewrite lookup_insert_ne.
Qed.

(** Blobs with different signatures are all found after [_write_blob]. *)
Lemma blobs_write_blob (chain : list Blob) (d : disk) (b : Blob) :
  NoDup (blob_signature <$> chain) -> b ∈ chain ->
  blobs (_write_blob chain d).2 !! blob_signature b = Some (blob_wire b).
Proof.
  revert d. induction chain as [|b0 chain IH]; intros d Hnd Hb.
  - now apply elem_of_nil in Hb.
  - rewrite fmap_cons in Hnd. apply NoDup_cons in Hnd as [Hfresh Hnd].
    apply elem_of_cons in Hb as [->|Hb].
    + change (_write_blob (b0 :: chain) d).2
        with (_write_blob chain
                {| files := files d;
                   blobs := <[blob_signature b0 := blob_wire b0]> (blobs d) |}).2.
      rewrite blobs_write_blob_other by exact Hfresh.
      cbn [blobs]. apply lookup_insert_eq.
    + change (_write_blob (b0 :: chain) d).2
        with (_write_blob chain
                {| files := files d;
                   blobs := <[blob_signature b0 := blob_wire b0]> (blobs d) |}).2.
      now apply IH.
Qed.

Lemma get_wire_same_files (self : Feed) (i : Z) (d d' : disk) :
  files d' = files d -> get_wire self i d' = get_wire self i d.
Proof. intros Hfiles. unfold get_wire. now rewrite Hfiles. Qed.

(** [append_pkt] appends whenever the feed has not ended. *)
Lemma append_pkt_not_ended (self self' : Feed) (pkt : Packet) (d d' : disk)
  (ok : bool) :
  has_ended self d = Ok false ->
  append_pkt self pkt d = Ok (ok, self', d') -> ok = true.
Proof.
  intros Hended. unfold append_pkt. rewrite Hended. cbn [mbind res_bind].
  destruct (wire pkt); [|discriminate]. destruct (mid pkt); [|discriminate].
  destruct (assert _); cbn [mbind res_bind]; [|discriminate..].
  destruct (files d !! file_name self); [|discriminate].
  destruct (_update_header _ _); cbn [mbind res_bind]; [|discriminate..].
  now intros [= <- _ _].
Qed.

Section WithCrypto.
Context `{Crypto}.
Hypothesis Hsha : forall msg, length (sha256 msg) = 32%nat.

(** The loop of [create_chain] makes a chain that the loop of [__getitem__]
    follows back through the content, once the blobs are in their files. *)
Lemma chain_loop_unwraps (n : nat) :
  forall (content ptr0 : bytes) (chain0 : list Blob) (fuel : nat),
  length content = (100 * n)%nat -> (n < fuel)%nat -> length ptr0 = 20%nat ->
  exists (chain : list Blob) (ptr : bytes),
    chain_loop fuel content ptr0 chain0 = Ok (chain0 ++ chain, ptr)
    /\ length ptr = 20%nat /\ length chain = n
    /\ forall (d : disk) (acc : bytes) (fuel' : nat),
         (forall b, b ∈ chain ->
                    blobs d !! blob_signature b = Some (blob_wire b)) ->
         (forall b, b ∈ chain -> blob_signature b <> Bytes.zeros 20) ->
         unwrap_chain (n + fuel') d acc ptr
         = unwrap_chain fuel' d (acc ++ content) ptr0.
Proof.
  induction n as [|n IH]; intros content ptr0 chain0 fuel Hlen Hfuel Hptr0.
  - destruct content; [|discriminate].
    destruct fuel as [|fuel]; [lia|].
    exists [], ptr0. cbn [chain_loop length Nat.eqb negb]. rewrite !app_nil_r.
    repeat split; try assumption.
    intros d acc fuel' _ _. now rewrite app_nil_r.
  - destruct fuel as [|fuel]; [lia|].
    assert (Hsplit : content = take (100 * n) content ++ drop (100 * n) content)
      by now rewrite take_drop.
    set (front := take (100 * n) content) in *.
    set (back := drop (100 * n) content) in *.
    assert (Hfront : length front = (100 * n)%nat)
      by (unfold front; rewrite length_take; lia).
    assert (Hback : length back = 100%nat)
      by (unfold back; rewrite length_drop; lia).
    cbn [chain_loop].
    destruct (length content =? 0)%nat eqn:Hzero;
      [apply Nat.eqb_eq in Hzero; lia|]. cbn [negb].
    rewrite Hsplit.
    destruct (slice_last_100 front back Hback) as [-> ->].
    set (blob := new_Blob back ptr0).
    assert (Hsig : length (blob_signature blob) = 20%nat)
      by (apply (length_slice_to_sha _ 20); [assumption|lia]).
    destruct (IH front (blob_signature blob) (chain0 ++ [blob]) fuel Hfront)
      as (chain & ptr & Hloop & Hptr & Hchain & Hunwrap); [lia|exact Hsig|].
    exists (blob :: chain), ptr. split; [|split; [|split]].
    + rewrite Hloop. now rewrite <- app_assoc.
    + exact Hptr.
    + cbn [length]. now rewrite Hchain.
    + intros d acc fuel' Hd Hnz.
      replace (S n + fuel')%nat with (n + S fuel')%nat by lia.
      rewrite Hunwrap.
      2:{ intros b Hb. apply Hd. now right. }
      2:{ intros b Hb. apply Hnz. now right. }
      cbn [unwrap_chain]. unfold Bytes.eqb.
      rewrite bool_decide_eq_false_2 by (apply Hnz; now left). cbn [negb].
      unfold _get_blob. rewrite (Hd blob) by now left.
      cbn [mbind option_bind blob blob_wire new_Blob].
      rewrite (slice_to_all (back ++ ptr0) 120)
        by (rewrite length_app, Hback, Hptr0; lia).
      rewrite (slice_to_app back ptr0) by now rewrite Hback.
      rewrite (slice_from_app back ptr0) by now rewrite Hback.
      now rewrite <- app_assoc.
Qed.

(** The head packet and the chain that [create_chain] makes. *)
Lemma create_chain_unwraps (fid seq prev_mid content skey : bytes)
  (pkt : Packet) (chain : list Blob) :
  Z.of_nat (length content) < 2 ^ 64 ->
  create_chain fid seq prev_mid content skey = Ok (pkt, chain) ->
  let var := VarInt.to_var_int (Z.of_nat (length content)) in
  exists head rest ptr : bytes,
    new_Packet fid seq prev_mid (var ++ head ++ ptr) chain20 (Some skey) = Ok pkt
    /\ length (var ++ head) = 28%nat /\ length ptr = 20%nat
    /\ Py.slice_to (head ++ rest) (Z.of_nat (length content)) = content
    /\ forall (d : disk) (acc : bytes) (fuel : nat),
         (forall b, b ∈ chain ->
                    blobs d !! blob_signature b = Some (blob_wire b)) ->
         (forall b, b ∈ chain -> blob_signature b <> Bytes.zeros 20) ->
         (length chain < fuel)%nat ->
         unwrap_chain fuel d acc ptr = Ok (acc ++ rest).
Proof.
  intros Hsize Hcreate. unfold create_chain in Hcreate. cbv zeta in Hcreate.
  cbv zeta.
  set (var := VarInt.to_var_int (Z.of_nat (length content))) in *.
  pose proof (length_to_var_int (Z.of_nat (length content))) as Hvar1.
  pose proof (length_to_var_int_le (Z.of_nat (length content))) as Hvar9.
  fold var in Hvar1, Hvar9.
  destruct (Z.geb_spec (28 - Z.of_nat (length (var ++ content))) 0) as [Hshort|Hlong].
  - (* the content fits the head packet *)
    cbn [mbind res_bind] in Hcreate.
    match type of Hcreate with
    | context [assert (len_is ?p 48)] => set (payload := p) in *
    end.
    unfold len_is in Hcreate.
    destruct (length payload =? 48)%nat eqn:Hlen; [|discriminate].
    apply Nat.eqb_eq in Hlen. cbn [assert mbind res_bind] in Hcreate.
    destruct (new_Packet _ _ _ _ _ _) as [p| |] eqn:Hpkt; [|discriminate..].
    cbn [mbind res_bind] in Hcreate. injection Hcreate as <- <-.
    set (fill := Bytes.zeros (Z.to_nat (28 - Z.of_nat (length (var ++ content))))) in *.
    rewrite length_app in Hshort.
    assert (Hfill : (length var + length content + length fill = 28)%nat)
      by (unfold fill; rewrite length_zeros, length_app; lia).
    exists (content ++ fill), [], (Bytes.zeros 20).
    split; [|split; [|split; [|split]]].
    + unfold payload in Hpkt. rewrite <- !app_assoc in Hpkt.
      rewrite <- !app_assoc. exact Hpkt.
    + rewrite !length_app. lia.
    + apply length_zeros.
    + rewrite app_nil_r. apply slice_to_app. reflexivity.
    + intros d acc fuel _ _ Hfuel. destruct fuel as [|fuel]; [cbn in Hfuel; lia|].
      cbn [unwrap_chain]. unfold Bytes.eqb.
      rewrite bool_decide_eq_true_2 by reflexivity. cbn [negb].
      now rewrite app_nil_r.
  - (* the content needs blobs *)
    rewrite length_app in Hlong.
    set (rest := Py.slice_from (var ++ content) 28) in *.
    set (pad := Z.to_nat (100 - Z.of_nat (length rest) mod 100)) in *.
    assert (Hrest : rest = drop (28 - length var) content).
    { unfold rest, Py.slice_from.
      change 28 with (Z.of_nat 28).
      rewrite clamp_inside by (rewrite length_app; lia).
      rewrite drop_app_ge by lia. reflexivity. }
    assert (Hhead : Py.slice_to (var ++ content) 28
                    = var ++ take (28 - length var) content).
    { unfold Py.slice_to. change 28 with (Z.of_nat 28).
      rewrite clamp_inside by (rewrite length_app; lia).
      rewrite take_app_ge by lia. reflexivity. }
    pose proof (Z.mod_pos_bound (Z.of_nat (length rest)) 100 eq_refl) as Hmod.
    pose proof (Z.div_mod (Z.of_nat (length rest)) 100) as Hdiv.
    assert (Hpadded : length (rest ++ Bytes.zeros pad)
                      = (100 * (Z.to_nat (Z.of_nat (length rest) / 100) + 1))%nat).
    { rewrite length_app, length_zeros. unfold pad.
      assert (0 <= Z.of_nat (length rest) / 100) by (apply Z.div_pos; lia).
      lia. }
    destruct (chain_loop_unwraps _ (rest ++ Bytes.zeros pad) (Bytes.zeros 20) []
                (S (length (rest ++ Bytes.zeros pad))) Hpadded)
      as (blobs & ptr & Hloop & Hptr & Hblobs & Hunwrap);
      [lia|apply length_zeros|].
    rewrite Hloop in Hcreate. cbn [mbind res_bind app] in Hcreate.
    match type of Hcreate with
    | context [assert (len_is ?p 48)] => set (payload := p) in *
    end.
    unfold len_is in Hcreate.
    destruct (length payload =? 48)%nat eqn:Hlen; [|discriminate].
    apply Nat.eqb_eq in Hlen. cbn [assert mbind res_bind] in Hcreate.
    destruct (new_Packet _ _ _ _ _ _) as [p| |] eqn:Hpkt; [|discriminate..].
    cbn [mbind res_bind] in Hcreate. injection Hcreate as <- <-.
    exists (take (28 - length var) content), (rest ++ Bytes.zeros pad), ptr.
    split; [|split; [|split; [|split]]].
    + unfold payload in Hpkt. now rewrite Hhead, <- !app_assoc in Hpkt.
    + rewrite length_app, length_take. lia.
    + exact Hptr.
    + rewrite Hrest, app_assoc, take_drop. apply slice_to_app. reflexivity.
    + intros d acc fuel Hd Hnz Hfuel. rewrite length_rev in Hfuel.
      cbn [app] in Hunwrap.
      replace fuel
        with (Z.to_nat (Z.of_nat (length rest) / 100) + 1
              + S (fuel - S (length blobs)))%nat by lia.
      rewrite Hunwrap.
      * cbn [unwrap_chain]. unfold Bytes.eqb.
        now rewrite bool_decide_eq_true_2 by reflexivity.
      * intros b Hb. apply Hd. rewrite rev_alt. now apply elem_of_reverse.
      * intros b Hb. apply Hnz. rewrite rev_alt. now apply elem_of_reverse.
Qed.

End WithCrypto.

Section Theorems.
Context `{Crypto}.

(** X28. Blob chain round trip: on a feed that has not ended (anchor not
    negative, complete log file, room for one more sequence number, hashes
    of 32 bytes), when [append_blob] has appended a content of less than
    2^64 bytes, and the pointers of the blobs of its chain differ from each
    other and from the null pointer, [self[-1]] follows the chain through
    the blob files and returns the content, given fuel for every blob. *)
Theorem getitem_after_append_blob (fuel : nat) (self self' : Feed)
  (content skey : bytes) (pkt : Packet) (chain : list Blob) (d d' : disk) :
  (forall msg, length (sha256 msg) = 32%nat) ->
  0 <= anchor_seq self -> log_complete self d ->
  front_seq self + 1 < 2 ^ 32 ->
  has_ended self d = Ok false ->
  Z.of_nat (length content) < 2 ^ 64 ->
  feed_skey self = Some skey ->
  create_chain (feed_fid self) (Bytes.to_big 4 (front_seq self + 1))
    (front_mid self) content skey = Ok (pkt, chain) ->
  NoDup (blob_signature <$> chain) ->
  Bytes.zeros 20 ∉ (blob_signature <$> chain) ->
  (length chain < fuel)%nat ->
  append_blob self content d = Ok (true, self', d') ->
  getitem fuel self' (-1) d' = Ok content
  /\ front_seq self' = front_seq self + 1.
Proof.
  intros Hsha Hanchor [Hfront (file & Hfile & Hlen)] _ Hended Hsize Hskey Hcreate
    Hnodup Hnz Hfuel Happend.
  unfold append_blob in Happend. rewrite Hskey, Hcreate in Happend.
  cbn [mbind res_bind] in Happend.
  destruct (append_pkt self pkt d) as [[[ok self1] d1]| |] eqn:Hpkt;
    cbn [mbind res_bind] in Happend; [|discriminate..].
  pose proof (append_pkt_not_ended _ _ _ _ _ _ Hended Hpkt) as ->.
  assert (Hself : self' = self1) by (now inversion Happend).
  assert (Hd' : d' = (_write_blob chain d1).2)
    by (destruct (_write_blob chain d1); now inversion Happend).
  clear Happend. subst self1.
  apply append_pkt_true in Hpkt
    as (w & m & file' & Hwire & Hmid & Hw & Hm & Hfile' & _ & Hself & Hd1).
  rewrite Hfile in Hfile'. injection Hfile' as <-.
  split; [|now rewrite Hself].
  apply (create_chain_unwraps Hsha) in Hcreate; [|exact Hsize].
  cbv zeta in Hcreate.
  destruct Hcreate as (head & rest & ptr & Hnew & Hhead & Hptr & Hcontent & Hunwrap).
  set (var := VarInt.to_var_int (Z.of_nat (length content))) in *.
  apply new_Packet_signed in Hnew as (_ & _ & _ & _ & Hle & ->).
  unfold wire in Hwire. apply (inj Some) in Hwire.
  assert (Hpay : pad48 (var ++ head ++ ptr) = var ++ head ++ ptr).
  { unfold pad48. rewrite app_assoc, length_app, Hhead, Hptr. cbn. apply app_nil_r. }
  rewrite Hpay in Hwire.
  set (dmx := Py.slice_to (sha256 (prefix ++ feed_fid self
               ++ Bytes.to_big 4 (front_seq self + 1) ++ front_mid self)) 7) in *.
  assert (Hdmx : length dmx = 7%nat)
    by (apply (length_slice_to_sha _ 7); [assumption|lia]).
  unfold getitem.
  rewrite (get_wire_same_files self' (-1) d1 d')
    by (rewrite Hd'; apply files_write_blob).
  rewrite (file_wire_front self self' d d1 w m file) by assumption.
  cbn [mbind res_bind]. rewrite <- Hwire.
  match goal with
  | |- context [dmx ++ chain20 ++ (var ++ head ++ ptr) ++ ?s] => set (sg := s)
  end.
  rewrite (slice_middle dmx chain20) by (rewrite ?Hdmx; reflexivity).
  unfold Bytes.eqb at 1. rewrite bool_decide_eq_true_2 by reflexivity. cbn [negb].
  assert (Hpayload : Py.slice (dmx ++ chain20 ++ (var ++ head ++ ptr) ++ sg) 8 56
                     = var ++ head ++ ptr).
  { rewrite (app_assoc dmx).
    apply slice_middle; rewrite ?length_app, ?Hdmx; [reflexivity|].
    rewrite !length_app in Hhead. rewrite Hptr.
    change (length chain20) with 1%nat. lia. }
  rewrite Hpayload.
  pose proof (from_var_int_to_var_int (Z.of_nat (length content)) (head ++ ptr))
    as Hvar.
  fold var in Hvar. rewrite Hvar by lia.
  cbn [mbind res_bind].
  assert (Hmid' : Py.slice (var ++ head ++ ptr) (Z.of_nat (length var)) (-20) = head).
  { unfold Py.slice, Py.clamp.
    destruct (Z.ltb_spec (Z.of_nat (length var)) 0); [lia|].
    destruct (Z.ltb_spec (-20) 0); [|lia].
    rewrite length_app in Hhead.
    rewrite !length_app, Hptr.
    rewrite Z.min_l by lia. rewrite Nat2Z.id, drop_app_length.
    replace (Z.to_nat (Z.max 0 (-20 + Z.of_nat (length var + (length head + 20))))
             - length var)%nat
      with (length head) by lia.
    apply take_app_length. }
  assert (Hlast : Py.slice_from (var ++ head ++ ptr) (-20) = ptr).
  { unfold Py.slice_from, Py.clamp.
    destruct (Z.ltb_spec (-20) 0); [|lia].
    rewrite (app_assoc var), length_app, Hhead, Hptr.
    replace (Z.to_nat (Z.max 0 (-20 + Z.of_nat (28 + 20))))
      with (length (var ++ head)) by (rewrite Hhead; reflexivity).
    apply drop_app_length. }
  rewrite Hmid', Hlast.
  rewrite (Hunwrap d' head fuel).
  - cbn [mbind res_bind]. now rewrite Hcontent.
  - intros b Hb. rewrite Hd'. now apply blobs_write_blob.
  - intros b Hb Hzero. apply Hnz. rewrite <- Hzero.
    apply list_elem_of_fmap. now exists b.
  - exact Hfuel.
Qed.

End Theorems.

(** The scenario: a content of 130 bytes on [log_feed]; the chain has two
    blobs. *)
Lemma getitem_of_blob_chain :
  getitem 10 Scenario.blob_log_state.1.2 (-1) Scenario.blob_log_state.2
  = Ok (Scenario.counting 130).
Proof.
  refine (proj1 (@getitem_after_append_blob Scenario.test_crypto 10
                   Scenario.log_feed Scenario.blob_log_state.1.2
                   (Scenario.counting 130) Scenario.key_1
                   Scenario.chain_of_130.1 Scenario.chain_of_130.2
                   Scenario.log_disk Scenario.blob_log_state.2
                   _ _ _ _ _ _ _ _ _ _ _ _)).
  - intros msg. apply length_test_sha256.
  - by_computation.
  - exact log_complete_log_feed.
  - by_computation.
  - by_computation.
  - by_computation.
  - reflexivity.
  - by_computation.
  - apply (bool_decide_unpack _). vm_compute. exact I.
  - apply (bool_decide_unpack _). vm_compute. exact I.
  - vm_compute. lia.
  - by_computation.
Defined.

End BlobChainFacts.

(** ** The version manager: the queue and the apply step *)

Module QueueFacts.
Import VersionManager PacketFacts.

Section WithFeeds.
Context {feed : Type} `{FeedStore feed}.

(** What [enqueue] leaves behind when the update feed is set. *)
Lemma enqueue_queued (w : world feed) (fid : bytes) (int_seq : Z) (uf : feed) :
  update_feed (self w) = Some uf ->
  exists w1 : world feed,
    enqueue w fid int_seq = (Ok tt, w1)
    /\ apply_queue (self w1) !! fid = Some int_seq
    /\ (forall other, other <> fid ->
          apply_queue (self w1) !! other = apply_queue (self w) !! other)
    /\ apply_dict (self w1) = apply_dict (self w)
    /\ files w1 = files w
    /\ vc_feed (self w1) = vc_feed (self w)
    /\ enqueue w1 fid int_seq = (Ok tt, w1).
Proof.
  intros Huf. unfold enqueue. cbv zeta.
  destruct (bool_decide_reflect (apply_queue (self w) !! fid = Some int_seq))
    as [Hin|Hout].
  - exists w. rewrite bool_decide_eq_true_2 by exact Hin. now repeat split.
  - unfold _save_config. cbn [set_self self update_feed]. rewrite Huf.
    eexists. split; [reflexivity|]. cbn [self apply_queue apply_dict files vc_feed].
    rewrite lookup_insert_eq.
    rewrite bool_decide_eq_true_2 by reflexivity.
    repeat split; try reflexivity.
    intros other Hother. now rewrite lookup_insert_ne.
Qed.

(** X29. An update that cannot be applied yet is queued once: on a manager
    with its version control feed and update feed set, when the file feed is
    not there, or does not hold the version yet, or waits for a blob of it,
    [_apply_update] returns with the version in [apply_queue] under the feed
    ID, changes no other entry of the queue, no entry of [apply_dict] and no
    file, and a second call with the same arguments changes nothing at
    all. *)
Theorem apply_update_waits (fuel : nat) (w : world feed) (fid seq : bytes)
  (vc uf : feed) :
  vc_feed (self w) = Some vc -> update_feed (self w) = Some uf ->
  (get_feed fid = None
   \/ exists (file_feed : feed) (file_name : string) (version_num : Z),
        get_feed fid = Some file_feed
        /\ get_upd file_feed = Some (file_name, version_num)
        /\ (feed_length file_feed - 3 + version_num < Bytes.from_big seq
            \/ (feed_length file_feed - 3 + version_num = Bytes.from_big seq
                /\ truthy (waiting_for_blob file_feed) = true))) ->
  exists w1 : world feed,
    _apply_update fuel w fid seq = (Ok tt, w1)
    /\ apply_queue (self w1) !! fid = Some (Bytes.from_big seq)
    /\ (forall other, other <> fid ->
          apply_queue (self w1) !! other = apply_queue (self w) !! other)
    /\ apply_dict (self w1) = apply_dict (self w)
    /\ files w1 = files w
    /\ _apply_update fuel w1 fid seq = (Ok tt, w1).
Proof.
  intros Hvc Huf Hwait.
  destruct (enqueue_queued w fid (Bytes.from_big seq) uf Huf)
    as (w1 & Hq & Hin & Hother & Hdict & Hfiles & Hvc1 & Hagain).
  assert (Hrun : forall w0 : world feed,
            vc_feed (self w0) = Some vc ->
            _apply_update fuel w0 fid seq = enqueue w0 fid (Bytes.from_big seq)).
  { intros w0 Hvc0. unfold _apply_update. rewrite Hvc0. cbv zeta.
    destruct Hwait as [->|(file_feed & file_name & version_num & -> & -> & Hnewest)];
      [reflexivity|].
    destruct Hnewest as [Hlt|[Heq Hblob]].
    - now destruct (Z.ltb_spec (feed_length file_feed - 3 + version_num)
                      (Bytes.from_big seq)); [|lia].
    - destruct (Z.ltb_spec (feed_length file_feed - 3 + version_num)
                  (Bytes.from_big seq)); [reflexivity|].
      destruct (Z.eqb_spec (feed_length file_feed - 3 + version_num)
                  (Bytes.from_big seq)); [|lia].
      now rewrite Hblob. }
  exists w1. rewrite (Hrun w Hvc), (Hrun w1) by (now rewrite Hvc1).
  now repeat split.
Qed.

(** X30. An update that can be applied is applied once: on a manager with
    its version control feed and update feed set, for a file other than the
    configuration file [update_cfg.json], when the version is there (the
    feed holds it, and no blob of it is missing), the file exists,
    [apply_dict] records another version for it, and [jump_versions] and
    [apply_changes] return, [_apply_update] writes the new content to the
    file, records the version in [apply_dict], takes the feed out of
    [apply_queue] and saves this state in the configuration; a second call
    with the same arguments changes nothing. *)
Theorem apply_update_applies (fuel : nat) (w : world feed) (fid seq : bytes)
  (vc uf file_feed : feed) (file_name content new_content : string)
  (version_num current_apply : Z) (changes : list change) :
  vc_feed (self w) = Some vc -> update_feed (self w) = Some uf ->
  get_feed fid = Some file_feed ->
  get_upd file_feed = Some (file_name, version_num) ->
  file_name <> update_cfg_json ->
  Bytes.from_big seq <= feed_length file_feed - 3 + version_num ->
  (feed_length file_feed - 3 + version_num = Bytes.from_big seq ->
   truthy (waiting_for_blob file_feed) = false) ->
  files w !! file_name = Some content ->
  apply_dict (self w) !! file_name = Some current_apply ->
  Bytes.from_big seq <> current_apply ->
  jump_versions fuel current_apply (Bytes.from_big seq) file_feed = Ok changes ->
  apply_changes content changes = Ok new_content ->
  exists (w1 : world feed) (cfg : config),
    _apply_update fuel w fid seq = (Ok tt, w1)
    /\ files w1 = <[file_name := new_content]> (files w)
    /\ apply_dict (self w1) = <[file_name := Bytes.from_big seq]> (apply_dict (self w))
    /\ apply_queue (self w1) = delete fid (apply_queue (self w))
    /\ update_cfg w1 = Some cfg
    /\ cfg_apply_dict cfg = apply_dict (self w1)
    /\ cfg_apply_queue cfg = kmap Bytes.hexlify (apply_queue (self w1))
    /\ _apply_update fuel w1 fid seq = (Ok tt, w1).
Proof.
  intros Hvc Huf Hfeed Hupd _ Havail Hblob Hfile Hdict Hne Hjump Happly.
  assert (Hrun : forall w0 : world feed,
            vc_feed (self w0) = Some vc ->
            _apply_update fuel w0 fid seq
            = match files w0 !! file_name with
              | None => (Raise OSError, w0)
              | Some content =>
                  match apply_dict (self w0) !! file_name with
                  | None => (Raise KeyError, w0)
                  | Some current_apply =>
                      if Bytes.from_big seq =? current_apply then (Ok tt, w0)
                      else apply_step fuel w0 fid (Bytes.from_big seq)
                             file_feed file_name content current_apply
                  end
              end).
  { intros w0 Hvc0. unfold _apply_update. rewrite Hvc0, Hfeed, Hupd. cbv zeta.
    destruct (Z.ltb_spec (feed_length file_feed - 3 + version_num)
                (Bytes.from_big seq)); [lia|].
    destruct (Z.eqb_spec (feed_length file_feed - 3 + version_num)
                (Bytes.from_big seq)) as [Heq|_]; [|reflexivity].
    now rewrite (Hblob Heq). }
  rewrite (Hrun w Hvc), Hfile, Hdict.
  destruct (Z.eqb_spec (Bytes.from_big seq) current_apply); [contradiction|].
  unfold apply_step. rewrite Hjump, Happly.
  unfold _save_config. cbn [self update_feed]. rewrite Huf.
  eexists. eexists. split; [reflexivity|].
  cbn [files self apply_dict apply_queue update_cfg cfg_apply_dict cfg_apply_queue].
  repeat (split; [reflexivity|]).
  rewrite Hrun by exact Hvc.
  cbn [files self apply_dict]. rewrite !lookup_insert_eq.
  now rewrite Z.eqb_refl.
Qed.

End WithFeeds.

(** ** The scenarios *)

Import Scenario.

(** The scenario: [follower] is told to apply version 5 of a feed it does
    not have. *)
Lemma apply_update_of_unknown_feed :
  exists w1 : world table_feed,
    @_apply_update _ file_store 10 follower (repeat x09 32) (Bytes.to_big 4 5)
    = (Ok tt, w1)
    /\ apply_queue (self w1) !! repeat x09 32 = Some (Bytes.from_big (Bytes.to_big 4 5))
    /\ (forall other, other <> repeat x09 32 ->
          apply_queue (self w1) !! other = apply_queue (self follower) !! other)
    /\ apply_dict (self w1) = apply_dict (self follower)
    /\ files w1 = files follower
    /\ @_apply_update _ file_store 10 w1 (repeat x09 32) (Bytes.to_big 4 5)
       = (Ok tt, w1).
Proof.
  apply (@apply_update_waits _ file_store 10 follower (repeat x09 32)
           (Bytes.to_big 4 5) file_feed file_feed).
  - reflexivity.
  - reflexivity.
  - left. by_computation.
Defined.

(** The scenario: [follower_at_1] has version 1 of "f.txt" and applies
    version 3. *)
Lemma apply_update_to_version_3 :
  exists (w1 : world table_feed) (cfg : config),
    @_apply_update _ file_store 10 follower_at_1 (tf_fid file_feed)
      (Bytes.to_big 4 3) = (Ok tt, w1)
    /\ files w1 = <["f.txt" := version_text 3]> (files follower_at_1)
    /\ apply_dict (self w1)
       = <["f.txt" := Bytes.from_big (Bytes.to_big 4 3)]>
           (apply_dict (self follower_at_1))
    /\ apply_queue (self w1)
       = delete (tf_fid file_feed) (apply_queue (self follower_at_1))
    /\ update_cfg w1 = Some cfg
    /\ cfg_apply_dict cfg = apply_dict (self w1)
    /\ cfg_apply_queue cfg = kmap Bytes.hexlify (apply_queue (self w1))
    /\ @_apply_update _ file_store 10 w1 (tf_fid file_feed) (Bytes.to_big 4 3)
       = (Ok tt, w1).
Proof.
  apply (@apply_update_applies _ file_store 10 follower_at_1 (tf_fid file_feed)
           (Bytes.to_big 4 3) file_feed file_feed file_feed "f.txt"
           (version_text 1) (version_text 3) 0 1 (update_2 ++ update_3)).
  - reflexivity.
  - reflexivity.
  - by_computation.
  - reflexivity.
  - discriminate.
  - by_computation.
  - intros _. reflexivity.
  - by_computation.
  - by_computation.
  - by_computation.
  - by_computation.
  - by_computation.
Defined.

End QueueFacts.
